(** * prop-bet-analyzer: the projection and scoring engines

    A shallow embedding of the three analytical engines of the backend

      - [backend/app/core/analysis_engine.py]     (module [AnalysisEngine])
      - [backend/app/core/halftime_engine.py]     (module [HalftimeEngine])
      - [backend/app/core/game_totals_engine.py]  (module [GameTotalsEngine])

    followed by the properties established about them.

    Conventions of the embedding.
      - Python [float] arithmetic is modelled by exact rational arithmetic
        on [Q]; numeric results are compared with [==] ([Qeq]).  NaN and
        infinities have no counterpart there, and nothing is rounded.
      - Where a property turns on NaN or on rounding, the function is
        embedded a second time over IEEE 754 doubles (module [F64], the
        standard library's executable [spec_float] at precision 53); such
        a definition carries the suffix [_f64].
      - Python [int] fields (scores, fouls, ranks, plus/minus) are [Z].
      - A Python exception is a value [Raise e] of the [result] type; code
        inside [try: ... except Exception] is run with [try_except].
      - Dictionaries are stdpp [gmap]s; a dictionary that the code iterates
        over in insertion order is an association list.
      - The collaborators (history service, live client, the NBA statistics
        requests, the numerical library's line fit) are inputs: records of
        functions, or section variables.  Where the source wraps a call in
        [try ... except], the collaborator may answer with [Raise].
      - Where a property speaks about values that the source rounds before
        returning them, the local variables of the function are exposed in
        a record of their own ([..._locals]) and the returned record is
        built from it.                                                     *)

From Stdlib Require Import ZArith QArith Qminmax Qround Qabs Lqa.
From Stdlib Require Import String Ascii List Lia DecimalString Sorted.
From Stdlib Require Import Floats.SpecFloat.
From stdpp Require Import gmap strings list.
Import ListNotations.

Local Open Scope Q_scope.
Local Open Scope string_scope.

(* ================================================================== *)
(** * Python-level primitives                                          *)
(* ================================================================== *)
Module Py.

(** Exceptions that the modelled code can raise or has to absorb. *)
Inductive exn : Type :=
| TypeError
| ValueError (msg : string)
| ZeroDivisionError
| TimeoutError
| LinAlgError
| Exception (msg : string).

Inductive result (A : Type) : Type :=
| Ok (a : A)
| Raise (e : exn).
Arguments Ok {A} a.
Arguments Raise {A} e.

Definition bind {A B} (r : result A) (k : A -> result B) : result B :=
  match r with
  | Ok a => k a
  | Raise e => Raise e
  end.

(** [try: body except Exception: handler] *)
Definition try_except {A} (body : result A) (handler : exn -> A) : A :=
  match body with
  | Ok a => a
  | Raise e => handler e
  end.

Definition is_ok {A} (r : result A) : bool :=
  match r with Ok _ => true | Raise _ => false end.

(** A JSON value as it sits in a game dictionary. *)
Inductive pyval : Type :=
| PNone
| PNum (q : Q)
| PStr (s : string).

(** Comparisons on [float]. *)
Definition Qleb (x y : Q) : bool := Qle_bool x y.
Definition Qltb (x y : Q) : bool := negb (Qle_bool y x).
Definition Qgeb (x y : Q) : bool := Qle_bool y x.
Definition Qgtb (x y : Q) : bool := negb (Qle_bool x y).

(** Built-in [abs], [min], [max] on floats. *)
Definition abs (x : Q) : Q := Qabs x.
Definition min (x y : Q) : Q := Qmin x y.
Definition max (x y : Q) : Q := Qmax x y.

(** [numpy.clip(x, lo, hi)] is [minimum(maximum(x, lo), hi)]; on numbers
    (for NaN see [F64.np_clip]). *)
Definition np_clip (x lo hi : Q) : Q := Qmin (Qmax x lo) hi.

(** [round(x)]: nearest integer, ties to the even neighbour. *)
Definition round (x : Q) : Z :=
  let f := Qfloor x in
  let r := x - inject_Z f in
  if Qltb r (1 # 2) then f
  else if Qltb (1 # 2) r then (f + 1)%Z
  else if Z.even f then f else (f + 1)%Z.

(** [round(x, n)] *)
Definition round_nd (x : Q) (n : nat) : Q :=
  let scale := inject_Z (10 ^ Z.of_nat n) in
  inject_Z (round (x * scale)) / scale.

Definition sum (l : list Q) : Q := fold_right Qplus 0 l.
Definition sumZ (l : list Z) : Z := fold_right Z.add 0%Z l.
Definition len {A} (l : list A) : Z := Z.of_nat (length l).

(** [numpy.mean] and [numpy.var] (population variance) of a non-empty
    list of numbers. *)
Definition np_mean (l : list Q) : Q := sum l / inject_Z (len l).
Definition np_var (l : list Q) : Q :=
  let m := np_mean l in
  np_mean (map (fun x => (x - m) * (x - m)) l).

(** [str.lower] on the ASCII range. *)
Definition lower_ascii (c : ascii) : ascii :=
  let n := nat_of_ascii c in
  if (Nat.leb 65 n && Nat.leb n 90)%bool then ascii_of_nat (n + 32) else c.

Fixpoint lower (s : string) : string :=
  match s with
  | EmptyString => EmptyString
  | String c rest => String (lower_ascii c) (lower rest)
  end.

Definition str_eqb (a b : string) : bool := String.eqb a b.

(** [c in s] for a one-character needle. *)
Fixpoint contains_char (c : ascii) (s : string) : bool :=
  match s with
  | EmptyString => false
  | String d rest => (Ascii.eqb c d || contains_char c rest)%bool
  end.

(** [s.split(c)] *)
Fixpoint split_on (c : ascii) (s : string) : list string :=
  match s with
  | EmptyString => [EmptyString]
  | String d rest =>
      if Ascii.eqb c d then EmptyString :: split_on c rest
      else match split_on c rest with
           | hd :: tl => String d hd :: tl
           | [] => [String d EmptyString]
           end
  end.

Definition digit_of (c : ascii) : option Z :=
  let n := nat_of_ascii c in
  if (Nat.leb 48 n && Nat.leb n 57)%bool then Some (Z.of_nat (n - 48)) else None.

(** The blanks that [int(s)] and [float(s)] drop from both ends of [s]:
    tab, line feed, vertical tab, form feed, carriage return, space. *)
Definition is_space (c : ascii) : bool :=
  let n := nat_of_ascii c in
  ((Nat.leb 9 n && Nat.leb n 13) || Nat.eqb n 32)%bool.

Fixpoint lstrip (s : string) : string :=
  match s with
  | EmptyString => EmptyString
  | String c rest => if is_space c then lstrip rest else s
  end.

Fixpoint rstrip (s : string) : string :=
  match s with
  | EmptyString => EmptyString
  | String c rest =>
      match rstrip rest with
      | EmptyString => if is_space c then EmptyString else String c EmptyString
      | kept => String c kept
      end
  end.

Definition strip (s : string) : string := rstrip (lstrip s).

(** An optional sign in front of a numeral: whether it is a minus, and
    the text after it. *)
Definition split_sign (s : string) : bool * string :=
  match s with
  | String c rest =>
      if Ascii.eqb c "-" then (true, rest)
      else if Ascii.eqb c "+" then (false, rest)
      else (false, s)
  | EmptyString => (false, s)
  end.

(** The longest [digitpart] at the front of [s]: decimal digits, single
    underscores allowed between two digits.  [acc] and [n] are the value
    and the number of the digits already read; the result is the value,
    the number of digits, and the text that follows. *)
Fixpoint digitpart (s : string) (acc : Z) (n : nat) : Z * nat * string :=
  match s with
  | EmptyString => (acc, n, s)
  | String c rest =>
      match digit_of c with
      | Some d => digitpart rest (acc * 10 + d) (S n)
      | None =>
          if Ascii.eqb c "_" then
            match n, rest with
            | S _, String c' _ =>
                match digit_of c' with
                | Some _ => digitpart rest acc n
                | None => (acc, n, s)
                end
            | _, _ => (acc, n, s)
            end
          else (acc, n, s)
      end
  end.

(** [int(s)]: blanks around, an optional sign, one [digitpart]; anything
    else is a [ValueError].  Text is ASCII, as for [float] below. *)
Definition int_of_str (s : string) : result Z :=
  let '(negative, body) := split_sign (strip s) in
  match digitpart body 0 0 with
  | (v, S _, EmptyString) => Ok (if negative then - v else v)%Z
  | _ => Raise (ValueError "invalid literal for int()")
  end.

Definition pow10 (e : Z) : Q :=
  if (0 <=? e)%Z then inject_Z (10 ^ e) else 1 / inject_Z (10 ^ (- e)).

(** The optional fraction of a numeral, a point and the digits after it
    (there may be none): the digits' value, their number, and the text
    that follows. *)
Definition fraction (s : string) : Z * nat * string :=
  match s with
  | String c rest =>
      if Ascii.eqb c "." then digitpart rest 0 0 else (0%Z, O, s)
  | EmptyString => (0%Z, O, s)
  end.

(** The optional exponent that ends a numeral: [e] or [E], an optional
    sign, one [digitpart].  No exponent is the exponent 0; [None] when the
    text is something else. *)
Definition exponent (s : string) : option Z :=
  match s with
  | EmptyString => Some 0%Z
  | String c rest =>
      if (Ascii.eqb c "e" || Ascii.eqb c "E")%bool then
        let '(negative, body) := split_sign rest in
        match digitpart body 0 0 with
        | (e, S _, EmptyString) => Some (if negative then - e else e)%Z
        | _ => None
        end
      else None
  end.

(** [float(s)]: blanks around, an optional sign, then a decimal numeral
    [digitpart], [digitpart.], [.digitpart] or [digitpart.digitpart] with an
    optional exponent; anything else is a [ValueError].  The value is the
    exact decimal.  Text is ASCII: the blanks and digits outside ASCII that
    Python accepts as well are not read.  Python also reads the words
    [inf], [infinity] and [nan], and a numeral beyond the range of a
    double as an infinity; they denote no number, and the properties below
    that depend on parsed text leave them out. *)
Definition float_of_str (s : string) : result Q :=
  let '(negative, body) := split_sign (strip s) in
  let '(whole, n_whole, after_whole) := digitpart body 0 0 in
  let '(frac, n_frac, after_frac) := fraction after_whole in
  match (n_whole + n_frac)%nat, exponent after_frac with
  | S _, Some e =>
      let mantissa := (whole * 10 ^ Z.of_nat n_frac + frac)%Z in
      let q := inject_Z mantissa * pow10 (e - Z.of_nat n_frac) in
      Ok (if negative then - q else q)
  | _, _ => Raise (ValueError "could not convert string to float")
  end.

(** A character that occurs in no text that [int] accepts: an ASCII
    character that is not a blank, a sign, a digit or an underscore. *)
Definition never_in_int (c : ascii) : bool :=
  let n := nat_of_ascii c in
  (Nat.ltb n 128
   && negb (is_space c)
   && negb (Nat.leb 48 n && Nat.leb n 57)
   && negb (contains_char c "+-_"))%bool.

(** A character that occurs in no text that [float] accepts: as for
    [int], and not a point, an exponent mark, nor a letter of [infinity]
    or [nan] either. *)
Definition never_in_float (c : ascii) : bool :=
  (never_in_int c
   && negb (contains_char c ".eE")
   && negb (contains_char (lower_ascii c) "infinitynan"))%bool.

Fixpoint has_char (p : ascii -> bool) (s : string) : bool :=
  match s with
  | EmptyString => false
  | String c rest => (p c || has_char p rest)%bool
  end.

Definition str_of_Z (z : Z) : string := NilZero.string_of_int (Z.to_int z).

Fixpoint zeros (n : nat) : string :=
  match n with
  | O => ""
  | S k => "0" ++ zeros k
  end.

Definition zero_pad (width : nat) (s : string) : string :=
  zeros (width - String.length s) ++ s.

(** [f"{x:.nf}"] *)
Definition format_f (n : nat) (x : Q) : string :=
  let scale := (10 ^ Z.of_nat n)%Z in
  let v := round (x * inject_Z scale) in
  let sign := if Qltb x 0 then "-" else "" in
  let a := Z.abs v in
  let whole := str_of_Z (a / scale) in
  match n with
  | O => sign ++ whole
  | _ => sign ++ whole ++ "." ++ zero_pad n (str_of_Z (a mod scale))
  end.

(** [" ".join(parts)] *)
Fixpoint join (sep : string) (parts : list string) : string :=
  match parts with
  | [] => ""
  | [p] => p
  | p :: rest => p ++ sep ++ join sep rest
  end.

(** [s.replace(c, "")] for a one-character [c]. *)
Fixpoint remove_char (c : ascii) (s : string) : string :=
  match s with
  | EmptyString => EmptyString
  | String d rest =>
      if Ascii.eqb c d then remove_char c rest
      else String d (remove_char c rest)
  end.

(** [s.replace(ab, "")] for a two-character [ab]: occurrences are found
    from left to right and do not overlap. *)
Fixpoint remove_pair (a b : ascii) (s : string) : string :=
  match s with
  | String x (String y rest as tl) =>
      if (Ascii.eqb x a && Ascii.eqb y b)%bool then remove_pair a b rest
      else String x (remove_pair a b tl)
  | _ => s
  end.

End Py.

(* ================================================================== *)
(** * Python floats as IEEE 754 doubles                                *)
(* ================================================================== *)
Module F64.

Definition prec : Z := 53.
Definition emax : Z := 1024.

Abbreviation t := spec_float.

Definition nan : t := S754_nan.

(** [+], [-], [*], [/] and unary minus, rounded to nearest, ties to even. *)
Definition add : t -> t -> t := SFadd prec emax.
Definition sub : t -> t -> t := SFsub prec emax.
Definition mul : t -> t -> t := SFmul prec emax.
Definition div : t -> t -> t := SFdiv prec emax.
Definition neg : t -> t := SFopp.
Definition abs : t -> t := SFabs.

(** Comparisons; each is [False] when an operand is NaN. *)
Definition ltb : t -> t -> bool := SFltb.
Definition leb : t -> t -> bool := SFleb.
Definition eqb : t -> t -> bool := SFeqb.
Definition gtb (x y : t) : bool := ltb y x.
Definition geb (x y : t) : bool := leb y x.

Definition is_nan (x : t) : bool :=
  match x with S754_nan => true | _ => false end.

(** [float(n)] for an [int], and a decimal literal: [decimal 92 2] is the
    double written [0.92]. *)
Definition of_Z (n : Z) : t := binary_normalize prec emax n 0 false.
Definition decimal (n : Z) (k : nat) : t := div (of_Z n) (of_Z (10 ^ Z.of_nat k)).

(** The number that a finite double denotes (0 for infinities and NaN). *)
Definition to_Q (x : t) : Q :=
  match x with
  | S754_finite s m e =>
      let v := if (0 <=? e)%Z then inject_Z (Zpos m * 2 ^ e)
               else inject_Z (Zpos m) / inject_Z (2 ^ (- e)) in
      if s then - v else v
  | _ => 0
  end.

(** Built-in [min(a, b)] and [max(a, b)]: the first argument unless the
    second is strictly smaller (larger); a NaN in the first place stays,
    one in the second place is dropped. *)
Definition min (a b : t) : t := if ltb b a then b else a.
Definition max (a b : t) : t := if gtb b a then b else a.

(** [numpy.maximum], [numpy.minimum] and [numpy.clip]: a NaN operand is
    the result. *)
Definition np_maximum (a b : t) : t :=
  if is_nan a then a else if is_nan b then b else if gtb a b then a else b.
Definition np_minimum (a b : t) : t :=
  if is_nan a then a else if is_nan b then b else if ltb a b then a else b.
Definition np_clip (x lo hi : t) : t := np_minimum (np_maximum x lo) hi.

(** The expression [max(lo, min(hi, x))]. *)
Definition clamp (lo hi x : t) : t := max lo (min hi x).

(** [lo <= x <= hi] *)
Definition within (lo hi x : t) : bool := (leb lo x && leb x hi)%bool.

End F64.

(** [result] is a monad; stdpp's [x ← c; k] notation sequences calls that
    may raise. *)
#[global] Instance result_ret : MRet Py.result := fun A a => Py.Ok a.
#[global] Instance result_bind : MBind Py.result := fun A B k r => Py.bind r k.


(* ================================================================== *)
(** * analysis_engine.py                                               *)
(* ================================================================== *)
Module AnalysisEngine.
Import Py.

(** [@dataclass PropBetData]; [game_date] is carried as text. *)
Module PropBetData.
Record t : Type := mk {
  prop_id : Z;
  player_name : string;
  player_id : option Z;
  stat_type : string;
  line : Q;
  over_under : string;
  opponent_name : option string;
  game_date : option string
}.
End PropBetData.

(** [@dataclass PropAnalysis] *)
Module PropAnalysis.
Record t : Type := mk {
  prop_id : Z;
  player_name : string;
  stat_type : string;
  line : Q;
  over_under : string;
  confidence_score : Q;
  hit_rate_last_10 : Q;
  average_stat : Q;
  opponent_defensive_rank : option Z;
  pace_adjusted_projection : Q;
  factors : gmap string Q;
  recommendation : string;
  analysis_notes : option string
}.
End PropAnalysis.

(** One game record of the history provider: a JSON object. *)
Abbreviation game := (gmap string pyval).

(** The part of [balldontlie_service] that the engine calls.  Each of
    these methods catches its own exceptions (returning [None] or [[]]),
    so they are total. *)
Module Service.
Record t : Type := mk {
  search_player : string -> option (gmap string Z);
  get_player_stats : Z -> Z -> list game;
  search_team_by_name : string -> option (gmap string Z)
}.
End Service.

Definition STAT_TYPE_MAP : gmap string string :=
  list_to_map
    [ ("points", "pts"); ("pts", "pts");
      ("rebounds", "reb"); ("reb", "reb");
      ("assists", "ast"); ("ast", "ast");
      ("threes", "fg3m"); ("3pm", "fg3m");
      ("steals", "stl"); ("stl", "stl");
      ("blocks", "blk"); ("blk", "blk") ].

(** [STAT_TYPE_MAP.get(prop.stat_type.lower(), prop.stat_type.lower())] *)
Definition stat_key_of (stat_type : string) : string :=
  default (lower stat_type) (STAT_TYPE_MAP !! lower stat_type).

(** [game.get(key, 0)] *)
Definition get0 (g : game) (key : string) : pyval :=
  default (PNum 0) (g !! key).

(** [game.get(key)] *)
Definition get_none (g : game) (key : string) : pyval :=
  default PNone (g !! key).

(** Truthiness of an [Optional[int]] and of a dictionary. *)
Definition truthy_id (o : option Z) : bool :=
  match o with
  | Some z => negb (z =? 0)%Z
  | None => false
  end.

Definition truthy_dict {V} (o : option (gmap string V)) : bool :=
  match o with
  | Some d => negb (bool_decide (d = ∅))
  | None => false
  end.

(** The loop of [_calculate_hit_rate]: [hits] and [valid_games] are the
    two counters.  Comparing a string with the line is a [TypeError]. *)
Fixpoint hit_rate_loop (games : list game) (stat_key over_under : string)
    (line : Q) (hits valid_games : Z) : result (Z * Z) :=
  match games with
  | [] => Ok (hits, valid_games)
  | g :: rest =>
      match get0 g stat_key with
      | PNone => hit_rate_loop rest stat_key over_under line hits valid_games
      | PNum v =>
          let valid_games := (valid_games + 1)%Z in
          if (str_eqb over_under "over" && Qgtb v line)%bool then
            hit_rate_loop rest stat_key over_under line (hits + 1)%Z valid_games
          else if (str_eqb over_under "under" && Qltb v line)%bool then
            hit_rate_loop rest stat_key over_under line (hits + 1)%Z valid_games
          else hit_rate_loop rest stat_key over_under line hits valid_games
      | PStr _ =>
          let valid_games := (valid_games + 1)%Z in
          if str_eqb over_under "over" then Raise TypeError
          else if str_eqb over_under "under" then Raise TypeError
          else hit_rate_loop rest stat_key over_under line hits valid_games
      end
  end.

Definition _calculate_hit_rate (games : list game) (prop : PropBetData.t)
  : result Q :=
  let stat_key := stat_key_of (PropBetData.stat_type prop) in
  '(hits, valid_games) ←
     hit_rate_loop games stat_key (PropBetData.over_under prop)
                   (PropBetData.line prop) 0%Z 0%Z;
  mret (if (valid_games >? 0)%Z
        then inject_Z hits / inject_Z valid_games * 100
        else 0).

(** The numbers of a list of values; [numpy] rejects a string. *)
Fixpoint as_numbers (vals : list pyval) : result (list Q) :=
  match vals with
  | [] => Ok []
  | PNum q :: rest => qs ← as_numbers rest; mret (q :: qs)
  | _ :: _ => Raise TypeError
  end.

Definition is_not_none (v : pyval) : bool :=
  match v with PNone => false | _ => true end.

Definition _calculate_average_stat (games : list game) (stat_key : string)
  : result Q :=
  let values := List.filter is_not_none
                       (map (fun g => get0 g stat_key) games) in
  match values with
  | [] => Ok 0
  | _ => qs ← as_numbers values; mret (np_mean qs)
  end.

Definition truthy (v : pyval) : bool :=
  match v with
  | PNone => false
  | PNum q => negb (Qeq_bool q 0)
  | PStr s => negb (str_eqb s "")
  end.

(** One entry of the minutes list: ["34:25"] is [34 + 25/60]. *)
Definition minutes_value (m : pyval) : result Q :=
  match m with
  | PStr s =>
      if contains_char ":" s then
        match split_on ":" s with
        | p0 :: p1 :: _ =>
            a ← int_of_str p0;
            b ← int_of_str p1;
            mret (inject_Z a + inject_Z b / 60)
        | _ => Raise (Exception "IndexError")
        end
      else float_of_str s
  | PNum q => Ok q
  | PNone => Ok 0
  end.

Fixpoint minutes_values (ms : list pyval) : result (list Q) :=
  match ms with
  | [] => Ok []
  | m :: rest =>
      v ← minutes_value m;
      vs ← minutes_values rest;
      mret (v :: vs)
  end.

Section WithNumpy.
(** [numpy.polyfit(range(len(ys)), ys, 1)[0]]: the slope of the
    least-squares line through the points [(i, ys[i])].  It belongs to
    the numerical library and is taken as given. *)
Variable np_polyfit_slope : list Q -> result Q.

Definition _analyze_factors (games : list game) (prop : PropBetData.t)
    (stat_key : string) : result (gmap string Q) :=
  let factors : gmap string Q := ∅ in
  (* Recent trend *)
  factors ←
    (if (len games >=? 5)%Z then
       let recent_stats :=
         map (fun g => get0 g stat_key)
             (List.filter (fun g => is_not_none (get_none g stat_key))
                          (take 5 games)) in
       match recent_stats with
       | [] => Ok factors
       | _ =>
           ys ← as_numbers recent_stats;
           trend ← np_polyfit_slope ys;
           mret (<["recent_trend" := np_clip (trend / 5) (-1) 1]> factors)
       end
     else Ok factors);
  (* Consistency *)
  let stats :=
    map (fun g => get0 g stat_key)
        (List.filter (fun g => is_not_none (get_none g stat_key)) games) in
  factors ←
    (match stats with
     | [] => Ok factors
     | _ =>
         ys ← as_numbers stats;
         let variance := np_var ys in
         let consistency_score := 1 - min (variance / 50) 1 in
         mret (<["consistency" := consistency_score]> factors)
     end);
  (* Home/Away and rest days: neutral *)
  let factors := <["home_away" := 0]> factors in
  let factors := <["rest" := 0]> factors in
  (* Minutes played trend *)
  let minutes :=
    map (fun g => default (PStr "0:00") (g !! "min"))
        (List.filter (fun g => truthy (get_none g "min")) games) in
  let factors :=
    match minutes with
    | [] => factors
    | _ =>
        try_except
          (min_values ← minutes_values minutes;
           match min_values with
           | [] => mret factors
           | _ =>
               let avg_minutes := np_mean min_values in
               mret (<["playing_time" := min (avg_minutes / 35) 1]> factors)
           end)
          (fun _ => <["playing_time" := 0.5]> factors)
    end in
  mret factors.
End WithNumpy.

Definition factor_weights : list (string * Q) :=
  [ ("recent_trend", 8); ("consistency", 10); ("home_away", 5);
    ("rest", 3); ("playing_time", 8) ].

Definition _calculate_confidence (hit_rate : Q) (factors : gmap string Q)
    (avg_stat line : Q) : Q :=
  (* Base confidence from hit rate *)
  let base_confidence := hit_rate in
  (* Distance from line adjustment *)
  let distance_from_line := abs (avg_stat - line) in
  let distance_boost :=
    if Qgtb avg_stat line then min (distance_from_line * 2) 10
    else - min (distance_from_line * 2) 10 in
  (* Factor adjustments *)
  let factor_adjustment :=
    sum (map (fun kv => default 0 (factors !! fst kv) * snd kv) factor_weights) in
  let confidence := base_confidence + distance_boost + factor_adjustment in
  np_clip confidence 0 100.

(** [_calculate_confidence] on doubles.  The weights are [int]s; [sum]
    adds from the left, starting at 0. *)
Definition factor_weights_f64 : list (string * F64.t) :=
  [ ("recent_trend", F64.of_Z 8); ("consistency", F64.of_Z 10);
    ("home_away", F64.of_Z 5); ("rest", F64.of_Z 3);
    ("playing_time", F64.of_Z 8) ].

Definition _calculate_confidence_f64 (hit_rate : F64.t)
    (factors : gmap string F64.t) (avg_stat line : F64.t) : F64.t :=
  (* Base confidence from hit rate *)
  let base_confidence := hit_rate in
  (* Distance from line adjustment *)
  let distance_from_line := F64.abs (F64.sub avg_stat line) in
  let distance_boost :=
    if F64.gtb avg_stat line
    then F64.min (F64.mul distance_from_line (F64.of_Z 2)) (F64.of_Z 10)
    else F64.neg (F64.min (F64.mul distance_from_line (F64.of_Z 2))
                          (F64.of_Z 10)) in
  (* Factor adjustments *)
  let factor_adjustment :=
    fold_left
      (fun total kv =>
         F64.add total (F64.mul (default (F64.of_Z 0) (factors !! fst kv))
                                (snd kv)))
      factor_weights_f64 (F64.of_Z 0) in
  let confidence :=
    F64.add (F64.add base_confidence distance_boost) factor_adjustment in
  F64.np_clip confidence (F64.of_Z 0) (F64.of_Z 100).

Definition _generate_recommendation (confidence : Q) (over_under : string)
  : string :=
  if Qgeb confidence 70 then "strong_bet"
  else if Qgeb confidence 58 then "bet"
  else if Qgeb confidence 45 then "neutral"
  else if Qgeb confidence 30 then "avoid"
  else "strong_avoid".

Definition _generate_analysis_notes (prop : PropBetData.t)
    (hit_rate average_stat : Q) (factors : gmap string Q) : string :=
  let line := PropBetData.line prop in
  let n1 :=
    if Qgeb hit_rate 70 then
      ["Player has hit this prop in " ++ format_f 0 hit_rate
         ++ "% of last 10 games (strong track record)."]
    else if Qgeb hit_rate 50 then
      ["Player has hit this prop in " ++ format_f 0 hit_rate
         ++ "% of last 10 games (decent track record)."]
    else
      ["Player has only hit this prop in " ++ format_f 0 hit_rate
         ++ "% of last 10 games (poor track record)."] in
  let n2 :=
    if Qgtb average_stat line then
      ["Player's average (" ++ format_f 1 average_stat ++ ") is "
         ++ format_f 1 (average_stat - line) ++ " above the line."]
    else if Qltb average_stat line then
      ["Player's average (" ++ format_f 1 average_stat ++ ") is "
         ++ format_f 1 (line - average_stat) ++ " below the line."]
    else ["Player's average matches the line exactly."] in
  let trend := default 0 (factors !! "recent_trend") in
  let n3 :=
    if Qgtb trend 0.3 then ["Player is trending up recently."]
    else if Qltb trend (-0.3) then ["Player is trending down recently."]
    else [] in
  let consistency := default 0 (factors !! "consistency") in
  let n4 :=
    if Qgtb consistency 0.7 then ["Player has been very consistent."]
    else if Qltb consistency 0.3 then
      ["Player's performance has been inconsistent."]
    else [] in
  join " " (n1 ++ n2 ++ n3 ++ n4)%list.

Definition _create_default_analysis (prop : PropBetData.t) (reason : string)
  : PropAnalysis.t :=
  {| PropAnalysis.prop_id := PropBetData.prop_id prop;
     PropAnalysis.player_name := PropBetData.player_name prop;
     PropAnalysis.stat_type := PropBetData.stat_type prop;
     PropAnalysis.line := PropBetData.line prop;
     PropAnalysis.over_under := PropBetData.over_under prop;
     PropAnalysis.confidence_score := 50;
     PropAnalysis.hit_rate_last_10 := 50;
     PropAnalysis.average_stat := PropBetData.line prop;
     PropAnalysis.opponent_defensive_rank := None;
     PropAnalysis.pace_adjusted_projection := PropBetData.line prop;
     PropAnalysis.factors := ∅;
     PropAnalysis.recommendation := "neutral";
     PropAnalysis.analysis_notes := Some ("Unable to analyze: " ++ reason) |}.

(** [prop.player_id = ...]: the assignment in [analyze_prop] updates the
    caller's object; here it yields the updated record. *)
Definition set_player_id (prop : PropBetData.t) (pid : option Z)
  : PropBetData.t :=
  {| PropBetData.prop_id := PropBetData.prop_id prop;
     PropBetData.player_name := PropBetData.player_name prop;
     PropBetData.player_id := pid;
     PropBetData.stat_type := PropBetData.stat_type prop;
     PropBetData.line := PropBetData.line prop;
     PropBetData.over_under := PropBetData.over_under prop;
     PropBetData.opponent_name := PropBetData.opponent_name prop;
     PropBetData.game_date := PropBetData.game_date prop |}.

Section AnalyzeProp.
Variable np_polyfit_slope : list Q -> result Q.
Variable service : Service.t.

(** The first [if] of [analyze_prop]: look the player up by name when
    the prop carries no id. *)
Definition lookup_player (prop : PropBetData.t) : PropBetData.t :=
  if negb (truthy_id (PropBetData.player_id prop)) then
    let player_data :=
      Service.search_player service (PropBetData.player_name prop) in
    if truthy_dict player_data then
      match player_data with
      | Some d => set_player_id prop (d !! "id")
      | None => prop
      end
    else prop
  else prop.

Definition analyze_prop (prop0 : PropBetData.t) : result PropAnalysis.t :=
  (* Get player info if needed *)
  let prop := lookup_player prop0 in
  match PropBetData.player_id prop with
  | None =>
      Ok (_create_default_analysis prop "Player not found in database")
  | Some pid =>
      if negb (truthy_id (Some pid)) then
        Ok (_create_default_analysis prop "Player not found in database")
      else
        (* Fetch player stats *)
        let recent_games := Service.get_player_stats service pid 10 in
        match recent_games with
        | [] =>
            Ok (_create_default_analysis prop "No recent game data available")
        | _ =>
            hit_rate ← _calculate_hit_rate recent_games prop;
            let stat_key := stat_key_of (PropBetData.stat_type prop) in
            average_stat ← _calculate_average_stat recent_games stat_key;
            (* Opponent data (simplified) *)
            let opponent_rank :=
              match PropBetData.opponent_name prop with
              | Some name =>
                  if negb (str_eqb name "") then
                    if truthy_dict (Service.search_team_by_name service name)
                    then Some 15%Z else None
                  else None
              | None => None
              end in
            let pace_adjustment := 1 in
            let pace_adjusted_projection := average_stat * pace_adjustment in
            factors ← _analyze_factors np_polyfit_slope recent_games prop stat_key;
            let confidence :=
              _calculate_confidence hit_rate factors average_stat
                                    (PropBetData.line prop) in
            let recommendation :=
              _generate_recommendation confidence (PropBetData.over_under prop) in
            let notes :=
              _generate_analysis_notes prop hit_rate average_stat factors in
            mret
              {| PropAnalysis.prop_id := PropBetData.prop_id prop;
                 PropAnalysis.player_name := PropBetData.player_name prop;
                 PropAnalysis.stat_type := PropBetData.stat_type prop;
                 PropAnalysis.line := PropBetData.line prop;
                 PropAnalysis.over_under := PropBetData.over_under prop;
                 PropAnalysis.confidence_score := round_nd confidence 2;
                 PropAnalysis.hit_rate_last_10 := round_nd hit_rate 2;
                 PropAnalysis.average_stat := round_nd average_stat 2;
                 PropAnalysis.opponent_defensive_rank := opponent_rank;
                 PropAnalysis.pace_adjusted_projection :=
                   round_nd pace_adjusted_projection 2;
                 PropAnalysis.factors := factors;
                 PropAnalysis.recommendation := recommendation;
                 PropAnalysis.analysis_notes := Some notes |}
        end
  end.
End AnalyzeProp.

(** One entry of ["parlay_suggestions"]. *)
Module ParlaySuggestion.
Record t : Type := mk {
  props : list Z;
  confidence : Q;
  description : string
}.
End ParlaySuggestion.

(** The dictionary returned by [analyze_bet_slip]. *)
Module BetSlipAnalysis.
Record t : Type := mk {
  overall_confidence : Q;
  risk_assessment : string;
  recommended_bets : list Z;
  parlay_suggestions : list ParlaySuggestion.t;
  prop_analyses : list PropAnalysis.t
}.
End BetSlipAnalysis.

(** [sorted(prop_analyses, key=lambda x: x.confidence_score, reverse=True)]:
    a stable sort, highest confidence first; analyses of equal confidence
    keep their order. *)
Fixpoint insert_analysis (x : PropAnalysis.t) (l : list PropAnalysis.t)
  : list PropAnalysis.t :=
  match l with
  | [] => [x]
  | y :: rest =>
      if Qgeb (PropAnalysis.confidence_score y) (PropAnalysis.confidence_score x)
      then y :: insert_analysis x rest
      else x :: y :: rest
  end.

Definition sorted_by_confidence (l : list PropAnalysis.t)
  : list PropAnalysis.t :=
  fold_left (fun acc x => insert_analysis x acc) l [].

Section AnalyzeBetSlip.
Variable np_polyfit_slope : list Q -> result Q.
Variable service : Service.t.

(** The loop [for prop in props: prop_analyses.append(await
    self.analyze_prop(prop))]; an exception of [analyze_prop] leaves the
    loop and the function. *)
Fixpoint analyze_props (props : list PropBetData.t)
  : result (list PropAnalysis.t) :=
  match props with
  | [] => Ok []
  | prop :: rest =>
      analysis ← analyze_prop np_polyfit_slope service prop;
      analyses ← analyze_props rest;
      mret (analysis :: analyses)
  end.

Definition analyze_bet_slip (props : list PropBetData.t)
  : result BetSlipAnalysis.t :=
  (* Analyze each prop *)
  prop_analyses ← analyze_props props;
  (* Calculate overall confidence (average of all props) *)
  let confidences := map PropAnalysis.confidence_score prop_analyses in
  let overall_confidence :=
    match confidences with
    | [] => 50.0
    | _ => np_mean confidences
    end in
  (* Identify recommended bets (confidence >= 58) *)
  let recommended :=
    map PropAnalysis.prop_id
        (List.filter (fun a => Qgeb (PropAnalysis.confidence_score a) 58)
                     prop_analyses) in
  (* Risk assessment *)
  let risk :=
    if Qgeb overall_confidence 65 then "low"
    else if Qgeb overall_confidence 50 then "medium"
    else "high" in
  (* Generate parlay suggestions (top 2-3 props) *)
  let top_props := take 3 (sorted_by_confidence prop_analyses) in
  let parlay_suggestions :=
    if (len top_props >=? 2)%Z then
      [ {| ParlaySuggestion.props :=
             map PropAnalysis.prop_id (take 2 top_props);
           ParlaySuggestion.confidence :=
             np_mean (map PropAnalysis.confidence_score (take 2 top_props));
           ParlaySuggestion.description := "Top 2 props parlay" |};
        {| ParlaySuggestion.props := map PropAnalysis.prop_id top_props;
           ParlaySuggestion.confidence :=
             np_mean (map PropAnalysis.confidence_score top_props);
           ParlaySuggestion.description := "Top 3 props parlay" |} ]
    else [] in
  mret
    {| BetSlipAnalysis.overall_confidence := round_nd overall_confidence 2;
       BetSlipAnalysis.risk_assessment := risk;
       BetSlipAnalysis.recommended_bets := recommended;
       BetSlipAnalysis.parlay_suggestions := parlay_suggestions;
       BetSlipAnalysis.prop_analyses := prop_analyses |}.
End AnalyzeBetSlip.

End AnalysisEngine.

(* ================================================================== *)
(** * live_data_client.py: the records the engines consume             *)
(* ================================================================== *)
Module LivePlayerStats.
Record t : Type := mk {
  player_id : Z;
  player_name : string;
  team_id : Z;
  team_abbreviation : string;
  minutes : string;
  minutes_float : Q;
  points : Z;
  rebounds : Z;
  assists : Z;
  steals : Z;
  blocks : Z;
  turnovers : Z;
  fouls : Z;
  fg_made : Z;
  fg_attempted : Z;
  fg_pct : Q;
  fg3_made : Z;
  fg3_attempted : Z;
  fg3_pct : Q;
  ft_made : Z;
  ft_attempted : Z;
  ft_pct : Q;
  plus_minus : Z;
  starter : bool
}.
End LivePlayerStats.

Module LiveGameData.
Record t : Type := mk {
  game_id : string;
  game_status : Z;
  game_status_text : string;
  period : Z;
  game_clock : string;
  home_team_id : Z;
  home_team_name : string;
  home_team_abbr : string;
  home_score : Z;
  away_team_id : Z;
  away_team_name : string;
  away_team_abbr : string;
  away_score : Z;
  game_date : string;
  game_time_utc : option string;
  is_halftime : bool
}.

(** [@property score_differential]: absolute score difference. *)
Definition score_differential (g : t) : Z :=
  Z.abs (home_score g - away_score g).

(** [@property total_score]: combined score. *)
Definition total_score (g : t) : Z :=
  (home_score g + away_score g)%Z.
End LiveGameData.

(** The dictionary returned by [get_live_box_score]: the two player lists
    that the engines read. *)
Module BoxScore.
Record t : Type := mk {
  home : list LivePlayerStats.t;
  away : list LivePlayerStats.t
}.
End BoxScore.

(** [LiveDataClient.get_todays_games]: the clock test of the halftime
    detection, [game_clock in ['', 'PT00M00.00S', '0:00']]. *)
Module LiveDataClient.
Import Py.

Definition halftime_clock (game_clock : string) : bool :=
  existsb (str_eqb game_clock) [""; "PT00M00.00S"; "0:00"].
End LiveDataClient.

(* ================================================================== *)
(** * halftime_engine.py                                               *)
(* ================================================================== *)
Module HalftimeEngine.
Import Py.

#[local] Instance Q_inhabited : Inhabited Q := populate 0.
#[local] Coercion inject_Z : Z >-> Q.

(** Configuration constants.  [settings] defines neither
    [BLOWOUT_THRESHOLD] nor [FOUL_TROUBLE_THRESHOLD], so [getattr] yields
    the defaults. *)
Definition BLOWOUT_THRESHOLD : Z := 20.
Definition FOUL_TROUBLE_THRESHOLD : Z := 3.
Definition LEAGUE_AVG_PACE : Q := 100.
Definition LEAGUE_AVG_TOTAL : Q := 225.
Definition LEAGUE_AVG_OFF_RTG : Q := 114.
Definition LEAGUE_AVG_DEF_RTG : Q := 114.

(** Enhanced projection weights (must sum to 1.0) *)
Definition PROJECTION_WEIGHTS : list (string * Q) :=
  [ ("first_half_trend", 0.18);
    ("shooting_efficiency", 0.18);
    ("shot_volume", 0.15);
    ("opponent_defense", 0.14);
    ("score_situation", 0.10);
    ("historical_2h_avg", 0.08);
    ("pace_adjustment", 0.07);
    ("plus_minus_factor", 0.05);
    ("utilization_rate", 0.03);
    ("fatigue_factor", 0.02) ].

Definition Q3_PACE_FACTOR : Q := 0.92.
Definition PACE_SUSTAINABILITY : Q := 0.95.

Module ShootingMetrics.
Record t : Type := mk {
  fg_pct : Q;
  fg3_pct : Q;
  ft_pct : Q;
  efg_pct : Q;
  ts_pct : Q;
  points_per_shot : Q
}.

Definition efficiency_rating (m : t) : string :=
  if Qgeb (ts_pct m) 65 then "elite"
  else if Qgeb (ts_pct m) 58 then "excellent"
  else if Qgeb (ts_pct m) 52 then "good"
  else if Qgeb (ts_pct m) 45 then "average"
  else "poor".
End ShootingMetrics.

Module TeamRatings.
Record t : Type := mk {
  team_id : Z;
  team_abbr : string;
  off_rating : Q;
  def_rating : Q;
  pace : Q;
  def_rank_pts : Z;
  def_rank_reb : Z;
  def_rank_ast : Z;
  def_rank_3pm : Z
}.

(** [TeamRatings(team_id=..., team_abbr=...)] with the field defaults. *)
Definition default (team_id : Z) (team_abbr : string) : t :=
  mk team_id team_abbr LEAGUE_AVG_OFF_RTG LEAGUE_AVG_DEF_RTG
     LEAGUE_AVG_PACE 15 15 15 15.

Definition net_rating (r : t) : Q := off_rating r - def_rating r.
End TeamRatings.

Definition _get_stat_value (stats : LivePlayerStats.t) (prop_type : string)
  : Q :=
  let stat_mapping : gmap string Z :=
    list_to_map
      [ ("points", LivePlayerStats.points stats);
        ("rebounds", LivePlayerStats.rebounds stats);
        ("assists", LivePlayerStats.assists stats);
        ("steals", LivePlayerStats.steals stats);
        ("blocks", LivePlayerStats.blocks stats);
        ("threes", LivePlayerStats.fg3_made stats);
        ("3pt", LivePlayerStats.fg3_made stats);
        ("turnovers", LivePlayerStats.turnovers stats);
        ("pts+reb",
          (LivePlayerStats.points stats + LivePlayerStats.rebounds stats)%Z);
        ("pts+ast",
          (LivePlayerStats.points stats + LivePlayerStats.assists stats)%Z);
        ("reb+ast",
          (LivePlayerStats.rebounds stats + LivePlayerStats.assists stats)%Z);
        ("pts+reb+ast",
          (LivePlayerStats.points stats + LivePlayerStats.rebounds stats
           + LivePlayerStats.assists stats)%Z) ] in
  inject_Z (default 0%Z (stat_mapping !! lower prop_type)).

Definition _calculate_shooting_metrics (stats : LivePlayerStats.t)
  : ShootingMetrics.t :=
  let fg_made := LivePlayerStats.fg_made stats in
  let fg_attempted := LivePlayerStats.fg_attempted stats in
  let fg3_made := LivePlayerStats.fg3_made stats in
  let fg3_attempted := LivePlayerStats.fg3_attempted stats in
  let ft_made := LivePlayerStats.ft_made stats in
  let ft_attempted := LivePlayerStats.ft_attempted stats in
  let points := LivePlayerStats.points stats in
  let fg_pct :=
    if (fg_attempted >? 0)%Z then fg_made / fg_attempted * 100 else 0 in
  let fg3_pct :=
    if (fg3_attempted >? 0)%Z then fg3_made / fg3_attempted * 100 else 0 in
  let ft_pct :=
    if (ft_attempted >? 0)%Z then ft_made / ft_attempted * 100 else 0 in
  (* Effective FG% *)
  let efg_pct :=
    if (fg_attempted >? 0)%Z
    then (fg_made + 0.5 * fg3_made) / fg_attempted * 100 else 0 in
  (* True Shooting % *)
  let tsa := fg_attempted + 0.44 * ft_attempted in
  let ts_pct := if Qgtb tsa 0 then points / (2 * tsa) * 100 else 0 in
  (* Points per shot *)
  let pps := if (fg_attempted >? 0)%Z then points / fg_attempted else 0 in
  {| ShootingMetrics.fg_pct := round_nd fg_pct 1;
     ShootingMetrics.fg3_pct := round_nd fg3_pct 1;
     ShootingMetrics.ft_pct := round_nd ft_pct 1;
     ShootingMetrics.efg_pct := round_nd efg_pct 1;
     ShootingMetrics.ts_pct := round_nd ts_pct 1;
     ShootingMetrics.points_per_shot := round_nd pps 2 |}.

Definition _calculate_assist_to_turnover (stats : LivePlayerStats.t)
  : option Q :=
  let assists := LivePlayerStats.assists stats in
  let turnovers := LivePlayerStats.turnovers stats in
  if (turnovers =? 0)%Z then
    if (assists >? 0)%Z then Some (inject_Z assists) else None
  else Some (round_nd (assists / turnovers) 2).

Definition _calculate_utilization_rate (stats : LivePlayerStats.t)
    (team_stats : list LivePlayerStats.t) : Q :=
  match team_stats with
  | [] => 0
  | _ =>
      let team_fga := sumZ (map LivePlayerStats.fg_attempted team_stats) in
      let team_fta := sumZ (map LivePlayerStats.ft_attempted team_stats) in
      let team_tov := sumZ (map LivePlayerStats.turnovers team_stats) in
      let team_possessions := team_fga + 0.44 * team_fta + team_tov in
      if Qeq_bool team_possessions 0 then 0
      else
        let player_possessions :=
          LivePlayerStats.fg_attempted stats
          + 0.44 * LivePlayerStats.ft_attempted stats
          + LivePlayerStats.turnovers stats in
        player_possessions / team_possessions * 100
  end.

Definition _calculate_pace_factor (game_data : LiveGameData.t)
    (first_half_minutes : Q) : Q :=
  let total_score := LiveGameData.total_score game_data in
  if Qleb first_half_minutes 0 then 1
  else
    let points_per_min := total_score / first_half_minutes in
    let expected_ppm := LEAGUE_AVG_TOTAL / 48 in
    if Qgtb expected_ppm 0 then points_per_min / expected_ppm else 1.

Definition _calculate_plus_minus_factor (plus_minus : Z) (minutes : Q) : Q :=
  if Qleb minutes 0 then 1
  else
    (* Per-minute plus/minus *)
    let pm_per_min := plus_minus / minutes in
    let factor := 1 + pm_per_min * 0.02 in
    (* Clamp between 0.85 and 1.15 *)
    max 0.85 (min 1.15 factor).

Definition _get_opponent_def_adjustment (opponent_def_rank : Z)
    (prop_type : string) : Q :=
  if (opponent_def_rank <=? 5)%Z then 0.90
  else if (opponent_def_rank <=? 10)%Z then 0.95
  else if (opponent_def_rank <=? 20)%Z then 1.0
  else if (opponent_def_rank <=? 25)%Z then 1.05
  else 1.10.

Definition _get_shooting_efficiency_factor (shooting : ShootingMetrics.t)
    (prop_type : string) : Q :=
  let ts_pct := ShootingMetrics.ts_pct shooting in
  let fg3_pct := ShootingMetrics.fg3_pct shooting in
  if str_eqb prop_type "points" then
    if Qgeb ts_pct 70 then 1.12
    else if Qgeb ts_pct 60 then 1.08
    else if Qgeb ts_pct 55 then 1.04
    else if Qgeb ts_pct 45 then 1.0
    else if Qgeb ts_pct 35 then 0.95
    else 0.90
  else if (str_eqb prop_type "threes" || str_eqb prop_type "3pt")%bool then
    if Qgeb fg3_pct 50 then 1.10
    else if Qgeb fg3_pct 40 then 1.05
    else if Qgeb fg3_pct 33 then 1.0
    else if Qgeb fg3_pct 20 then 0.95
    else 0.90
  else
    if Qgeb ts_pct 55 then 1.02 else 1.0.

Definition _detect_foul_trouble (fouls : Z) (minutes : Q) : bool :=
  if (fouls >=? FOUL_TROUBLE_THRESHOLD)%Z then true
  else if (Qgtb minutes 0 && Qgtb (fouls / minutes) 0.125)%bool then true
  else false.

Definition _detect_blowout (score_diff : Z) : bool :=
  (Z.abs score_diff >=? BLOWOUT_THRESHOLD)%Z.

Definition _get_fatigue_factor (is_back_to_back : bool) (rest_days : Z) : Q :=
  if is_back_to_back then 0.92
  else if (rest_days >=? 3)%Z then 1.02
  else 1.0.

Definition _calculate_minutes_projection (first_half_minutes : Q)
    (foul_trouble blowout_warning is_starter : bool) : Q :=
  let base_projection := first_half_minutes in
  let base_projection :=
    if foul_trouble then base_projection * 0.75 else base_projection in
  let base_projection :=
    if blowout_warning then
      if is_starter then base_projection * 0.70
      else base_projection * 1.15
    else base_projection in
  min base_projection 24.0.

Definition _calculate_shot_volume_factor (fg_attempted ft_attempted : Z)
    (minutes : Q) (prop_type : string) : Q :=
  if Qleb minutes 0 then 1.0
  else
    (* Shots per minute *)
    let total_shots := fg_attempted + ft_attempted * 0.44 in
    let shots_per_min := total_shots / minutes in
    if str_eqb prop_type "points" then
      if Qgeb shots_per_min 1.0 then 1.15
      else if Qgeb shots_per_min 0.75 then 1.10
      else if Qgeb shots_per_min 0.5 then 1.05
      else if Qgeb shots_per_min 0.3 then 1.0
      else 0.90
    else
      if Qgeb shots_per_min 0.75 then 1.05
      else if Qgeb shots_per_min 0.4 then 1.0
      else 0.95.

(** Truthiness of an [Optional[float]]: [None] and [0.0] are false. *)
Definition truthy_float (o : option Q) : bool :=
  match o with
  | Some q => negb (Qeq_bool q 0)
  | None => false
  end.

(** [sum(components[key] * PROJECTION_WEIGHTS[key] for key in
    PROJECTION_WEIGHTS)]; every key of the table is a key of
    [components]. *)
Definition weighted_combination (components : gmap string Q) : Q :=
  sum (map (fun kw => (components !!! fst kw) * snd kw) PROJECTION_WEIGHTS).

Definition _calculate_second_half_projection
    (first_half_value first_half_minutes projected_minutes pace_factor
     utilization_rate fatigue_factor : Q)
    (historical_2h_avg : option Q) (blowout_warning : bool)
    (shooting_metrics : ShootingMetrics.t) (plus_minus opponent_def_rank : Z)
    (prop_type : string) (fg_attempted ft_attempted score_differential : Z)
  : Q * gmap string Q :=
  if Qleb first_half_minutes 0 then
    (if truthy_float historical_2h_avg then default 0 historical_2h_avg else 0,
     ∅)
  else
    let first_half_rate := first_half_value / first_half_minutes in
    let components : gmap string Q := ∅ in
    (* 1. First half trend (extrapolate current rate) *)
    let first_half_trend := first_half_rate * projected_minutes in
    let components := <["first_half_trend" := first_half_trend]> components in
    (* 2. Shooting efficiency factor *)
    let shooting_factor :=
      _get_shooting_efficiency_factor shooting_metrics prop_type in
    let components :=
      <["shooting_efficiency" := first_half_trend * shooting_factor]> components in
    (* 3. Shot volume factor *)
    let shot_volume_factor :=
      _calculate_shot_volume_factor fg_attempted ft_attempted
                                    first_half_minutes prop_type in
    let components :=
      <["shot_volume" := first_half_trend * shot_volume_factor]> components in
    (* 4. Opponent defense factor *)
    let opp_def_factor :=
      _get_opponent_def_adjustment opponent_def_rank prop_type in
    let components :=
      <["opponent_defense" := first_half_trend * opp_def_factor]> components in
    (* 5. Score situation *)
    let components :=
      if blowout_warning then
        <["score_situation" := first_half_trend * 0.75]> components
      else if (Z.abs score_differential <=? 5)%Z then
        <["score_situation" := first_half_trend * 1.08]> components
      else if (Z.abs score_differential <=? 10)%Z then
        <["score_situation" := first_half_trend * 1.03]> components
      else <["score_situation" := first_half_trend]> components in
    (* 6. Historical second half average *)
    let components :=
      if truthy_float historical_2h_avg then
        <["historical_2h_avg" :=
            default 0 historical_2h_avg * (projected_minutes / 24.0)]> components
      else <["historical_2h_avg" := first_half_trend]> components in
    (* 7. Pace adjustment *)
    let components :=
      <["pace_adjustment" :=
          first_half_trend * pace_factor * PACE_SUSTAINABILITY]> components in
    (* 8. Plus/minus factor *)
    let pm_factor :=
      _calculate_plus_minus_factor plus_minus first_half_minutes in
    let components :=
      <["plus_minus_factor" := first_half_trend * pm_factor]> components in
    (* 9. Utilization adjustment *)
    let utilization_multiplier :=
      if Qgtb utilization_rate 30 then 0.90 + (30 - utilization_rate) * 0.01
      else if Qltb utilization_rate 15 then 1.05
      else 1.0 in
    let components :=
      <["utilization_rate" := first_half_trend * utilization_multiplier]>
        components in
    (* 10. Fatigue factor *)
    let components :=
      <["fatigue_factor" := first_half_trend * fatigue_factor]> components in
    (* Weighted combination *)
    let projected := weighted_combination components in
    (max 0 projected, components).

(** The last block of [_calculate_confidence_score]: the recommendation
    read off the sign of [distance] and the clipped confidence. *)
Definition determine_recommendation (distance confidence : Q) : string :=
  if Qgtb distance 0 then
    (* Over looks good *)
    if Qgeb confidence 75 then "strong_bet"
    else if Qgeb confidence 65 then "bet"
    else if Qgeb confidence 55 then "lean"
    else if Qgeb confidence 45 then "neutral"
    else "avoid"
  else
    (* Under looks better *)
    if Qleb confidence 25 then "strong_avoid"
    else if Qleb confidence 35 then "avoid"
    else if Qleb confidence 45 then "neutral"
    else "lean".

(** Steps 1 to 8 of [_calculate_confidence_score]: the confidence before
    it is clipped. *)
Definition confidence_before_clip
    (projected_final prop_line first_half_value historical_consistency : Q)
    (shooting_metrics : ShootingMetrics.t)
    (foul_trouble blowout_warning : bool) (utilization_rate : Q)
    (plus_minus opponent_def_rank : Z) (assist_to_turnover : option Q)
  : Q :=
  let confidence := 50.0 in
  (* 1. Distance from line *)
  let distance := projected_final - prop_line in
  let distance_pct :=
    if Qgtb prop_line 0 then distance / prop_line * 100 else 0 in
  let sign := if Qgtb distance 0 then 1 else -1 in
  let confidence :=
    if Qgtb (abs distance_pct) 20 then confidence + 20 * sign
    else if Qgtb (abs distance_pct) 10 then confidence + 12 * sign
    else if Qgtb (abs distance_pct) 5 then confidence + 6 * sign
    else confidence in
  (* 2. First half progress *)
  let progress_pct :=
    if Qgtb prop_line 0 then first_half_value / prop_line * 100 else 0 in
  let confidence :=
    if Qgeb progress_pct 60 then confidence + 18
    else if Qgeb progress_pct 50 then confidence + 10
    else if Qgeb progress_pct 40 then confidence + 4
    else if Qltb progress_pct 30 then confidence - 8
    else confidence in
  (* 3. Shooting efficiency *)
  let ts_pct := ShootingMetrics.ts_pct shooting_metrics in
  let confidence :=
    if Qgeb ts_pct 65 then confidence + 10
    else if Qgeb ts_pct 55 then confidence + 6
    else if Qgeb ts_pct 45 then confidence + 2
    else if Qltb ts_pct 35 then confidence - 6
    else confidence in
  (* 4. Plus/minus impact *)
  let confidence :=
    if (plus_minus >=? 10)%Z then confidence + 8
    else if (plus_minus >=? 5)%Z then confidence + 4
    else if (plus_minus <=? -10)%Z then confidence - 6
    else if (plus_minus <=? -5)%Z then confidence - 3
    else confidence in
  (* 5. Opponent defense *)
  let confidence :=
    if (opponent_def_rank >=? 25)%Z then confidence + 6
    else if (opponent_def_rank >=? 20)%Z then confidence + 3
    else if (opponent_def_rank <=? 5)%Z then confidence - 6
    else if (opponent_def_rank <=? 10)%Z then confidence - 3
    else confidence in
  (* 6. Assist-to-turnover ratio *)
  let confidence :=
    match assist_to_turnover with
    | Some ratio =>
        if Qgeb ratio 3.0 then confidence + 4
        else if Qgeb ratio 2.0 then confidence + 2
        else if Qltb ratio 1.0 then confidence - 2
        else confidence
    | None => confidence
    end in
  (* 7. Historical consistency *)
  let confidence :=
    if Qgtb historical_consistency 70 then confidence + 4
    else if Qltb historical_consistency 30 then confidence - 4
    else confidence in
  (* 8. Penalties *)
  let confidence := if foul_trouble then confidence - 10 else confidence in
  let confidence := if blowout_warning then confidence - 12 else confidence in
  let confidence :=
    if Qgtb utilization_rate 35 then confidence - 4 else confidence in
  confidence.

Definition _calculate_confidence_score
    (projected_final prop_line first_half_value historical_consistency : Q)
    (shooting_metrics : ShootingMetrics.t)
    (foul_trouble blowout_warning : bool) (utilization_rate : Q)
    (plus_minus opponent_def_rank : Z) (assist_to_turnover : option Q)
  : Q * string :=
  let distance := projected_final - prop_line in
  let confidence :=
    confidence_before_clip
      projected_final prop_line first_half_value historical_consistency
      shooting_metrics foul_trouble blowout_warning utilization_rate
      plus_minus opponent_def_rank assist_to_turnover in
  (* Clip to 0-100 *)
  let confidence := max 0 (min 100 confidence) in
  (* Determine recommendation *)
  (confidence, determine_recommendation distance confidence).

Definition _get_opponent_def_rank_for_stat (opp_ratings : TeamRatings.t)
    (prop_type : string) : Z :=
  if str_eqb prop_type "points" then TeamRatings.def_rank_pts opp_ratings
  else if str_eqb prop_type "rebounds" then TeamRatings.def_rank_reb opp_ratings
  else if str_eqb prop_type "assists" then TeamRatings.def_rank_ast opp_ratings
  else if (str_eqb prop_type "threes" || str_eqb prop_type "3pt")%bool
  then TeamRatings.def_rank_3pm opp_ratings
  else 15%Z.

(** The [shooting_metrics] dictionary stored in a projection. *)
Module ShootingDict.
Record t : Type := mk {
  fg_pct : Q;
  fg3_pct : Q;
  ft_pct : Q;
  efg_pct : Q;
  ts_pct : Q;
  efficiency_rating : string
}.
End ShootingDict.

Module PlayerProjection.
Record t : Type := mk {
  player_id : Z;
  player_name : string;
  team_abbreviation : string;
  prop_type : string;
  prop_line : Q;
  first_half_value : Q;
  first_half_minutes : Q;
  projected_second_half : Q;
  projected_final : Q;
  confidence_score : Q;
  recommendation : string;
  factors : gmap string Q;
  foul_trouble : bool;
  blowout_warning : bool;
  pace_factor : Q;
  utilization_rate : Q;
  fatigue_factor : Q;
  minutes_projection : Q;
  shooting_metrics : option ShootingDict.t;
  assist_to_turnover : option Q;
  opponent_def_rank : option Z;
  opponent_def_rating : option Q;
  team_off_rating : option Q;
  season_average : option Q;
  second_half_historical_avg : option Q;
  plus_minus : Z;
  shooting_efficiency : option Q
}.
End PlayerProjection.

Module GameTotalProjection.
Record t : Type := mk {
  game_id : string;
  home_team : string;
  away_team : string;
  current_total : Z;
  first_half_total : Z;
  score_differential : Z;
  first_half_pace : Q;
  pace_rating : string;
  league_avg_pace_comparison : Q;
  projected_second_half_total : Q;
  projected_final_total : Q;
  projected_q3_total : Q;
  projected_q4_total : Q;
  total_confidence : Q;
  blowout_risk : bool;
  pace_sustainability : Q;
  home_off_rating : option Q;
  home_def_rating : option Q;
  away_off_rating : option Q;
  away_def_rating : option Q
}.
End GameTotalProjection.

(** The local variables of [analyze_game_totals] before they are rounded
    into the returned record. *)
Module TotalsLocals.
Record t : Type := mk {
  first_half_total : Z;
  first_half_pace : Q;
  league_avg_pace_comparison : Q;
  pace_rating : string;
  blowout_risk : bool;
  pace_sustainability : Q;
  projected_second_half_total : Q;
  projected_final_total : Q;
  projected_q3_total : Q;
  projected_q4_total : Q;
  total_confidence : Q
}.
End TotalsLocals.

Definition analyze_game_totals_locals (game_data : LiveGameData.t)
  : TotalsLocals.t :=
  let first_half_total := LiveGameData.total_score game_data in
  let first_half_minutes := 24.0 in
  let first_half_pace := first_half_total / first_half_minutes in
  let expected_pace := LEAGUE_AVG_TOTAL / 48.0 in
  let league_avg_pace_comparison := first_half_pace / expected_pace in
  let pace_rating :=
    if Qgeb league_avg_pace_comparison 1.15 then "very_fast"
    else if Qgeb league_avg_pace_comparison 1.05 then "fast"
    else if Qgeb league_avg_pace_comparison 0.95 then "average"
    else "slow" in
  let blowout_risk :=
    _detect_blowout (LiveGameData.score_differential game_data) in
  let pace_sustainability :=
    if Qgeb league_avg_pace_comparison 1.2 then 0.90
    else if Qgeb league_avg_pace_comparison 1.1 then 0.93
    else if Qleb league_avg_pace_comparison 0.85 then 1.05
    else PACE_SUSTAINABILITY in
  let base_second_half := first_half_total * pace_sustainability in
  let base_second_half :=
    if blowout_risk then base_second_half * 0.92 else base_second_half in
  let projected_second_half_total := base_second_half in
  let projected_final_total := first_half_total + projected_second_half_total in
  let projected_q3_total := projected_second_half_total / 2 * Q3_PACE_FACTOR in
  let projected_q4_total := projected_second_half_total - projected_q3_total in
  let total_confidence := 60.0 in
  let total_confidence :=
    if (Qleb 0.95 league_avg_pace_comparison
        && Qleb league_avg_pace_comparison 1.05)%bool
    then total_confidence + 15
    else if (Qleb 0.90 league_avg_pace_comparison
             && Qleb league_avg_pace_comparison 1.10)%bool
    then total_confidence + 8
    else total_confidence - 10 in
  let total_confidence :=
    if blowout_risk then total_confidence - 15 else total_confidence in
  let total_confidence := max 0 (min 100 total_confidence) in
  {| TotalsLocals.first_half_total := first_half_total;
     TotalsLocals.first_half_pace := first_half_pace;
     TotalsLocals.league_avg_pace_comparison := league_avg_pace_comparison;
     TotalsLocals.pace_rating := pace_rating;
     TotalsLocals.blowout_risk := blowout_risk;
     TotalsLocals.pace_sustainability := pace_sustainability;
     TotalsLocals.projected_second_half_total := projected_second_half_total;
     TotalsLocals.projected_final_total := projected_final_total;
     TotalsLocals.projected_q3_total := projected_q3_total;
     TotalsLocals.projected_q4_total := projected_q4_total;
     TotalsLocals.total_confidence := total_confidence |}.

Definition analyze_game_totals (game_data : LiveGameData.t)
    (box_score : BoxScore.t) (home_ratings away_ratings : option TeamRatings.t)
  : GameTotalProjection.t :=
  let v := analyze_game_totals_locals game_data in
  {| GameTotalProjection.game_id := LiveGameData.game_id game_data;
     GameTotalProjection.home_team := LiveGameData.home_team_abbr game_data;
     GameTotalProjection.away_team := LiveGameData.away_team_abbr game_data;
     GameTotalProjection.current_total := TotalsLocals.first_half_total v;
     GameTotalProjection.first_half_total := TotalsLocals.first_half_total v;
     GameTotalProjection.score_differential :=
       LiveGameData.score_differential game_data;
     GameTotalProjection.first_half_pace :=
       round_nd (TotalsLocals.first_half_pace v) 2;
     GameTotalProjection.pace_rating := TotalsLocals.pace_rating v;
     GameTotalProjection.league_avg_pace_comparison :=
       round_nd (TotalsLocals.league_avg_pace_comparison v) 2;
     GameTotalProjection.projected_second_half_total :=
       round_nd (TotalsLocals.projected_second_half_total v) 1;
     GameTotalProjection.projected_final_total :=
       round_nd (TotalsLocals.projected_final_total v) 1;
     GameTotalProjection.projected_q3_total :=
       round_nd (TotalsLocals.projected_q3_total v) 1;
     GameTotalProjection.projected_q4_total :=
       round_nd (TotalsLocals.projected_q4_total v) 1;
     GameTotalProjection.total_confidence :=
       round_nd (TotalsLocals.total_confidence v) 1;
     GameTotalProjection.blowout_risk := TotalsLocals.blowout_risk v;
     GameTotalProjection.pace_sustainability :=
       round_nd (TotalsLocals.pace_sustainability v) 2;
     GameTotalProjection.home_off_rating :=
       TeamRatings.off_rating <$> home_ratings;
     GameTotalProjection.home_def_rating :=
       TeamRatings.def_rating <$> home_ratings;
     GameTotalProjection.away_off_rating :=
       TeamRatings.off_rating <$> away_ratings;
     GameTotalProjection.away_def_rating :=
       TeamRatings.def_rating <$> away_ratings |}.

(** What the two [LeagueDashTeamStats] requests inside the [try] block of
    [_get_team_ratings] deliver for one team.  The requests and the
    data-frame processing belong to external libraries; their outcome is
    an input of the model. *)
Module NbaApi.
Record advanced_row : Type := mk_row {
  OFF_RATING : Q;
  DEF_RATING : Q;
  PACE : option Q          (* [None]: the frame has no PACE column *)
}.

Inductive fetch : Type :=
| Failed (e : exn)
    (* the 'Advanced' request raises or times out *)
| AdvancedOnly (team_row : option advanced_row) (e : exn)
    (* the 'Advanced' request succeeds, the 'Opponent' one raises *)
| Complete (team_row : option advanced_row) (rank_3pm : option Z).
    (* both succeed; [rank_3pm] is the team's position by OPP_FG3M, or
       [None] when the team is not in the frame *)
End NbaApi.

Definition apply_advanced (ratings : TeamRatings.t)
    (team_row : option NbaApi.advanced_row) : TeamRatings.t :=
  match team_row with
  | Some row =>
      {| TeamRatings.team_id := TeamRatings.team_id ratings;
         TeamRatings.team_abbr := TeamRatings.team_abbr ratings;
         TeamRatings.off_rating := NbaApi.OFF_RATING row;
         TeamRatings.def_rating := NbaApi.DEF_RATING row;
         TeamRatings.pace := default LEAGUE_AVG_PACE (NbaApi.PACE row);
         TeamRatings.def_rank_pts := TeamRatings.def_rank_pts ratings;
         TeamRatings.def_rank_reb := TeamRatings.def_rank_reb ratings;
         TeamRatings.def_rank_ast := TeamRatings.def_rank_ast ratings;
         TeamRatings.def_rank_3pm := TeamRatings.def_rank_3pm ratings |}
  | None => ratings
  end.

(** Only the last sorted frame survives in [def_df_sorted], so of the
    four rank columns only [3PM_RANK] is found; the other three ranks
    are set to 15. *)
Definition apply_def_ranks (ratings : TeamRatings.t) (rank_3pm : option Z)
  : TeamRatings.t :=
  match rank_3pm with
  | Some r =>
      {| TeamRatings.team_id := TeamRatings.team_id ratings;
         TeamRatings.team_abbr := TeamRatings.team_abbr ratings;
         TeamRatings.off_rating := TeamRatings.off_rating ratings;
         TeamRatings.def_rating := TeamRatings.def_rating ratings;
         TeamRatings.pace := TeamRatings.pace ratings;
         TeamRatings.def_rank_pts := 15;
         TeamRatings.def_rank_reb := 15;
         TeamRatings.def_rank_ast := 15;
         TeamRatings.def_rank_3pm := r |}
  | None => ratings
  end.

(** The collaborators of one engine instance. *)
Module LiveClient.
Record t : Type := mk {
  get_todays_games : list LiveGameData.t;
  get_live_box_score : string -> BoxScore.t;
  get_player_season_stats : Z -> result (option (gmap string Q));
  is_back_to_back : Z -> bool
}.
End LiveClient.

Module Suggestion.
Record t : Type := mk {
  player_name : string;
  team_abbreviation : string;
  prop_type : string;
  prop_line : Q;
  current_value : Q;
  projected_final : Q;
  confidence_score : Q;
  recommendation : string;
  edge : Q;
  risk_level : string;
  key_factors : list string
}.
End Suggestion.

(** One entry of ['player_analyses']: the projection and the two values
    derived from it. *)
Module PlayerEntry.
Record t : Type := mk {
  projection : PlayerProjection.t;
  first_half_pace : Q;
  distance_from_line : Q
}.
End PlayerEntry.

(** [suggestions.sort(key=confidence_score, reverse=True)]: a stable
    sort, highest confidence first. *)
Fixpoint insert_suggestion (x : Suggestion.t) (l : list Suggestion.t)
  : list Suggestion.t :=
  match l with
  | [] => [x]
  | y :: rest =>
      if Qgeb (Suggestion.confidence_score y) (Suggestion.confidence_score x)
      then y :: insert_suggestion x rest
      else x :: y :: rest
  end.

Definition sort_suggestions (l : list Suggestion.t) : list Suggestion.t :=
  fold_left (fun acc x => insert_suggestion x acc) l [].

(** The dictionary returned by [get_halftime_analysis].  ['game_info'] and
    ['team_ratings'] repeat the fields (and properties) of the records
    kept here. *)
Module HalftimeAnalysis.
Record t (E : Type) : Type := mk {
  game_id : string;
  game_info : LiveGameData.t;
  home_ratings : TeamRatings.t;
  away_ratings : TeamRatings.t;
  game_total_analysis : GameTotalProjection.t;
  player_analyses : list PlayerEntry.t;
  suggestions : list Suggestion.t;
  analysis_timestamp : string;
  warnings : list string;
  enhanced_game_totals : option E
}.
Arguments mk {E}.
Arguments game_id {E}.
Arguments game_info {E}.
Arguments home_ratings {E}.
Arguments away_ratings {E}.
Arguments game_total_analysis {E}.
Arguments player_analyses {E}.
Arguments suggestions {E}.
Arguments analysis_timestamp {E}.
Arguments warnings {E}.
Arguments enhanced_game_totals {E}.
End HalftimeAnalysis.

Definition default_prop_types : list string :=
  ["points"; "rebounds"; "assists"].

(** The body of [for analysis in player_analyses] that builds one
    suggestion, when the analysis qualifies. *)
Definition suggestion_of (analysis : PlayerProjection.t)
  : option Suggestion.t :=
  let confidence_score := PlayerProjection.confidence_score analysis in
  let recommendation := PlayerProjection.recommendation analysis in
  if (Qgeb confidence_score 60
      && (str_eqb recommendation "strong_bet"
          || str_eqb recommendation "bet"
          || str_eqb recommendation "lean"))%bool then
    let edge :=
      PlayerProjection.projected_final analysis
      - PlayerProjection.prop_line analysis in
    let risk_level :=
      if Qgeb confidence_score 75 then "low"
      else if Qgeb confidence_score 65 then "medium" else "high" in
    let k1 :=
      if Qgeb (default 0 (PlayerProjection.factors analysis
                            !! "first_half_progress")) 50
      then ["Strong 1H progress"] else [] in
    let k2 :=
      match PlayerProjection.shooting_metrics analysis with
      | Some sm =>
          if Qgeb (ShootingDict.ts_pct sm) 60
          then ["Hot shooting (" ++ format_f 0 (ShootingDict.ts_pct sm)
                  ++ "% TS)"]
          else []
      | None => []
      end in
    let k3 :=
      if (PlayerProjection.plus_minus analysis >=? 8)%Z
      then ["+" ++ str_of_Z (PlayerProjection.plus_minus analysis)
              ++ " plus/minus"]
      else [] in
    let k4 :=
      match PlayerProjection.opponent_def_rank analysis with
      | Some r =>
          if (negb (r =? 0)%Z && (r >=? 25)%Z)%bool
          then ["Weak opponent defense"] else []
      | None => []
      end in
    let k5 :=
      if Qgeb (PlayerProjection.pace_factor analysis) 1.1
      then ["Fast pace game"] else [] in
    let k6 :=
      if PlayerProjection.foul_trouble analysis
      then ["Warning: Foul trouble"] else [] in
    let k7 :=
      if PlayerProjection.blowout_warning analysis
      then ["Warning: Blowout risk"] else [] in
    Some
      {| Suggestion.player_name := PlayerProjection.player_name analysis;
         Suggestion.team_abbreviation :=
           PlayerProjection.team_abbreviation analysis;
         Suggestion.prop_type := PlayerProjection.prop_type analysis;
         Suggestion.prop_line := PlayerProjection.prop_line analysis;
         Suggestion.current_value :=
           PlayerProjection.first_half_value analysis;
         Suggestion.projected_final :=
           PlayerProjection.projected_final analysis;
         Suggestion.confidence_score := confidence_score;
         Suggestion.recommendation := recommendation;
         Suggestion.edge := round_nd edge 1;
         Suggestion.risk_level := risk_level;
         Suggestion.key_factors :=
           (k1 ++ k2 ++ k3 ++ k4 ++ k5 ++ k6 ++ k7)%list |}
  else None.

Definition player_entry (a : PlayerProjection.t) : PlayerEntry.t :=
  {| PlayerEntry.projection := a;
     PlayerEntry.first_half_pace :=
       if Qgtb (PlayerProjection.first_half_minutes a) 0
       then round_nd (PlayerProjection.first_half_value a
                      / PlayerProjection.first_half_minutes a) 2
       else 0;
     PlayerEntry.distance_from_line :=
       round_nd (PlayerProjection.projected_final a
                 - PlayerProjection.prop_line a) 1 |}.

Section Engine.
Variable live_client : LiveClient.t.
Variable nba_api : Z -> NbaApi.fetch.
(** [datetime.utcnow().isoformat()] *)
Variable utcnow : string.
(** The advanced engine's [analyze], run inside [try ... except]: its
    dictionary, or the exception it raises. *)
Variable Enhanced : Type.
Variable totals_engine_analyze :
  LiveGameData.t -> BoxScore.t -> TeamRatings.t -> TeamRatings.t ->
  result Enhanced.

(** [self._team_ratings_cache] is threaded through as [cache]. *)
Definition _get_team_ratings (cache : gmap Z TeamRatings.t)
    (team_id : Z) (team_abbr : string)
  : TeamRatings.t * gmap Z TeamRatings.t :=
  match cache !! team_id with
  | Some ratings => (ratings, cache)
  | None =>
      let ratings := TeamRatings.default team_id team_abbr in
      let ratings :=
        match nba_api team_id with
        | NbaApi.Failed _ => ratings
        | NbaApi.AdvancedOnly team_row _ => apply_advanced ratings team_row
        | NbaApi.Complete team_row rank_3pm =>
            apply_def_ranks (apply_advanced ratings team_row) rank_3pm
        end in
      (ratings, <[team_id := ratings]> cache)
  end.

Definition analyze_halftime_player (cache : gmap Z TeamRatings.t)
    (live_stats : LivePlayerStats.t) (prop_line : Q) (prop_type : string)
    (game_data : LiveGameData.t) (team_stats : list LivePlayerStats.t)
    (opponent_team_id : Z) (opponent_abbr : string)
    (team_ratings : option TeamRatings.t) (is_back_to_back : bool)
  : result PlayerProjection.t * gmap Z TeamRatings.t :=
  let first_half_value := _get_stat_value live_stats prop_type in
  let first_half_minutes := LivePlayerStats.minutes_float live_stats in
  (* Calculate all factors *)
  let shooting_metrics := _calculate_shooting_metrics live_stats in
  let assist_to_turnover := _calculate_assist_to_turnover live_stats in
  let utilization_rate := _calculate_utilization_rate live_stats team_stats in
  let pace_factor := _calculate_pace_factor game_data 24.0 in
  let foul_trouble :=
    _detect_foul_trouble (LivePlayerStats.fouls live_stats)
                         first_half_minutes in
  let blowout_warning :=
    _detect_blowout (LiveGameData.score_differential game_data) in
  let fatigue_factor := _get_fatigue_factor is_back_to_back 1 in
  (* Get opponent defensive ratings *)
  let '(opp_ratings, cache) :=
    _get_team_ratings cache opponent_team_id opponent_abbr in
  let opponent_def_rank :=
    _get_opponent_def_rank_for_stat opp_ratings prop_type in
  (* Get historical data *)
  let '(season_avg, historical_2h_avg) :=
    try_except
      (season_stats ←
         LiveClient.get_player_season_stats live_client
           (LivePlayerStats.player_id live_stats);
       mret
         match season_stats with
         | Some d =>
             if bool_decide (d = ∅) then (None, None)
             else if str_eqb prop_type "points" then
               (d !! "avg_points", d !! "second_half_avg_points")
             else if str_eqb prop_type "rebounds" then
               (d !! "avg_rebounds", d !! "second_half_avg_rebounds")
             else if str_eqb prop_type "assists" then
               (d !! "avg_assists", d !! "second_half_avg_assists")
             else (None, None)
         | None => (None, None)
         end)
      (fun _ => (None, None)) in
  (* Project minutes *)
  let minutes_projection :=
    _calculate_minutes_projection first_half_minutes foul_trouble
      blowout_warning (LivePlayerStats.starter live_stats) in
  (* Calculate enhanced second-half projection *)
  let '(projected_second_half, projection_components) :=
    _calculate_second_half_projection
      first_half_value first_half_minutes minutes_projection pace_factor
      utilization_rate fatigue_factor historical_2h_avg blowout_warning
      shooting_metrics (LivePlayerStats.plus_minus live_stats)
      opponent_def_rank prop_type
      (LivePlayerStats.fg_attempted live_stats)
      (LivePlayerStats.ft_attempted live_stats)
      (LiveGameData.score_differential game_data) in
  let projected_final := first_half_value + projected_second_half in
  (* Calculate enhanced confidence score *)
  let historical_consistency := 50.0 in
  let '(confidence, recommendation) :=
    _calculate_confidence_score
      projected_final prop_line first_half_value historical_consistency
      shooting_metrics foul_trouble blowout_warning utilization_rate
      (LivePlayerStats.plus_minus live_stats) opponent_def_rank
      assist_to_turnover in
  (* Build enhanced factors breakdown *)
  let shot_volume_factor :=
    _calculate_shot_volume_factor
      (LivePlayerStats.fg_attempted live_stats)
      (LivePlayerStats.ft_attempted live_stats)
      first_half_minutes prop_type in
  let factors : gmap string Q :=
    list_to_map
      [ ("first_half_progress",
          if Qgtb prop_line 0 then first_half_value / prop_line * 100 else 0);
        ("shots_attempted",
          inject_Z (LivePlayerStats.fg_attempted live_stats));
        ("shot_volume_factor", shot_volume_factor);
        ("shooting_ts_pct", ShootingMetrics.ts_pct shooting_metrics);
        ("shooting_efg_pct", ShootingMetrics.efg_pct shooting_metrics);
        ("opponent_def_rank", inject_Z opponent_def_rank);
        ("opponent_def_adjustment",
          _get_opponent_def_adjustment opponent_def_rank prop_type);
        ("score_differential",
          inject_Z (LiveGameData.score_differential game_data));
        ("pace_factor", pace_factor);
        ("plus_minus", inject_Z (LivePlayerStats.plus_minus live_stats));
        ("plus_minus_factor",
          _calculate_plus_minus_factor
            (LivePlayerStats.plus_minus live_stats) first_half_minutes);
        ("utilization_rate", utilization_rate);
        ("fatigue_factor", fatigue_factor);
        ("assist_to_turnover", default 0 assist_to_turnover);
        ("foul_trouble_penalty", if foul_trouble then -10 else 0);
        ("blowout_penalty", if blowout_warning then -12 else 0) ] in
  (Ok
     {| PlayerProjection.player_id := LivePlayerStats.player_id live_stats;
        PlayerProjection.player_name :=
          LivePlayerStats.player_name live_stats;
        PlayerProjection.team_abbreviation :=
          LivePlayerStats.team_abbreviation live_stats;
        PlayerProjection.prop_type := prop_type;
        PlayerProjection.prop_line := prop_line;
        PlayerProjection.first_half_value := first_half_value;
        PlayerProjection.first_half_minutes := first_half_minutes;
        PlayerProjection.projected_second_half :=
          round_nd projected_second_half 1;
        PlayerProjection.projected_final := round_nd projected_final 1;
        PlayerProjection.confidence_score := round_nd confidence 1;
        PlayerProjection.recommendation := recommendation;
        PlayerProjection.factors := factors;
        PlayerProjection.foul_trouble := foul_trouble;
        PlayerProjection.blowout_warning := blowout_warning;
        PlayerProjection.pace_factor := round_nd pace_factor 2;
        PlayerProjection.utilization_rate := round_nd utilization_rate 1;
        PlayerProjection.fatigue_factor := fatigue_factor;
        PlayerProjection.minutes_projection := round_nd minutes_projection 1;
        PlayerProjection.shooting_metrics :=
          Some
            {| ShootingDict.fg_pct := ShootingMetrics.fg_pct shooting_metrics;
               ShootingDict.fg3_pct := ShootingMetrics.fg3_pct shooting_metrics;
               ShootingDict.ft_pct := ShootingMetrics.ft_pct shooting_metrics;
               ShootingDict.efg_pct := ShootingMetrics.efg_pct shooting_metrics;
               ShootingDict.ts_pct := ShootingMetrics.ts_pct shooting_metrics;
               ShootingDict.efficiency_rating :=
                 ShootingMetrics.efficiency_rating shooting_metrics |};
        PlayerProjection.assist_to_turnover := assist_to_turnover;
        PlayerProjection.opponent_def_rank := Some opponent_def_rank;
        PlayerProjection.opponent_def_rating :=
          Some (TeamRatings.def_rating opp_ratings);
        PlayerProjection.team_off_rating :=
          TeamRatings.off_rating <$> team_ratings;
        PlayerProjection.season_average :=
          if truthy_float season_avg
          then Some (round_nd (default 0 season_avg) 1) else None;
        PlayerProjection.second_half_historical_avg :=
          if truthy_float historical_2h_avg
          then Some (round_nd (default 0 historical_2h_avg) 1) else None;
        PlayerProjection.plus_minus := LivePlayerStats.plus_minus live_stats;
        PlayerProjection.shooting_efficiency :=
          Some (ShootingMetrics.ts_pct shooting_metrics) |},
   cache).

(** The inner loop [for prop_type in default_prop_types] for one
    player; [st] is the cache together with [player_analyses]. *)
Definition analyze_player (game_data : LiveGameData.t)
    (box_score : BoxScore.t) (home_ratings away_ratings : TeamRatings.t)
    (home_b2b away_b2b : bool)
    (prop_lines : option (gmap string (gmap string Q)))
    (st : gmap Z TeamRatings.t * list PlayerProjection.t)
    (player : LivePlayerStats.t)
  : gmap Z TeamRatings.t * list PlayerProjection.t :=
  if Qltb (LivePlayerStats.minutes_float player) 5 then st
  else
    let is_home :=
      str_eqb (LivePlayerStats.team_abbreviation player)
              (LiveGameData.home_team_abbr game_data) in
    let is_b2b := if is_home then home_b2b else away_b2b in
    let team_stats :=
      if is_home then BoxScore.home box_score else BoxScore.away box_score in
    (* Opponent info for defensive adjustments *)
    let opponent_team_id :=
      if is_home then LiveGameData.away_team_id game_data
      else LiveGameData.home_team_id game_data in
    let opponent_abbr :=
      if is_home then LiveGameData.away_team_abbr game_data
      else LiveGameData.home_team_abbr game_data in
    let team_ratings := if is_home then home_ratings else away_ratings in
    let player_props : gmap string Q :=
      match prop_lines with
      | Some pl =>
          if bool_decide (pl = ∅) then ∅
          else default ∅ (pl !! LivePlayerStats.player_name player)
      | None => ∅
      end in
    fold_left
      (fun st prop_type =>
         let '(cache, player_analyses) :=
           (st : gmap Z TeamRatings.t * list PlayerProjection.t) in
         let prop_line :=
           match player_props !! prop_type with
           | Some l => l
           | None => _get_stat_value player prop_type * 2
           end in
         if Qleb prop_line 0 then st
         else
           let '(outcome, cache) :=
             analyze_halftime_player cache player prop_line prop_type
               game_data team_stats opponent_team_id opponent_abbr
               (Some team_ratings) is_b2b in
           match outcome with
           | Ok analysis => (cache, (player_analyses ++ [analysis])%list)
           | Raise _ => (cache, player_analyses)
           end)
      default_prop_types st.

Definition get_halftime_analysis (cache : gmap Z TeamRatings.t)
    (game_id : string) (prop_lines : option (gmap string (gmap string Q)))
  : result (HalftimeAnalysis.t Enhanced) * gmap Z TeamRatings.t :=
  let games := LiveClient.get_todays_games live_client in
  match List.find (fun g => str_eqb (LiveGameData.game_id g) game_id) games with
  | None => (Raise (ValueError ("Game " ++ game_id ++ " not found")), cache)
  | Some game_data =>
      let box_score := LiveClient.get_live_box_score live_client game_id in
      (* Get team ratings *)
      let '(home_ratings, cache) :=
        _get_team_ratings cache (LiveGameData.home_team_id game_data)
                          (LiveGameData.home_team_abbr game_data) in
      let '(away_ratings, cache) :=
        _get_team_ratings cache (LiveGameData.away_team_id game_data)
                          (LiveGameData.away_team_abbr game_data) in
      (* Analyze game totals *)
      let game_total_analysis :=
        analyze_game_totals game_data box_score
                            (Some home_ratings) (Some away_ratings) in
      (* Analyze players *)
      let all_players :=
        (BoxScore.home box_score ++ BoxScore.away box_score)%list in
      let home_b2b :=
        LiveClient.is_back_to_back live_client
          (LiveGameData.home_team_id game_data) in
      let away_b2b :=
        LiveClient.is_back_to_back live_client
          (LiveGameData.away_team_id game_data) in
      let '(cache, player_analyses) :=
        fold_left
          (analyze_player game_data box_score home_ratings away_ratings
                          home_b2b away_b2b prop_lines)
          all_players (cache, []) in
      (* Generate suggestions *)
      let suggestions :=
        sort_suggestions (omap suggestion_of player_analyses) in
      let w1 :=
        if GameTotalProjection.blowout_risk game_total_analysis
        then ["Blowout warning: "
                ++ str_of_Z (LiveGameData.score_differential game_data)
                ++ " point differential"]
        else [] in
      let w2 :=
        if str_eqb (GameTotalProjection.pace_rating game_total_analysis)
                   "very_fast"
        then ["Very fast pace - projections may have higher variance"]
        else [] in
      let warnings := (w1 ++ w2)%list in
      (* Enhanced game totals analysis *)
      let enhanced_game_totals :=
        try_except
          (enhanced_result ←
             totals_engine_analyze game_data box_score
                                   home_ratings away_ratings;
           mret (Some enhanced_result))
          (fun _ => None) in
      (Ok
         {| HalftimeAnalysis.game_id := game_id;
            HalftimeAnalysis.game_info := game_data;
            HalftimeAnalysis.home_ratings := home_ratings;
            HalftimeAnalysis.away_ratings := away_ratings;
            HalftimeAnalysis.game_total_analysis := game_total_analysis;
            HalftimeAnalysis.player_analyses :=
              map player_entry player_analyses;
            HalftimeAnalysis.suggestions := suggestions;
            HalftimeAnalysis.analysis_timestamp := utcnow;
            HalftimeAnalysis.warnings := warnings;
            HalftimeAnalysis.enhanced_game_totals := enhanced_game_totals |},
       cache)
  end.
End Engine.

(** The projection of [analyze_game_totals] on doubles: the second-half
    total, the final total and the two quarter totals, as they are before
    [round] prepares them for display.  The first-half total is an [int];
    it enters the arithmetic as [float(first_half_total)]. *)
Definition LEAGUE_AVG_TOTAL_f64 : F64.t := F64.of_Z 225.
Definition Q3_PACE_FACTOR_f64 : F64.t := F64.decimal 92 2.
Definition PACE_SUSTAINABILITY_f64 : F64.t := F64.decimal 95 2.

Module TotalsF64.
Record t : Type := mk {
  projected_second_half_total : F64.t;
  projected_final_total : F64.t;
  projected_q3_total : F64.t;
  projected_q4_total : F64.t
}.
End TotalsF64.

Definition project_totals_f64 (first_half_total : Z) (blowout_risk : bool)
  : TotalsF64.t :=
  let first_half_minutes := F64.of_Z 24 in
  let first_half_pace :=
    F64.div (F64.of_Z first_half_total) first_half_minutes in
  let expected_pace := F64.div LEAGUE_AVG_TOTAL_f64 (F64.of_Z 48) in
  let league_avg_pace_comparison := F64.div first_half_pace expected_pace in
  let pace_sustainability :=
    if F64.geb league_avg_pace_comparison (F64.decimal 12 1)
    then F64.decimal 90 2
    else if F64.geb league_avg_pace_comparison (F64.decimal 11 1)
    then F64.decimal 93 2
    else if F64.leb league_avg_pace_comparison (F64.decimal 85 2)
    then F64.decimal 105 2
    else PACE_SUSTAINABILITY_f64 in
  let base_second_half :=
    F64.mul (F64.of_Z first_half_total) pace_sustainability in
  let base_second_half :=
    if blowout_risk then F64.mul base_second_half (F64.decimal 92 2)
    else base_second_half in
  let projected_second_half_total := base_second_half in
  let projected_final_total :=
    F64.add (F64.of_Z first_half_total) projected_second_half_total in
  let projected_q3_total :=
    F64.mul (F64.div projected_second_half_total (F64.of_Z 2))
            Q3_PACE_FACTOR_f64 in
  let projected_q4_total :=
    F64.sub projected_second_half_total projected_q3_total in
  {| TotalsF64.projected_second_half_total := projected_second_half_total;
     TotalsF64.projected_final_total := projected_final_total;
     TotalsF64.projected_q3_total := projected_q3_total;
     TotalsF64.projected_q4_total := projected_q4_total |}.

Definition analyze_game_totals_f64 (game_data : LiveGameData.t)
  : TotalsF64.t :=
  let first_half_total := LiveGameData.total_score game_data in
  let blowout_risk :=
    _detect_blowout (LiveGameData.score_differential game_data) in
  project_totals_f64 first_half_total blowout_risk.

End HalftimeEngine.

(** [LiveDataClient.aggregate_team_box_score]: the team-level totals the
    advanced engine reads. *)
Module TeamAgg.
Import Py.
#[local] Coercion inject_Z : Z >-> Q.

Record t : Type := mk {
  total_points : Z;
  total_turnovers : Z;
  total_fg_made : Z;
  total_fg_attempted : Z;
  total_fg3_made : Z;
  total_fg3_attempted : Z;
  total_ft_made : Z;
  total_ft_attempted : Z;
  estimated_possessions : Q
}.

Definition aggregate_team_box_score (players : list LivePlayerStats.t) : t :=
  let total_fga := sumZ (map LivePlayerStats.fg_attempted players) in
  let total_fta := sumZ (map LivePlayerStats.ft_attempted players) in
  let total_tov := sumZ (map LivePlayerStats.turnovers players) in
  {| total_points := sumZ (map LivePlayerStats.points players);
     total_turnovers := total_tov;
     total_fg_made := sumZ (map LivePlayerStats.fg_made players);
     total_fg_attempted := total_fga;
     total_fg3_made := sumZ (map LivePlayerStats.fg3_made players);
     total_fg3_attempted := sumZ (map LivePlayerStats.fg3_attempted players);
     total_ft_made := sumZ (map LivePlayerStats.ft_made players);
     total_ft_attempted := total_fta;
     (* Standard possession estimation: Poss = FGA + 0.44 * FTA + TOV * 0.96 *)
     estimated_possessions := total_fga + 0.44 * total_fta + total_tov * 0.96 |}.
End TeamAgg.

(* ================================================================== *)
(** * game_totals_engine.py                                            *)
(* ================================================================== *)
Module GameTotalsEngine.
Import Py.
Module TeamRatings := HalftimeEngine.TeamRatings.

#[local] Coercion inject_Z : Z >-> Q.

Definition LEAGUE_AVG_PACE : Q := 100.0.
Definition LEAGUE_AVG_TOTAL : Q := 225.0.
Definition LEAGUE_AVG_PPP : Q := 1.14.
Definition LEAGUE_AVG_EFG : Q := 52.5.
Definition LEAGUE_AVG_TS : Q := 57.5.

Definition Q3_PACE_FACTOR : Q := 0.91.
Definition Q4_CLOSE_FACTOR : Q := 1.06.
Definition Q4_MODERATE_FACTOR : Q := 0.98.
Definition Q4_BLOWOUT_FACTOR : Q := 0.88.

Definition BLOWOUT_THRESHOLD : Z := 20.
Definition CLOSE_GAME_THRESHOLD : Z := 8.
Definition MODERATE_LEAD_THRESHOLD : Z := 15.

Definition FOUL_TROUBLE_THRESHOLD : Z := 3.
Definition SHOOTING_REGRESSION_RATE : Q := 0.40.

(** Projection weights *)
Definition TOTALS_WEIGHTS : list (string * Q) :=
  [ ("pace_component", 0.30);
    ("shooting_component", 0.25);
    ("star_utilization", 0.20);
    ("game_flow", 0.10);
    ("team_ratings", 0.10);
    ("regression", 0.05) ].

(** [TOTALS_WEIGHTS[key]] *)
Definition weight (key : string) : Q :=
  default 0 (snd <$> List.find (fun kw => str_eqb (fst kw) key) TOTALS_WEIGHTS).

Module PaceAnalysis.
Record t : Type := mk {
  first_half_possessions_est : Q;
  possessions_per_48_live : Q;
  points_per_possession_home : Q;
  points_per_possession_away : Q;
  home_season_pace : Q;
  away_season_pace : Q;
  matchup_expected_pace : Q;
  pace_deviation : Q;
  pace_trend : string;
  q1_pace : option Q;
  q2_pace : option Q;
  transition_rate : Q
}.
End PaceAnalysis.

Module TeamShootingProfile.
Record t : Type := mk {
  team_abbr : string;
  live_efg_pct : Q;
  live_ts_pct : Q;
  live_fg3_rate : Q;
  live_fg3_pct : Q;
  live_ft_rate : Q;
  live_ft_pct : Q;
  season_efg_pct : Q;
  season_ts_pct : Q;
  season_fg3_rate : Q;
  season_fg3_pct : Q;
  season_ft_rate : Q;
  shooting_regression_factor : Q;
  shooting_variance_level : string
}.
End TeamShootingProfile.

Module StarPlayerImpact.
Record t : Type := mk {
  player_name : string;
  player_id : Z;
  team_abbr : string;
  first_half_points : Z;
  first_half_minutes : Q;
  usage_rate : Q;
  current_efficiency : Q;
  foul_trouble : bool;
  foul_count : Z;
  season_ppg : option Q;
  projected_2h_points : Q;
  projected_2h_minutes : Q;
  hot_cold_indicator : string;
  minutes_risk : string;
  impact_on_team_total : Q
}.
End StarPlayerImpact.

Module TeamQuarterProjection.
Record t : Type := mk {
  team_abbr : string;
  q1_actual : option Z;
  q2_actual : option Z;
  q3_projected : Q;
  q4_projected : Q;
  ot_probability : Q;
  projected_final_score : Q
}.
End TeamQuarterProjection.

Module OverUnderRecommendation.
Record t : Type := mk {
  projected_total : Q;
  projected_range_low : Q;
  projected_range_high : Q;
  reference_line : option Q;
  edge : Q;
  edge_pct : Q;
  recommendation : string;
  confidence : Q
}.
End OverUnderRecommendation.

Definition _pace_projection (pace : PaceAnalysis.t) (home_agg away_agg : TeamAgg.t)
    (current_total : Z) (remaining_min elapsed_min : Q) : Q :=
  (* Use live PPP * expected remaining possessions *)
  let live_ppp :=
    (TeamAgg.total_points home_agg + TeamAgg.total_points away_agg)%Z
    / max (PaceAnalysis.first_half_possessions_est pace) 1 in
  (* Possessions per minute from live data *)
  let poss_per_min :=
    PaceAnalysis.first_half_possessions_est pace / max elapsed_min 1 in
  (* Expected remaining poss per min from season pace *)
  let expected_poss_per_min := PaceAnalysis.matchup_expected_pace pace / 48.0 in
  (* Regress live pace 30% toward season expectation *)
  let regressed_ppm := poss_per_min * 0.70 + expected_poss_per_min * 0.30 in
  (* Apply slight slowdown for remaining game *)
  let regressed_ppm := regressed_ppm * 0.97 in
  let remaining_poss := regressed_ppm * remaining_min in
  (* PPP also regresses toward league average *)
  let regressed_ppp := live_ppp * 0.75 + LEAGUE_AVG_PPP * 0.25 in
  remaining_poss * regressed_ppp * 2.

Definition _shooting_projection (home_s away_s : TeamShootingProfile.t)
    (scoring_rate : Q) (current_total : Z) (remaining_min : Q) : Q :=
  let avg_regression :=
    (TeamShootingProfile.shooting_regression_factor home_s
     + TeamShootingProfile.shooting_regression_factor away_s) / 2 in
  (* Remaining points based on current scoring rate *)
  let base_remaining := scoring_rate * remaining_min * 0.97 in
  let adjusted := base_remaining * avg_regression in
  (* High 3-point rate increases variance *)
  let avg_fg3_rate :=
    (TeamShootingProfile.live_fg3_rate home_s
     + TeamShootingProfile.live_fg3_rate away_s) / 2 in
  if Qgtb avg_fg3_rate 42 then adjusted * 1.02
  else if Qltb avg_fg3_rate 30 then adjusted * 0.98
  else adjusted.

Definition _star_utilization_projection (stars : list StarPlayerImpact.t)
    (scoring_rate : Q) (current_total : Z) (remaining_min : Q) : Q :=
  let base_remaining := scoring_rate * remaining_min * 0.95 in
  match stars with
  | [] => base_remaining
  | _ =>
      (* Sum star impacts *)
      let total_impact :=
        sum (List.filter (fun i => negb (Qeq_bool i 0))
                         (map StarPlayerImpact.impact_on_team_total stars)) in
      (* Stars with foul trouble drag down projection *)
      let foul_trouble_stars := List.filter StarPlayerImpact.foul_trouble stars in
      let base_remaining :=
        match foul_trouble_stars with
        | [] => base_remaining
        | _ => base_remaining - len foul_trouble_stars * 3.5
        end in
      (* Hot stars boost, cold stars reduce *)
      let hot_count :=
        len (List.filter
               (fun s => str_eqb (StarPlayerImpact.hot_cold_indicator s) "hot")
               stars) in
      let cold_count :=
        len (List.filter
               (fun s => str_eqb (StarPlayerImpact.hot_cold_indicator s) "cold")
               stars) in
      let base_remaining := base_remaining + (hot_count * 1.5 - cold_count * 1.0) in
      max (base_remaining + total_impact * 0.5)
          (scoring_rate * remaining_min * 0.70)
  end.

Definition _game_flow_projection (game_data : LiveGameData.t)
    (scoring_rate : Q) (current_total : Z) (remaining_min : Q) : Q :=
  let diff := Z.abs (LiveGameData.score_differential game_data) in
  let base_remaining := scoring_rate * remaining_min in
  if (diff >=? BLOWOUT_THRESHOLD)%Z then base_remaining * 0.85
  else if (diff <=? CLOSE_GAME_THRESHOLD)%Z then base_remaining * 1.03
  else if (diff <=? MODERATE_LEAD_THRESHOLD)%Z then base_remaining * 0.97
  else base_remaining * 0.92.

Definition _team_ratings_projection
    (home_ratings away_ratings : option TeamRatings.t) (current_total : Z)
    (remaining_min : Q) : Q :=
  match home_ratings, away_ratings with
  | Some home_ratings, Some away_ratings =>
      let avg_pace :=
        (TeamRatings.pace home_ratings + TeamRatings.pace away_ratings) / 2 in
      let remaining_fraction := remaining_min / 48.0 in
      let home_expected_pts :=
        avg_pace * TeamRatings.off_rating home_ratings / 100
        * remaining_fraction in
      let away_expected_pts :=
        avg_pace * TeamRatings.off_rating away_ratings / 100
        * remaining_fraction in
      (* Adjust for opponent defense *)
      let home_vs_def :=
        home_expected_pts
        * (LEAGUE_AVG_PPP * 100 / max (TeamRatings.def_rating away_ratings) 80) in
      let away_vs_def :=
        away_expected_pts
        * (LEAGUE_AVG_PPP * 100 / max (TeamRatings.def_rating home_ratings) 80) in
      home_vs_def + away_vs_def
  | _, _ => current_total * (remaining_min / 48.0) * 0.95
  end.

(** The local variables of [_project_quarters] before they are rounded
    into the two returned records. *)
Module QuarterLocals.
Record t : Type := mk {
  q4_factor : Q;
  combined_q3 : Q;
  combined_q4 : Q;
  home_share : Q;
  away_share : Q;
  home_q3 : Q;
  home_q4 : Q;
  away_q3 : Q;
  away_q4 : Q;
  home_proj_final : Q;
  away_proj_final : Q;
  ot_prob : Q
}.
End QuarterLocals.

Definition _project_quarters_locals (projected_remaining : Q)
    (game_data : LiveGameData.t)
    (home_ratings away_ratings : option TeamRatings.t)
    (home_agg away_agg : TeamAgg.t) (elapsed_min : Q) : QuarterLocals.t :=
  let diff := Z.abs (LiveGameData.score_differential game_data) in
  let period := LiveGameData.period game_data in
  (* Determine which quarters still need projecting *)
  let q4_factor :=
    if (diff >=? BLOWOUT_THRESHOLD)%Z then Q4_BLOWOUT_FACTOR
    else if (diff <=? CLOSE_GAME_THRESHOLD)%Z then Q4_CLOSE_FACTOR
    else Q4_MODERATE_FACTOR in
  (* Split remaining points into Q3/Q4 portions *)
  let '(combined_q3, combined_q4) :=
    if (period >=? 4)%Z then
      (* Already in Q4 or later *)
      (0.0, projected_remaining)
    else if (period >=? 3)%Z then
      (* In Q3 - estimate how much of Q3 remains *)
      let q3_elapsed := elapsed_min - 24.0 in
      let q3_remaining_frac := max 0 ((12.0 - q3_elapsed) / 12.0) in
      let q3_portion :=
        projected_remaining
        * (q3_remaining_frac * Q3_PACE_FACTOR / (Q3_PACE_FACTOR + q4_factor)) in
      (q3_portion, projected_remaining - q3_portion)
    else
      (* Halftime or earlier *)
      let q3_share := Q3_PACE_FACTOR / (Q3_PACE_FACTOR + q4_factor) in
      let q4_share := 1.0 - q3_share in
      (projected_remaining * q3_share, projected_remaining * q4_share) in
  (* Split per-team by offensive rating ratio *)
  let '(home_off, away_off) :=
    match home_ratings, away_ratings with
    | Some home_ratings, Some away_ratings =>
        (TeamRatings.off_rating home_ratings,
         TeamRatings.off_rating away_ratings)
    | _, _ =>
        let total :=
          (TeamAgg.total_points home_agg + TeamAgg.total_points away_agg)%Z in
        (TeamAgg.total_points home_agg / Z.max total 1 * 228,
         TeamAgg.total_points away_agg / Z.max total 1 * 228)
    end in
  let home_share := home_off / max (home_off + away_off) 1 in
  let away_share := 1.0 - home_share in
  let home_q3 := combined_q3 * home_share in
  let home_q4 := combined_q4 * home_share in
  let away_q3 := combined_q3 * away_share in
  let away_q4 := combined_q4 * away_share in
  (* OT probability *)
  let home_proj_final := LiveGameData.home_score game_data + home_q3 + home_q4 in
  let away_proj_final := LiveGameData.away_score game_data + away_q3 + away_q4 in
  let proj_margin := abs (home_proj_final - away_proj_final) in
  let ot_prob := max 0 (min 25 (15 - proj_margin * 2)) in
  {| QuarterLocals.q4_factor := q4_factor;
     QuarterLocals.combined_q3 := combined_q3;
     QuarterLocals.combined_q4 := combined_q4;
     QuarterLocals.home_share := home_share;
     QuarterLocals.away_share := away_share;
     QuarterLocals.home_q3 := home_q3;
     QuarterLocals.home_q4 := home_q4;
     QuarterLocals.away_q3 := away_q3;
     QuarterLocals.away_q4 := away_q4;
     QuarterLocals.home_proj_final := home_proj_final;
     QuarterLocals.away_proj_final := away_proj_final;
     QuarterLocals.ot_prob := ot_prob |}.

Definition _project_quarters (projected_remaining : Q)
    (game_data : LiveGameData.t)
    (home_ratings away_ratings : option TeamRatings.t)
    (home_agg away_agg : TeamAgg.t) (elapsed_min : Q)
  : TeamQuarterProjection.t * TeamQuarterProjection.t :=
  let v :=
    _project_quarters_locals projected_remaining game_data home_ratings
                             away_ratings home_agg away_agg elapsed_min in
  let home_quarter :=
    {| TeamQuarterProjection.team_abbr := LiveGameData.home_team_abbr game_data;
       TeamQuarterProjection.q1_actual := None;
       TeamQuarterProjection.q2_actual := None;
       TeamQuarterProjection.q3_projected := round_nd (QuarterLocals.home_q3 v) 1;
       TeamQuarterProjection.q4_projected := round_nd (QuarterLocals.home_q4 v) 1;
       TeamQuarterProjection.ot_probability := round_nd (QuarterLocals.ot_prob v) 1;
       TeamQuarterProjection.projected_final_score :=
         round_nd (QuarterLocals.home_proj_final v) 1 |} in
  let away_quarter :=
    {| TeamQuarterProjection.team_abbr := LiveGameData.away_team_abbr game_data;
       TeamQuarterProjection.q1_actual := None;
       TeamQuarterProjection.q2_actual := None;
       TeamQuarterProjection.q3_projected := round_nd (QuarterLocals.away_q3 v) 1;
       TeamQuarterProjection.q4_projected := round_nd (QuarterLocals.away_q4 v) 1;
       TeamQuarterProjection.ot_probability := round_nd (QuarterLocals.ot_prob v) 1;
       TeamQuarterProjection.projected_final_score :=
         round_nd (QuarterLocals.away_proj_final v) 1 |} in
  (home_quarter, away_quarter).

Definition is_extreme (level : string) : bool :=
  (str_eqb level "extreme_hot" || str_eqb level "extreme_cold")%bool.

Definition is_hot_or_cold (level : string) : bool :=
  (str_eqb level "hot" || str_eqb level "cold")%bool.

Definition _calculate_variance (pace : PaceAnalysis.t)
    (home_s away_s : TeamShootingProfile.t) : Q :=
  let base_variance := 4.0 in
  (* Higher pace deviation = more uncertainty *)
  let pace_mult := 1.0 + abs (PaceAnalysis.pace_deviation pace) * 0.02 in
  (* Extreme shooting = more uncertainty *)
  let shooting_mult :=
    fold_left
      (fun shooting_mult s =>
         let level := TeamShootingProfile.shooting_variance_level s in
         if is_extreme level then shooting_mult + 0.15
         else if is_hot_or_cold level then shooting_mult + 0.08
         else shooting_mult)
      [home_s; away_s] 1.0 in
  (* High 3pt rate = more variance *)
  let avg_fg3_rate :=
    (TeamShootingProfile.live_fg3_rate home_s
     + TeamShootingProfile.live_fg3_rate away_s) / 2 in
  let three_mult := 1.0 + max 0 ((avg_fg3_rate - 35) * 0.01) in
  base_variance * pace_mult * shooting_mult * three_mult.

(** The [# Recommendation] block of [_calculate_over_under]. *)
Definition over_under_recommendation (edge confidence : Q) : string :=
  if (Qgtb edge 4 && Qgeb confidence 65)%bool then "strong_over"
  else if (Qgtb edge 1.5 && Qgeb confidence 50)%bool then "lean_over"
  else if (Qltb edge (-4) && Qgeb confidence 65)%bool then "strong_under"
  else if (Qltb edge (-1.5) && Qgeb confidence 50)%bool then "lean_under"
  else "neutral".

(** The local variables of [_calculate_over_under]. *)
Module OverUnderLocals.
Record t : Type := mk {
  range_low : Q;
  range_high : Q;
  line : Q;
  edge : Q;
  edge_pct : Q;
  confidence : Q;
  rec : string
}.
End OverUnderLocals.

Definition _calculate_over_under_locals (projected_total variance : Q)
    (reference_line : option Q) (season_avg_total : Q)
    (home_s away_s : TeamShootingProfile.t) (pace : PaceAnalysis.t)
  : OverUnderLocals.t :=
  let range_low := projected_total - variance in
  let range_high := projected_total + variance in
  (* Reference line: user-provided or estimated from season averages *)
  let line :=
    if HalftimeEngine.truthy_float reference_line
    then default 0 reference_line
    else round (season_avg_total * 2) / 2 in
  let edge := projected_total - line in
  let edge_pct := edge / max line 1 * 100 in
  (* Confidence based on how much data supports the projection *)
  let confidence := 50.0 in
  let confidence :=
    if Qltb (abs (PaceAnalysis.pace_deviation pace)) 5
    then confidence + 10 else confidence in
  let confidence :=
    fold_left
      (fun confidence s =>
         if str_eqb (TeamShootingProfile.shooting_variance_level s) "normal"
         then confidence + 5 else confidence)
      [home_s; away_s] confidence in
  (* Edge magnitude boosts confidence *)
  let confidence :=
    if Qgtb (abs edge) 4 then confidence + 10
    else if Qgtb (abs edge) 2 then confidence + 5
    else confidence in
  let confidence := max 20 (min 90 confidence) in
  {| OverUnderLocals.range_low := range_low;
     OverUnderLocals.range_high := range_high;
     OverUnderLocals.line := line;
     OverUnderLocals.edge := edge;
     OverUnderLocals.edge_pct := edge_pct;
     OverUnderLocals.confidence := confidence;
     OverUnderLocals.rec := over_under_recommendation edge confidence |}.

Definition _calculate_over_under (projected_total variance : Q)
    (reference_line : option Q) (season_avg_total : Q)
    (home_s away_s : TeamShootingProfile.t) (pace : PaceAnalysis.t)
  : OverUnderRecommendation.t :=
  let v :=
    _calculate_over_under_locals projected_total variance reference_line
                                 season_avg_total home_s away_s pace in
  {| OverUnderRecommendation.projected_total := round_nd projected_total 1;
     OverUnderRecommendation.projected_range_low :=
       round_nd (OverUnderLocals.range_low v) 1;
     OverUnderRecommendation.projected_range_high :=
       round_nd (OverUnderLocals.range_high v) 1;
     OverUnderRecommendation.reference_line := Some (OverUnderLocals.line v);
     OverUnderRecommendation.edge := round_nd (OverUnderLocals.edge v) 1;
     OverUnderRecommendation.edge_pct := round_nd (OverUnderLocals.edge_pct v) 1;
     OverUnderRecommendation.recommendation := OverUnderLocals.rec v;
     OverUnderRecommendation.confidence :=
       round_nd (OverUnderLocals.confidence v) 1 |}.

Definition _calculate_total_confidence (pace : PaceAnalysis.t)
    (home_s away_s : TeamShootingProfile.t) (stars : list StarPlayerImpact.t)
    (blowout_risk is_close : bool) : Q :=
  let confidence := 50.0 in
  (* Pace stability boosts confidence *)
  let confidence :=
    if Qltb (abs (PaceAnalysis.pace_deviation pace)) 5 then confidence + 12
    else if Qltb (abs (PaceAnalysis.pace_deviation pace)) 10 then confidence + 6
    else confidence - 8 in
  (* Normal shooting is more predictable *)
  let confidence :=
    fold_left
      (fun confidence s =>
         let level := TeamShootingProfile.shooting_variance_level s in
         if str_eqb level "normal" then confidence + 5
         else if is_extreme level then confidence - 6
         else confidence)
      [home_s; away_s] confidence in
  (* Star player health *)
  let foul_trouble_count :=
    len (List.filter StarPlayerImpact.foul_trouble stars) in
  let confidence :=
    if (foul_trouble_count >? 0)%Z
    then confidence - foul_trouble_count * 4 else confidence in
  (* Blowout reduces total prediction accuracy *)
  let confidence := if blowout_risk then confidence - 12 else confidence in
  (* Close game = more variance in Q4 *)
  let confidence := if is_close then confidence - 3 else confidence in
  max 15 (min 95 confidence).

(** The weighted combination of [analyze]. *)
Definition weighted_remaining
    (pace_projected_remaining shooting_projected_remaining
     star_projected_remaining game_flow_projected_remaining
     ratings_projected_remaining regression_projected_remaining : Q) : Q :=
  weight "pace_component" * pace_projected_remaining
  + weight "shooting_component" * shooting_projected_remaining
  + weight "star_utilization" * star_projected_remaining
  + weight "game_flow" * game_flow_projected_remaining
  + weight "team_ratings" * ratings_projected_remaining
  + weight "regression" * regression_projected_remaining.

(** Steps 4 to 9 of [analyze] (the spread of step 7 apart): everything
    that follows the pace analysis, the shooting profiles and the star
    analysis, which arrive here as arguments together with the elapsed
    minutes. *)
Module Projection.
Record t : Type := mk {
  blowout_risk : bool;
  is_close : bool;
  projected_remaining : Q;
  projected_final : Q;
  home_quarters : TeamQuarterProjection.t;
  away_quarters : TeamQuarterProjection.t;
  projected_q3 : Q;
  projected_q4 : Q;
  over_under : OverUnderRecommendation.t;
  total_confidence : Q
}.
End Projection.

Definition analyze_steps_4_to_9 (game_data : LiveGameData.t)
    (home_agg away_agg : TeamAgg.t)
    (home_ratings away_ratings : option TeamRatings.t)
    (reference_line : option Q) (elapsed_min : Q) (pace : PaceAnalysis.t)
    (home_shooting away_shooting : TeamShootingProfile.t)
    (stars : list StarPlayerImpact.t) : Projection.t :=
  let total_game_min := 48.0 in
  let remaining_min := max (total_game_min - elapsed_min) 0.0 in
  (* 4. Game flow assessment *)
  let blowout_risk :=
    (Z.abs (LiveGameData.score_differential game_data) >=? BLOWOUT_THRESHOLD)%Z in
  let is_close :=
    (Z.abs (LiveGameData.score_differential game_data) <=? CLOSE_GAME_THRESHOLD)%Z in
  (* 5. Build per-component remaining-game projections *)
  let current_total := LiveGameData.total_score game_data in
  let scoring_rate := current_total / max elapsed_min 1 in
  let pace_projected_remaining :=
    _pace_projection pace home_agg away_agg current_total remaining_min
                     elapsed_min in
  let shooting_projected_remaining :=
    _shooting_projection home_shooting away_shooting scoring_rate
                         current_total remaining_min in
  let star_projected_remaining :=
    _star_utilization_projection stars scoring_rate current_total
                                 remaining_min in
  let game_flow_projected_remaining :=
    _game_flow_projection game_data scoring_rate current_total remaining_min in
  let ratings_projected_remaining :=
    _team_ratings_projection home_ratings away_ratings current_total
                             remaining_min in
  (* Regression component (mean reversion to league average) *)
  let season_avg_total :=
    match home_ratings, away_ratings with
    | Some hr, Some ar =>
        let expected_pace := (TeamRatings.pace hr + TeamRatings.pace ar) / 2 in
        let avg_off_rtg :=
          (TeamRatings.off_rating hr + TeamRatings.off_rating ar) / 2 in
        expected_pace * (avg_off_rtg / 100) * 2
    | _, _ => LEAGUE_AVG_TOTAL
    end in
  let regression_projected_remaining :=
    season_avg_total * (remaining_min / total_game_min) in
  (* Weighted combination *)
  let projected_remaining :=
    weighted_remaining
      pace_projected_remaining shooting_projected_remaining
      star_projected_remaining game_flow_projected_remaining
      ratings_projected_remaining regression_projected_remaining in
  let projected_final := current_total + projected_remaining in
  (* 6. Quarter projections *)
  let '(home_q, away_q) :=
    _project_quarters projected_remaining game_data home_ratings away_ratings
                      home_agg away_agg elapsed_min in
  let projected_q3 :=
    TeamQuarterProjection.q3_projected home_q
    + TeamQuarterProjection.q3_projected away_q in
  let projected_q4 :=
    TeamQuarterProjection.q4_projected home_q
    + TeamQuarterProjection.q4_projected away_q in
  (* 8. Over/Under recommendation *)
  let variance := _calculate_variance pace home_shooting away_shooting in
  let over_under :=
    _calculate_over_under projected_final variance reference_line
                          season_avg_total home_shooting away_shooting pace in
  (* 9. Overall confidence *)
  let total_confidence :=
    _calculate_total_confidence pace home_shooting away_shooting stars
                                blowout_risk is_close in
  {| Projection.blowout_risk := blowout_risk;
     Projection.is_close := is_close;
     Projection.projected_remaining := projected_remaining;
     Projection.projected_final := projected_final;
     Projection.home_quarters := home_q;
     Projection.away_quarters := away_q;
     Projection.projected_q3 := round_nd projected_q3 1;
     Projection.projected_q4 := round_nd projected_q4 1;
     Projection.over_under := over_under;
     Projection.total_confidence := round_nd total_confidence 1 |}.

(** [@dataclass SpreadPrediction] *)
Module SpreadPrediction.
Record t : Type := mk {
  current_spread : Z;
  home_lead : bool;
  projected_final_spread : Q;
  spread_confidence : Q;
  star_performance_differential : Q;
  momentum_indicator : string;
  close_game_probability : Q;
  blowout_probability : Q
}.
End SpreadPrediction.

(** [_elapsed_minutes]: elapsed game minutes from period and clock.
    [float(...)] is [float_of_str], which reads plain decimal numerals;
    a clock text outside that form takes the [except ValueError] path. *)
Definition _elapsed_minutes (game_data : LiveGameData.t) : Q :=
  let period := LiveGameData.period game_data in
  let clock := LiveGameData.game_clock game_data in
  (* Each quarter is 12 minutes *)
  let completed_quarters := Z.max (period - 1) 0 in
  let elapsed := completed_quarters * 12.0 in
  (* Parse remaining clock in current quarter *)
  let remaining_in_q :=
    try_except
      (if contains_char ":" clock then
         let parts :=
           split_on ":" (remove_char "S" (remove_pair "P" "T" clock)) in
         match parts with
         | [minutes_part; seconds_part] =>
             mins ← float_of_str (remove_char "M" minutes_part);
             secs ← float_of_str seconds_part;
             mret (mins + secs / 60.0)
         | _ => mret 12.0
         end
       else if negb (str_eqb clock "") then
         value ← float_of_str
                   (remove_char "S"
                      (remove_char "M" (remove_pair "P" "T" clock)));
         mret (value / 60.0)
       else mret 12.0)
      (fun _ => 12.0) in
  let elapsed := elapsed + (12.0 - remaining_in_q) in
  max elapsed 1.0.

Definition _predict_spread (game_data : LiveGameData.t)
    (stars : list StarPlayerImpact.t)
    (home_ratings away_ratings : option TeamRatings.t)
    (pace : PaceAnalysis.t) : SpreadPrediction.t :=
  let current_spread :=
    (LiveGameData.home_score game_data - LiveGameData.away_score game_data)%Z in
  let home_lead := (current_spread >? 0)%Z in
  (* Season-based expected margin from net ratings *)
  let rating_spread :=
    match home_ratings, away_ratings with
    | Some home_ratings, Some away_ratings =>
        let home_net :=
          TeamRatings.off_rating home_ratings
          - TeamRatings.def_rating home_ratings in
        let away_net :=
          TeamRatings.off_rating away_ratings
          - TeamRatings.def_rating away_ratings in
        (home_net - away_net) / 2
    | _, _ => 0
    end in
  (* Blend live performance with season expectations *)
  let projected_spread := current_spread * 0.60 + rating_spread * 0.40 in
  (* Star performance differential *)
  let home_star_impact :=
    sum (map StarPlayerImpact.impact_on_team_total
             (List.filter
                (fun s => str_eqb (StarPlayerImpact.team_abbr s)
                                  (LiveGameData.home_team_abbr game_data))
                stars)) in
  let away_star_impact :=
    sum (map StarPlayerImpact.impact_on_team_total
             (List.filter
                (fun s => str_eqb (StarPlayerImpact.team_abbr s)
                                  (LiveGameData.away_team_abbr game_data))
                stars)) in
  let star_diff := home_star_impact - away_star_impact in
  let projected_spread := projected_spread + star_diff * 0.3 in
  (* Momentum from pace *)
  let accelerating := str_eqb (PaceAnalysis.pace_trend pace) "accelerating" in
  let momentum :=
    if ((current_spread >? 5)%Z && accelerating)%bool then
      if home_lead then "home" else "away"
    else if ((current_spread <? -5)%Z && accelerating)%bool then
      if negb home_lead then "away" else "home"
    else "neutral" in
  (* Probabilities *)
  let abs_proj := abs projected_spread in
  let close_game_prob := max 5 (min 60 (45 - abs_proj * 3)) in
  let blowout_prob := max 2 (min 50 (abs_proj * 2.5 - 10)) in
  (* Confidence in spread prediction *)
  let spread_conf := 50.0 in
  let spread_conf :=
    if (Z.abs current_spread >? 15)%Z then spread_conf + 15 else spread_conf in
  let spread_conf :=
    match home_ratings, away_ratings with
    | Some _, Some _ => spread_conf + 10
    | _, _ => spread_conf
    end in
  let spread_conf := max 20 (min 85 spread_conf) in
  {| SpreadPrediction.current_spread := current_spread;
     SpreadPrediction.home_lead := home_lead;
     SpreadPrediction.projected_final_spread := round_nd projected_spread 1;
     SpreadPrediction.spread_confidence := round_nd spread_conf 1;
     SpreadPrediction.star_performance_differential := round_nd star_diff 1;
     SpreadPrediction.momentum_indicator := momentum;
     SpreadPrediction.close_game_probability := round_nd close_game_prob 1;
     SpreadPrediction.blowout_probability := round_nd blowout_prob 1 |}.

(** The first part of [_project_quarters] on doubles: the remaining points
    split into the combined Q3 and Q4 totals. *)
Definition Q3_PACE_FACTOR_f64 : F64.t := F64.decimal 91 2.
Definition Q4_CLOSE_FACTOR_f64 : F64.t := F64.decimal 106 2.
Definition Q4_MODERATE_FACTOR_f64 : F64.t := F64.decimal 98 2.
Definition Q4_BLOWOUT_FACTOR_f64 : F64.t := F64.decimal 88 2.

Definition combined_quarters_f64 (projected_remaining : F64.t)
    (game_data : LiveGameData.t) (elapsed_min : F64.t) : F64.t * F64.t :=
  let diff := Z.abs (LiveGameData.score_differential game_data) in
  let period := LiveGameData.period game_data in
  (* Determine which quarters still need projecting *)
  let q4_factor :=
    if (diff >=? BLOWOUT_THRESHOLD)%Z then Q4_BLOWOUT_FACTOR_f64
    else if (diff <=? CLOSE_GAME_THRESHOLD)%Z then Q4_CLOSE_FACTOR_f64
    else Q4_MODERATE_FACTOR_f64 in
  (* Split remaining points into Q3/Q4 portions *)
  if (period >=? 4)%Z then
    (* Already in Q4 or later *)
    (F64.of_Z 0, projected_remaining)
  else if (period >=? 3)%Z then
    (* In Q3 - estimate how much of Q3 remains *)
    let q3_elapsed := F64.sub elapsed_min (F64.of_Z 24) in
    let q3_remaining_frac :=
      F64.max (F64.of_Z 0)
              (F64.div (F64.sub (F64.of_Z 12) q3_elapsed) (F64.of_Z 12)) in
    let q3_portion :=
      F64.mul projected_remaining
              (F64.div (F64.mul q3_remaining_frac Q3_PACE_FACTOR_f64)
                       (F64.add Q3_PACE_FACTOR_f64 q4_factor)) in
    (q3_portion, F64.sub projected_remaining q3_portion)
  else
    (* Halftime or earlier *)
    let q3_share :=
      F64.div Q3_PACE_FACTOR_f64 (F64.add Q3_PACE_FACTOR_f64 q4_factor) in
    let q4_share := F64.sub (F64.of_Z 1) q3_share in
    (F64.mul projected_remaining q3_share,
     F64.mul projected_remaining q4_share).

End GameTotalsEngine.

(* ================================================================== *)
(** * Vocabulary of the specification                                  *)
(* ================================================================== *)
Module Spec.
Import Py.

(** The sum of the coefficients of a weight table. *)
Definition table_total (table : list (string * Q)) : Q :=
  sum (map snd table).

(** A score lies in the closed interval [[lo, hi]]. *)
Definition within (lo hi score : Q) : Prop := lo <= score /\ score <= hi.

#[global] Instance Qlt_decision (x y : Q) : Decision (x < y) :=
  match Qlt_le_dec x y with
  | left H => left H
  | right H => right (Qle_not_lt _ _ H)
  end.

(** The stat value of a game record, as the analyzer reads it: an absent
    entry reads as 0, an explicit null stays null. *)
Definition stat_value (stat_key : string) (g : gmap string pyval) : pyval :=
  default (PNum 0) (g !! stat_key).

Definition non_null (v : pyval) : Prop := v <> PNone.

#[global] Instance non_null_decision v : Decision (non_null v).
Proof. destruct v; [right | left | left]; unfold non_null; congruence. Defined.

(** A stat value satisfies the prop direction versus the line: strictly
    greater for "over", strictly less for "under". *)
Definition satisfies_direction (over_under : string) (line : Q) (v : pyval)
  : Prop :=
  match v with
  | PNum x =>
      (over_under = "over" /\ line < x) \/ (over_under = "under" /\ x < line)
  | _ => False
  end.

#[global] Instance satisfies_direction_decision over_under line v :
  Decision (satisfies_direction over_under line v).
Proof. destruct v; simpl; apply _. Defined.


(** hits / valid x 100; 0 when there are no valid games. *)
Definition rate (hits valid : nat) : Q :=
  if decide (valid = 0%nat) then 0
  else inject_Z (Z.of_nat hits) / inject_Z (Z.of_nat valid) * 100.

(** The hit rate read literally: the valid games are those that hold a
    non-null value for the stat, the hits those whose value satisfies the
    direction. *)
Definition has_value (stat_key : string) (g : gmap string pyval) : Prop :=
  match g !! stat_key with
  | Some v => non_null v
  | None => False
  end.

#[global] Instance has_value_decision stat_key g :
  Decision (has_value stat_key g).
Proof. unfold has_value. destruct (g !! stat_key); apply _. Defined.

Definition game_hits (stat_key over_under : string) (line : Q)
    (g : gmap string pyval) : Prop :=
  match g !! stat_key with
  | Some v => satisfies_direction over_under line v
  | None => False
  end.

#[global] Instance game_hits_decision stat_key over_under line g :
  Decision (game_hits stat_key over_under line g).
Proof. unfold game_hits. destruct (g !! stat_key); apply _. Defined.


(** The hit rate where a game without an entry for the stat counts as a
    game with the value 0. *)
Definition hit_rate (stat_key over_under : string) (line : Q)
    (games : list (gmap string pyval)) : Q :=
  let values := map (stat_value stat_key) games in
  rate (length (filter (satisfies_direction over_under line) values))
       (length (filter non_null values)).

(** An [Optional[int]] player id that carries no identity. *)
Definition no_player_id (o : option Z) : Prop := o = None \/ o = Some 0%Z.

(** The player identity cannot be resolved: the prop carries no id and
    the search by name finds nobody, or somebody without a usable id. *)
Definition player_unresolved (service : AnalysisEngine.Service.t)
    (prop : AnalysisEngine.PropBetData.t) : Prop :=
  no_player_id (AnalysisEngine.PropBetData.player_id prop)
  /\ match AnalysisEngine.Service.search_player service
             (AnalysisEngine.PropBetData.player_name prop) with
     | None => True
     | Some d => d = ∅ \/ no_player_id (d !! "id")
     end.

(** The player identity resolves to [pid]: the id of the prop, or else
    the id found by the search. *)
Definition player_resolves (service : AnalysisEngine.Service.t)
    (prop : AnalysisEngine.PropBetData.t) (pid : Z) : Prop :=
  pid <> 0%Z
  /\ (AnalysisEngine.PropBetData.player_id prop = Some pid
      \/ (no_player_id (AnalysisEngine.PropBetData.player_id prop)
          /\ exists d,
              AnalysisEngine.Service.search_player service
                (AnalysisEngine.PropBetData.player_name prop) = Some d
              /\ d !! "id" = Some pid)).

(** No historical games are available for the resolved player. *)
Definition no_history (service : AnalysisEngine.Service.t)
    (prop : AnalysisEngine.PropBetData.t) : Prop :=
  exists pid,
    player_resolves service prop pid
    /\ AnalysisEngine.Service.get_player_stats service pid 10 = [].

(** The default result: confidence 50.0, hit rate 50.0, average equal to
    the line, recommendation "neutral", and a non-empty note. *)
Definition is_default_result (prop : AnalysisEngine.PropBetData.t)
    (r : AnalysisEngine.PropAnalysis.t) : Prop :=
  AnalysisEngine.PropAnalysis.confidence_score r == 50
  /\ AnalysisEngine.PropAnalysis.hit_rate_last_10 r == 50
  /\ AnalysisEngine.PropAnalysis.average_stat r
     == AnalysisEngine.PropBetData.line prop
  /\ AnalysisEngine.PropAnalysis.recommendation r = "neutral"
  /\ exists note,
      AnalysisEngine.PropAnalysis.analysis_notes r = Some note
      /\ note <> "".

(** The order strong_avoid < avoid < neutral < lean < bet < strong_bet. *)
Definition recommendation_rank (r : string) : option nat :=
  if str_eqb r "strong_avoid" then Some 0%nat
  else if str_eqb r "avoid" then Some 1%nat
  else if str_eqb r "neutral" then Some 2%nat
  else if str_eqb r "lean" then Some 3%nat
  else if str_eqb r "bet" then Some 4%nat
  else if str_eqb r "strong_bet" then Some 5%nat
  else None.

Definition rank_le (a b : string) : Prop :=
  exists ra rb,
    recommendation_rank a = Some ra
    /\ recommendation_rank b = Some rb
    /\ (ra <= rb)%nat.

(** Projected remaining minutes: the first-half minutes, x0.75 under
    foul trouble, x0.70 (starter) or x1.15 (bench) under blowout, capped
    at 24. *)
Definition projected_minutes (first_half_minutes : Q)
    (foul_trouble blowout is_starter : bool) : Q :=
  let foul_multiplier := if foul_trouble then 0.75 else 1 in
  let blowout_multiplier :=
    if blowout then (if is_starter then 0.70 else 1.15) else 1 in
  Qmin (first_half_minutes * foul_multiplier * blowout_multiplier) 24.

(** Every stat value of the history is a number or null, as in the data
    model (StatObservation). *)
Definition numeric_stats (stat_key : string)
    (games : list (gmap string pyval)) : Prop :=
  Forall (fun g => forall s, stat_value stat_key g <> PStr s) games.

(** The possessions a player used: FGA + 0.44 FTA + TOV. *)
Definition player_possessions (p : LivePlayerStats.t) : Q :=
  inject_Z (LivePlayerStats.fg_attempted p)
  + 0.44 * inject_Z (LivePlayerStats.ft_attempted p)
  + inject_Z (LivePlayerStats.turnovers p).

(** The possessions of a team, from the totals of its players. *)
Definition team_possessions (team : list LivePlayerStats.t) : Q :=
  inject_Z (sumZ (map LivePlayerStats.fg_attempted team))
  + 0.44 * inject_Z (sumZ (map LivePlayerStats.ft_attempted team))
  + inject_Z (sumZ (map LivePlayerStats.turnovers team)).

(** A box-score line with counts that are not negative. *)
Definition counted_usage (p : LivePlayerStats.t) : Prop :=
  (0 <= LivePlayerStats.fg_attempted p)%Z
  /\ (0 <= LivePlayerStats.ft_attempted p)%Z
  /\ (0 <= LivePlayerStats.turnovers p)%Z.

(** The factor names of the prop analyzer. *)
Definition factor_names : gset string :=
  {[ "recent_trend"; "consistency"; "home_away"; "rest"; "playing_time" ]}.

(** The ranges of the factors: the trend in [-1, 1], the consistency in
    [0, 1], the playing time at most 1, and no factor of another name. *)
Definition factors_in_range (factors : gmap string Q) : Prop :=
  (forall v, factors !! "recent_trend" = Some v -> within (-1) 1 v)
  /\ (forall v, factors !! "consistency" = Some v -> within 0 1 v)
  /\ (forall v, factors !! "playing_time" = Some v -> v <= 1)
  /\ dom factors ⊆ factor_names.

(** Suggestion [a] is listed before [b]: its confidence is at least as
    high. *)
Definition confidence_ge (a b : HalftimeEngine.Suggestion.t) : Prop :=
  HalftimeEngine.Suggestion.confidence_score b
  <= HalftimeEngine.Suggestion.confidence_score a.

(** A suggestion worth listing: confidence of at least 60 and one of the
    three positive recommendations. *)
Definition qualifies (s : HalftimeEngine.Suggestion.t) : Prop :=
  60 <= HalftimeEngine.Suggestion.confidence_score s
  /\ (HalftimeEngine.Suggestion.recommendation s = "strong_bet"
      \/ HalftimeEngine.Suggestion.recommendation s = "bet"
      \/ HalftimeEngine.Suggestion.recommendation s = "lean").

(** A player analysis that the orchestration keeps: at least five minutes
    played, a positive line, one of the three default stats, a confidence
    in [0, 100]. *)
Definition kept_projection (a : HalftimeEngine.PlayerProjection.t) : Prop :=
  5 <= HalftimeEngine.PlayerProjection.first_half_minutes a
  /\ 0 < HalftimeEngine.PlayerProjection.prop_line a
  /\ In (HalftimeEngine.PlayerProjection.prop_type a)
        HalftimeEngine.default_prop_types
  /\ within 0 100 (HalftimeEngine.PlayerProjection.confidence_score a).


(** How far a computed double is from a number. *)
Definition gap (x : F64.t) (y : Q) : Q := Qabs (F64.to_Q x - y).

(** The two distances of the basic projection on doubles, for one
    first-half total: the final total from the exact sum of the first half
    and the projected second half, at most 2^-44, and the sum of the two
    quarter totals from the projected second half, at most 2^-45. *)
Definition totals_gaps_ok (first_half_total : Z) (blowout_risk : bool) : bool :=
  let v := HalftimeEngine.project_totals_f64 first_half_total blowout_risk in
  (Qle_bool
     (gap (HalftimeEngine.TotalsF64.projected_final_total v)
        (inject_Z first_half_total
         + F64.to_Q (HalftimeEngine.TotalsF64.projected_second_half_total v)))
     (1 / inject_Z (2 ^ 44))
   && Qle_bool
        (gap
           (F64.add (HalftimeEngine.TotalsF64.projected_q3_total v)
                    (HalftimeEngine.TotalsF64.projected_q4_total v))
           (F64.to_Q (HalftimeEngine.TotalsF64.projected_second_half_total v)))
        (1 / inject_Z (2 ^ 45)))%bool.

(** The minutes of a game as the provider writes them, ["MM:SS"] or a
    number of minutes: text made of digits, [:] and [.]; a number or a
    missing entry is as documented too. *)
Definition minutes_char (c : ascii) : bool :=
  match digit_of c with
  | Some _ => true
  | None => (Ascii.eqb c ":" || Ascii.eqb c ".")%bool
  end.

Definition documented_minutes (v : pyval) : bool :=
  match v with
  | PStr s => negb (has_char (fun c => negb (minutes_char c)) s)
  | _ => true
  end.

(** A minutes text that cannot be read whatever else it holds: with a
    colon, one of its first two parts has a character that no integer
    numeral has; without, the text has a character that no float numeral
    has. *)
Definition unparsable_minutes (s : string) : bool :=
  if contains_char ":" s then
    match split_on ":" s with
    | p0 :: p1 :: _ => (has_char never_in_int p0 || has_char never_in_int p1)%bool
    | _ => false
    end
  else has_char never_in_float s.

End Spec.

(* ================================================================== *)
(** * Concrete inputs used by the examples                             *)
(* ================================================================== *)
Module Examples.
Import Py.

(** Ten games of exactly 20 points, and a prop "over 15 points". *)
Definition twenty_point_game : gmap string pyval := {[ "pts" := PNum 20 ]}.
Definition ten_games : list (gmap string pyval) := replicate 10 twenty_point_game.

Definition over_15_points : AnalysisEngine.PropBetData.t :=
  {| AnalysisEngine.PropBetData.prop_id := 1;
     AnalysisEngine.PropBetData.player_name := "Player One";
     AnalysisEngine.PropBetData.player_id := Some 7%Z;
     AnalysisEngine.PropBetData.stat_type := "Points";
     AnalysisEngine.PropBetData.line := 15;
     AnalysisEngine.PropBetData.over_under := "over";
     AnalysisEngine.PropBetData.opponent_name := None;
     AnalysisEngine.PropBetData.game_date := None |}.

(** The same prop without a player id. *)
Definition anonymous_prop : AnalysisEngine.PropBetData.t :=
  AnalysisEngine.set_player_id over_15_points None.

(** A history provider that knows nobody and has no games. *)
Definition empty_service : AnalysisEngine.Service.t :=
  {| AnalysisEngine.Service.search_player := fun _ => None;
     AnalysisEngine.Service.get_player_stats := fun _ _ => [];
     AnalysisEngine.Service.search_team_by_name := fun _ => None |}.

(** A history provider that returns the ten games for every player. *)
Definition ten_game_service : AnalysisEngine.Service.t :=
  {| AnalysisEngine.Service.search_player := fun _ => None;
     AnalysisEngine.Service.get_player_stats := fun _ _ => ten_games;
     AnalysisEngine.Service.search_team_by_name := fun _ => None |}.

Definition flat_trend : list Q -> result Q := fun _ => Ok 0.

(** A pace analysis with no deviation from the expected pace. *)
Definition steady_pace : GameTotalsEngine.PaceAnalysis.t :=
  {| GameTotalsEngine.PaceAnalysis.first_half_possessions_est := 50;
     GameTotalsEngine.PaceAnalysis.possessions_per_48_live := 100;
     GameTotalsEngine.PaceAnalysis.points_per_possession_home := 1.1;
     GameTotalsEngine.PaceAnalysis.points_per_possession_away := 1.1;
     GameTotalsEngine.PaceAnalysis.home_season_pace := 100;
     GameTotalsEngine.PaceAnalysis.away_season_pace := 100;
     GameTotalsEngine.PaceAnalysis.matchup_expected_pace := 100;
     GameTotalsEngine.PaceAnalysis.pace_deviation := 0;
     GameTotalsEngine.PaceAnalysis.pace_trend := "steady";
     GameTotalsEngine.PaceAnalysis.q1_pace := None;
     GameTotalsEngine.PaceAnalysis.q2_pace := None;
     GameTotalsEngine.PaceAnalysis.transition_rate := 0 |}.

(** A team shooting above its season baseline ("hot"). *)
Definition hot_shooting (team_abbr : string)
  : GameTotalsEngine.TeamShootingProfile.t :=
  {| GameTotalsEngine.TeamShootingProfile.team_abbr := team_abbr;
     GameTotalsEngine.TeamShootingProfile.live_efg_pct := 57.5;
     GameTotalsEngine.TeamShootingProfile.live_ts_pct := 60;
     GameTotalsEngine.TeamShootingProfile.live_fg3_rate := 38;
     GameTotalsEngine.TeamShootingProfile.live_fg3_pct := 40;
     GameTotalsEngine.TeamShootingProfile.live_ft_rate := 25;
     GameTotalsEngine.TeamShootingProfile.live_ft_pct := 80;
     GameTotalsEngine.TeamShootingProfile.season_efg_pct := 52.5;
     GameTotalsEngine.TeamShootingProfile.season_ts_pct := 57.5;
     GameTotalsEngine.TeamShootingProfile.season_fg3_rate := 38;
     GameTotalsEngine.TeamShootingProfile.season_fg3_pct := 36;
     GameTotalsEngine.TeamShootingProfile.season_ft_rate := 25;
     GameTotalsEngine.TeamShootingProfile.shooting_regression_factor := 1;
     GameTotalsEngine.TeamShootingProfile.shooting_variance_level := "hot" |}.

(** A halftime snapshot: the home team leads 60-40. *)
Definition game_1 : LiveGameData.t :=
  {| LiveGameData.game_id := "0022400001";
     LiveGameData.game_status := 2;
     LiveGameData.game_status_text := "Halftime";
     LiveGameData.period := 2;
     LiveGameData.game_clock := "";
     LiveGameData.home_team_id := 10;
     LiveGameData.home_team_name := "Home";
     LiveGameData.home_team_abbr := "HOM";
     LiveGameData.home_score := 60;
     LiveGameData.away_team_id := 20;
     LiveGameData.away_team_name := "Away";
     LiveGameData.away_team_abbr := "AWY";
     LiveGameData.away_score := 40;
     LiveGameData.game_date := "20241101";
     LiveGameData.game_time_utc := None;
     LiveGameData.is_halftime := true |}.

Definition home_starter : LivePlayerStats.t :=
  {| LivePlayerStats.player_id := 101;
     LivePlayerStats.player_name := "Player One";
     LivePlayerStats.team_id := 10;
     LivePlayerStats.team_abbreviation := "HOM";
     LivePlayerStats.minutes := "18:00";
     LivePlayerStats.minutes_float := 18;
     LivePlayerStats.points := 14;
     LivePlayerStats.rebounds := 4;
     LivePlayerStats.assists := 3;
     LivePlayerStats.steals := 1;
     LivePlayerStats.blocks := 0;
     LivePlayerStats.turnovers := 1;
     LivePlayerStats.fouls := 3;
     LivePlayerStats.fg_made := 5;
     LivePlayerStats.fg_attempted := 10;
     LivePlayerStats.fg_pct := 50;
     LivePlayerStats.fg3_made := 2;
     LivePlayerStats.fg3_attempted := 4;
     LivePlayerStats.fg3_pct := 50;
     LivePlayerStats.ft_made := 2;
     LivePlayerStats.ft_attempted := 2;
     LivePlayerStats.ft_pct := 100;
     LivePlayerStats.plus_minus := 12;
     LivePlayerStats.starter := true |}.

Definition box_1 : BoxScore.t :=
  {| BoxScore.home := [home_starter]; BoxScore.away := [] |}.

(** Collaborators that all fail: the season-stats fetch raises, both
    team-ratings requests time out, the advanced engine raises. *)
Definition failing_client : HalftimeEngine.LiveClient.t :=
  {| HalftimeEngine.LiveClient.get_todays_games := [game_1];
     HalftimeEngine.LiveClient.get_live_box_score := fun _ => box_1;
     HalftimeEngine.LiveClient.get_player_season_stats :=
       fun _ => Raise (Exception "season stats unavailable");
     HalftimeEngine.LiveClient.is_back_to_back := fun _ => false |}.

Definition failing_api : Z -> HalftimeEngine.NbaApi.fetch :=
  fun _ => HalftimeEngine.NbaApi.Failed TimeoutError.

Definition failing_totals_engine
  : LiveGameData.t -> BoxScore.t -> HalftimeEngine.TeamRatings.t ->
    HalftimeEngine.TeamRatings.t -> result unit :=
  fun _ _ _ _ => Raise (Exception "enhanced analysis failed").

(** The same prop in the other direction. *)
Definition under_15_points : AnalysisEngine.PropBetData.t :=
  {| AnalysisEngine.PropBetData.prop_id := 2;
     AnalysisEngine.PropBetData.player_name := "Player One";
     AnalysisEngine.PropBetData.player_id := Some 7%Z;
     AnalysisEngine.PropBetData.stat_type := "Points";
     AnalysisEngine.PropBetData.line := 15;
     AnalysisEngine.PropBetData.over_under := "under";
     AnalysisEngine.PropBetData.opponent_name := None;
     AnalysisEngine.PropBetData.game_date := None |}.

(** A game record whose minutes are not a number. *)
Definition dnp_game : gmap string pyval :=
  {[ "pts" := PNum 0; "min" := PStr "DNP" ]}.

(** Game records with their minutes, as a clock and as a number. *)
Definition clock_minutes_game : gmap string pyval :=
  {[ "pts" := PNum 20; "min" := PStr "34:25" ]}.
Definition decimal_minutes_game : gmap string pyval :=
  {[ "pts" := PNum 20; "min" := PStr "31.5" ]}.

(** A game record whose points arrive as text. *)
Definition text_points_game : gmap string pyval := {[ "pts" := PStr "20" ]}.

(** A history provider with one such record after a regular game. *)
Definition text_points_service : AnalysisEngine.Service.t :=
  {| AnalysisEngine.Service.search_player := fun _ => None;
     AnalysisEngine.Service.get_player_stats :=
       fun _ _ => [twenty_point_game; text_points_game];
     AnalysisEngine.Service.search_team_by_name := fun _ => None |}.

(** A halftime snapshot of a tied game, 50-50. *)
Definition tied_game : LiveGameData.t :=
  {| LiveGameData.game_id := "0022400002";
     LiveGameData.game_status := 2;
     LiveGameData.game_status_text := "Halftime";
     LiveGameData.period := 2;
     LiveGameData.game_clock := "PT00M00.00S";
     LiveGameData.home_team_id := 30;
     LiveGameData.home_team_name := "Hosts";
     LiveGameData.home_team_abbr := "HST";
     LiveGameData.home_score := 50;
     LiveGameData.away_team_id := 40;
     LiveGameData.away_team_name := "Guests";
     LiveGameData.away_team_abbr := "GST";
     LiveGameData.away_score := 50;
     LiveGameData.game_date := "20241101";
     LiveGameData.game_time_utc := None;
     LiveGameData.is_halftime := true |}.

(** A low-scoring half: 30 to 27. *)
Definition game_30_27 : LiveGameData.t :=
  {| LiveGameData.game_id := "0022400003";
     LiveGameData.game_status := 2;
     LiveGameData.game_status_text := "Halftime";
     LiveGameData.period := 2;
     LiveGameData.game_clock := "PT00M00.00S";
     LiveGameData.home_team_id := 50;
     LiveGameData.home_team_name := "Locals";
     LiveGameData.home_team_abbr := "LCL";
     LiveGameData.home_score := 30;
     LiveGameData.away_team_id := 60;
     LiveGameData.away_team_name := "Visitors";
     LiveGameData.away_team_abbr := "VIS";
     LiveGameData.away_score := 27;
     LiveGameData.game_date := "20241101";
     LiveGameData.game_time_utc := None;
     LiveGameData.is_halftime := true |}.

(** A game in its fourth period. *)
Definition fourth_period_game : LiveGameData.t :=
  {| LiveGameData.game_id := "0022400004";
     LiveGameData.game_status := 2;
     LiveGameData.game_status_text := "Q4 8:00";
     LiveGameData.period := 4;
     LiveGameData.game_clock := "PT08M00.00S";
     LiveGameData.home_team_id := 50;
     LiveGameData.home_team_name := "Locals";
     LiveGameData.home_team_abbr := "LCL";
     LiveGameData.home_score := 88;
     LiveGameData.away_team_id := 60;
     LiveGameData.away_team_name := "Visitors";
     LiveGameData.away_team_abbr := "VIS";
     LiveGameData.away_score := 84;
     LiveGameData.game_date := "20241101";
     LiveGameData.game_time_utc := None;
     LiveGameData.is_halftime := false |}.

End Examples.

(* ================================================================== *)
(** * Properties                                                       *)
(* ================================================================== *)

Section Comparisons.
Import Py.

Lemma Qleb_le x y : Qleb x y = true <-> x <= y.
Proof. unfold Qleb. apply Qle_bool_iff. Qed.

Lemma Qgeb_ge x y : Qgeb x y = true <-> y <= x.
Proof. unfold Qgeb. apply Qle_bool_iff. Qed.

Lemma Qltb_lt x y : Qltb x y = true <-> x < y.
Proof.
  unfold Qltb. rewrite negb_true_iff, <- not_true_iff_false, Qle_bool_iff.
  split; [apply Qnot_le_lt | apply Qlt_not_le].
Qed.

Lemma Qgtb_gt x y : Qgtb x y = true <-> y < x.
Proof.
  unfold Qgtb. rewrite negb_true_iff, <- not_true_iff_false, Qle_bool_iff.
  split; [apply Qnot_le_lt | apply Qlt_not_le].
Qed.

Lemma Qleb_gt x y : Qleb x y = false <-> y < x.
Proof.
  rewrite <- not_true_iff_false, Qleb_le.
  split; [apply Qnot_le_lt | apply Qlt_not_le].
Qed.

Lemma Qgeb_lt x y : Qgeb x y = false <-> x < y.
Proof. unfold Qgeb. apply (Qleb_gt y x). Qed.

Lemma Qltb_ge x y : Qltb x y = false <-> y <= x.
Proof. unfold Qltb. rewrite negb_false_iff. apply Qle_bool_iff. Qed.

Lemma Qgtb_le x y : Qgtb x y = false <-> x <= y.
Proof. unfold Qgtb. rewrite negb_false_iff. apply Qle_bool_iff. Qed.

(** [max(lo, min(hi, x))] lands in [[lo, hi]]. *)
Lemma max_min_within lo hi x :
  lo <= hi -> Spec.within lo hi (max lo (min hi x)).
Proof.
  intros Hlh. unfold Spec.within, max, min. split.
  - apply Q.le_max_l.
  - apply Q.max_lub; [exact Hlh | apply Q.le_min_l].
Qed.

(** [numpy.clip(x, lo, hi)] lands in [[lo, hi]]. *)
Lemma np_clip_within lo hi x :
  lo <= hi -> Spec.within lo hi (np_clip x lo hi).
Proof.
  intros Hlh. unfold Spec.within, np_clip. split.
  - apply Q.min_glb; [apply Q.le_max_r | exact Hlh].
  - apply Q.le_min_r.
Qed.

Lemma within_weaken lo hi lo' hi' x :
  lo' <= lo -> hi <= hi' -> Spec.within lo hi x -> Spec.within lo' hi' x.
Proof.
  unfold Spec.within. intros Hlo Hhi [H1 H2]. split.
  - apply Qle_trans with lo; assumption.
  - apply Qle_trans with hi; assumption.
Qed.
End Comparisons.

(** On numbers, every confidence score computed by the engines lies in
    [0, 100]: the prop-analysis confidence, the live player-projection
    confidence, the basic game-total confidence and the advanced overall
    confidence (the last one is clamped to the narrower [15, 95]). *)
Lemma confidence_scores_on_numbers :
  (forall hit_rate factors avg_stat line,
      Spec.within 0 100
        (AnalysisEngine._calculate_confidence hit_rate factors avg_stat line))
  /\ (forall projected_final prop_line first_half_value historical_consistency
             shooting_metrics foul_trouble blowout_warning utilization_rate
             plus_minus opponent_def_rank assist_to_turnover,
         Spec.within 0 100
           (fst (HalftimeEngine._calculate_confidence_score
                   projected_final prop_line first_half_value
                   historical_consistency shooting_metrics foul_trouble
                   blowout_warning utilization_rate plus_minus
                   opponent_def_rank assist_to_turnover)))
  /\ (forall game_data,
         Spec.within 0 100
           (HalftimeEngine.TotalsLocals.total_confidence
              (HalftimeEngine.analyze_game_totals_locals game_data)))
  /\ (forall pace home_s away_s stars blowout_risk is_close,
         Spec.within 0 100
           (GameTotalsEngine._calculate_total_confidence
              pace home_s away_s stars blowout_risk is_close)).
Proof.
  split; [| split; [| split]]; intros.
  - apply np_clip_within; discriminate.
  - apply (max_min_within 0 100); discriminate.
  - apply (max_min_within 0 100); discriminate.
  - apply (within_weaken 15 95); [discriminate | discriminate |].
    apply max_min_within; discriminate.
Qed.

Section DoubleClamps.

Lemma f64_ltb_leb x y : F64.ltb x y = true -> F64.leb x y = true.
Proof.
  unfold F64.ltb, F64.leb, SFltb, SFleb.
  destruct (SFcompare x y) as [[] |]; congruence.
Qed.

(** [max(lo, min(hi, x))] lies between [lo] and [hi] for every double [x],
    NaN included: a comparison with NaN is false, and the bound is
    returned. *)
Lemma f64_clamp_within lo hi x :
  F64.leb lo lo = true -> F64.leb lo hi = true -> F64.leb hi hi = true ->
  F64.within lo hi (F64.clamp lo hi x) = true.
Proof.
  intros Hlo Hlh Hhi. unfold F64.within, F64.clamp, F64.max, F64.min, F64.gtb.
  destruct (F64.ltb x hi) eqn:Exh.
  - destruct (F64.ltb lo x) eqn:Elx.
    + rewrite (f64_ltb_leb _ _ Elx), (f64_ltb_leb _ _ Exh). reflexivity.
    + rewrite Hlo, Hlh. reflexivity.
  - destruct (F64.ltb lo hi).
    + rewrite Hlh, Hhi. reflexivity.
    + rewrite Hlo, Hlh. reflexivity.
Qed.

(** [numpy.clip] hands a NaN through, and clips everything else. *)
Lemma f64_np_clip_cases lo hi x :
  F64.is_nan lo = false -> F64.is_nan hi = false ->
  F64.leb lo lo = true -> F64.leb lo hi = true -> F64.leb hi hi = true ->
  (F64.is_nan x = true /\ F64.np_clip x lo hi = x)
  \/ (F64.is_nan x = false /\ F64.within lo hi (F64.np_clip x lo hi) = true).
Proof.
  intros Nlo Nhi Hlo Hlh Hhi.
  unfold F64.np_clip, F64.np_maximum, F64.np_minimum, F64.within, F64.gtb.
  destruct (F64.is_nan x) eqn:Ex.
  - left. rewrite Ex. split; reflexivity.
  - right. split; [reflexivity |]. rewrite Nlo, Nhi.
    destruct (F64.ltb lo x) eqn:Elx.
    + rewrite Ex. destruct (F64.ltb x hi) eqn:Exh.
      * rewrite (f64_ltb_leb _ _ Elx), (f64_ltb_leb _ _ Exh). reflexivity.
      * rewrite Hlh, Hhi. reflexivity.
    + rewrite Nlo. destruct (F64.ltb lo hi).
      * rewrite Hlo, Hlh. reflexivity.
      * rewrite Hlh, Hhi. reflexivity.
Qed.
End DoubleClamps.

(** C1.  The prop-analysis confidence is not always a score of 0 to 100:
    with a line that is NaN the confidence is NaN, whatever the hit rate,
    the factors and the average ([numpy.clip] hands NaN through), for
    instance with a hit rate of 0, neutral factors and an average of 20.
    For every other outcome the score does lie in [0, 100], and the clamp
    [max(lo, min(hi, x))] of the three other confidences ([0, 100] twice,
    [15, 95] for the advanced overall confidence) returns a bound even for
    NaN. *)
Theorem calculate_confidence_nan_line :
  (forall hit_rate factors avg_stat,
      AnalysisEngine._calculate_confidence_f64 hit_rate factors avg_stat F64.nan
      = F64.nan)
  /\ AnalysisEngine._calculate_confidence_f64
       (F64.of_Z 0)
       {[ "home_away" := F64.of_Z 0; "rest" := F64.of_Z 0 ]}
       (F64.of_Z 20) F64.nan
     = F64.nan
  /\ (forall hit_rate factors avg_stat line,
         let confidence :=
           AnalysisEngine._calculate_confidence_f64
             hit_rate factors avg_stat line in
         F64.is_nan confidence = true
         \/ F64.within (F64.of_Z 0) (F64.of_Z 100) confidence = true)
  /\ (forall x,
         F64.within (F64.of_Z 0) (F64.of_Z 100)
           (F64.clamp (F64.of_Z 0) (F64.of_Z 100) x) = true
         /\ F64.within (F64.of_Z 15) (F64.of_Z 95)
              (F64.clamp (F64.of_Z 15) (F64.of_Z 95) x) = true).
Proof.
  assert (Hnan : forall hit_rate factors avg_stat,
             AnalysisEngine._calculate_confidence_f64
               hit_rate factors avg_stat F64.nan = F64.nan).
  { intros hit_rate factors avg_stat.
    unfold AnalysisEngine._calculate_confidence_f64.
    generalize (fold_left
      (fun total kv =>
         F64.add total (F64.mul (default (F64.of_Z 0) (factors !! kv.1)) kv.2))
      AnalysisEngine.factor_weights_f64 (F64.of_Z 0)) as adjustment.
    intros adjustment.
    destruct avg_stat, hit_rate, adjustment; reflexivity. }
  split; [exact Hnan |]. split; [apply Hnan |]. split.
  - intros hit_rate factors avg_stat line confidence. subst confidence.
    unfold AnalysisEngine._calculate_confidence_f64.
    match goal with
    | |- context [F64.np_clip ?c _ _] => generalize c as confidence
    end.
    intros confidence.
    destruct (f64_np_clip_cases (F64.of_Z 0) (F64.of_Z 100) confidence)
      as [[Hx ->] | [_ Hin]]; try reflexivity.
    + left. exact Hx.
    + right. exact Hin.
  - intros x. split; apply f64_clamp_within; reflexivity.
Qed.

Section PublishedScores.
Import Py.

(** [round] stays between two integers that enclose its argument. *)
Lemma round_between (a b : Z) x :
  inject_Z a <= x -> x <= inject_Z b -> (a <= round x <= b)%Z.
Proof.
  intros Ha Hb.
  assert (Hfa : (a <= Qfloor x)%Z).
  { rewrite <- (Qfloor_Z a). apply Qfloor_resp_le. exact Ha. }
  assert (Hfb : (Qfloor x <= b)%Z).
  { rewrite <- (Qfloor_Z b). apply Qfloor_resp_le. exact Hb. }
  pose proof (Qfloor_le x) as Hfl.
  unfold round.
  destruct (Qltb (x - inject_Z (Qfloor x)) (1 # 2)) eqn:Hlow; [lia |].
  apply Qltb_ge in Hlow.
  assert (Hlt : (Qfloor x < b)%Z).
  { rewrite Zlt_Qlt. lra. }
  destruct (Qltb (1 # 2) (x - inject_Z (Qfloor x))); [lia |].
  destruct (Z.even (Qfloor x)); lia.
Qed.

(** Rounding to [n] decimals keeps a score inside [0, 100]. *)
Lemma round_nd_within_0_100 x n :
  Spec.within 0 100 x -> Spec.within 0 100 (round_nd x n).
Proof.
  intros [H0 H100]. unfold round_nd.
  set (s := (10 ^ Z.of_nat n)%Z).
  assert (Hs : (0 < s)%Z) by (apply Z.pow_pos_nonneg; lia).
  assert (HsQ : 0 < inject_Z s) by (rewrite (Zlt_Qlt 0 s) in Hs; exact Hs).
  destruct (round_between 0 (100 * s) (x * inject_Z s)) as [Hlo Hhi].
  - change (inject_Z 0) with 0. nra.
  - rewrite inject_Z_mult. change (inject_Z 100) with 100. nra.
  - rewrite Zle_Qle in Hlo, Hhi. rewrite inject_Z_mult in Hhi.
    change (inject_Z 0) with 0 in Hlo. change (inject_Z 100) with 100 in Hhi.
    split.
    + apply Qle_shift_div_l; [exact HsQ | lra].
    + apply Qle_shift_div_r; [exact HsQ | lra].
Qed.

(** The confidence published by [analyze_prop] lies in [0, 100]. *)
Lemma analyze_prop_confidence_within np_polyfit_slope service prop r :
  AnalysisEngine.analyze_prop np_polyfit_slope service prop = Ok r ->
  Spec.within 0 100 (AnalysisEngine.PropAnalysis.confidence_score r).
Proof.
  unfold AnalysisEngine.analyze_prop.
  assert (Hdefault : forall p reason,
             Spec.within 0 100
               (AnalysisEngine.PropAnalysis.confidence_score
                  (AnalysisEngine._create_default_analysis p reason))).
  { intros p reason. simpl. split; discriminate. }
  destruct (AnalysisEngine.PropBetData.player_id _) as [pid |];
    [| intros [= <-]; apply Hdefault].
  destruct (negb _); [intros [= <-]; apply Hdefault |].
  destruct (AnalysisEngine.Service.get_player_stats _ _ _) as [| g rest];
    [intros [= <-]; apply Hdefault |].
  destruct (AnalysisEngine._calculate_hit_rate _ _) as [hit_rate | e];
    [| discriminate].
  cbn [mbind result_bind bind].
  destruct (AnalysisEngine._calculate_average_stat _ _) as [average | e];
    [| discriminate].
  cbn [mbind result_bind bind].
  destruct (AnalysisEngine._analyze_factors _ _ _ _) as [factors | e];
    [| discriminate].
  cbn [mbind result_bind bind mret result_ret].
  intros [= <-]. cbn [AnalysisEngine.PropAnalysis.confidence_score].
  apply round_nd_within_0_100, np_clip_within. discriminate.
Qed.

(** So does the confidence of every live player projection. *)
Lemma analyze_halftime_player_confidence_within
    live_client nba_api cache live_stats prop_line prop_type game_data
    team_stats opponent_team_id opponent_abbr team_ratings is_back_to_back
    projection :
  fst (HalftimeEngine.analyze_halftime_player
         live_client nba_api cache live_stats prop_line prop_type game_data
         team_stats opponent_team_id opponent_abbr team_ratings
         is_back_to_back) = Ok projection ->
  Spec.within 0 100 (HalftimeEngine.PlayerProjection.confidence_score projection).
Proof.
  unfold HalftimeEngine.analyze_halftime_player.
  destruct (HalftimeEngine._get_team_ratings _ _ _ _) as [opp_ratings cache'].
  destruct (try_except _ _) as [season_avg historical_2h_avg].
  destruct (HalftimeEngine._calculate_second_half_projection
              _ _ _ _ _ _ _ _ _ _ _ _ _ _ _) as [projected components].
  unfold HalftimeEngine._calculate_confidence_score.
  cbv zeta. cbn [fst]. intros [= <-].
  cbn [HalftimeEngine.PlayerProjection.confidence_score].
  apply round_nd_within_0_100, (max_min_within 0 100). discriminate.
Qed.

(** And the confidence of the basic game-total projection. *)
Lemma analyze_game_totals_confidence_within
    game_data box_score home_ratings away_ratings :
  Spec.within 0 100
    (HalftimeEngine.GameTotalProjection.total_confidence
       (HalftimeEngine.analyze_game_totals game_data box_score home_ratings
                                           away_ratings)).
Proof.
  unfold HalftimeEngine.analyze_game_totals.
  cbn [HalftimeEngine.GameTotalProjection.total_confidence].
  apply round_nd_within_0_100, (max_min_within 0 100). discriminate.
Qed.

(** The confidence attached to an over/under recommendation is clamped to
    [20, 90]. *)
Lemma over_under_confidence_within projected_total variance reference_line
    season_avg_total home_s away_s pace :
  Spec.within 20 90
    (GameTotalsEngine.OverUnderLocals.confidence
       (GameTotalsEngine._calculate_over_under_locals
          projected_total variance reference_line season_avg_total
          home_s away_s pace)).
Proof. apply max_min_within. discriminate. Qed.
End PublishedScores.

(** The two coefficient tables have ten and six components. *)
Lemma weight_table_sizes :
  length HalftimeEngine.PROJECTION_WEIGHTS = 10%nat
  /\ length GameTotalsEngine.TOTALS_WEIGHTS = 6%nat.
Proof. split; reflexivity. Qed.

(** The weighted combination of [analyze] reads its six coefficients from
    [TOTALS_WEIGHTS]. *)
Lemma weighted_remaining_coefficients a b c d e f :
  GameTotalsEngine.weighted_remaining a b c d e f
  == 0.30 * a + 0.25 * b + 0.20 * c + 0.10 * d + 0.10 * e + 0.05 * f.
Proof. unfold GameTotalsEngine.weighted_remaining. vm_compute GameTotalsEngine.weight. reflexivity. Qed.

(** C2 as stated fails: the prop analyzer's factor-weight table is not a
    table of coefficients summing to 1.0 (its entries are the point values
    8, 10, 5, 3 and 8). *)
Lemma weight_tables_not_all_normalised :
  ~ (Spec.table_total HalftimeEngine.PROJECTION_WEIGHTS == 1
     /\ Spec.table_total GameTotalsEngine.TOTALS_WEIGHTS == 1
     /\ Spec.table_total AnalysisEngine.factor_weights == 1).
Proof. intros (_ & _ & H). vm_compute in H. discriminate H. Qed.

(** C2, amended.  The coefficients of PROJECTION_WEIGHTS and of
    TOTALS_WEIGHTS sum to exactly 1.0; the factor-weight table of the prop
    analyzer's confidence adjustment holds point weights that sum to 34. *)
Theorem weight_tables_totals :
  Spec.table_total HalftimeEngine.PROJECTION_WEIGHTS == 1
  /\ Spec.table_total GameTotalsEngine.TOTALS_WEIGHTS == 1
  /\ Spec.table_total AnalysisEngine.factor_weights == 34.
Proof. repeat split. Qed.

Section HitRate.
Import Py AnalysisEngine.

Lemma str_eqb_eq a b : str_eqb a b = true <-> a = b.
Proof. unfold str_eqb. apply String.eqb_eq. Qed.

Lemma str_eqb_neq a b : str_eqb a b = false <-> a <> b.
Proof. unfold str_eqb. apply String.eqb_neq. Qed.

(** The two comparisons of the loop body decide [satisfies_direction]. *)
Lemma loop_test_satisfies over_under line v :
  ((str_eqb over_under "over" && Qgtb v line)
   || (str_eqb over_under "under" && Qltb v line))%bool = true
  <-> Spec.satisfies_direction over_under line (PNum v).
Proof.
  simpl. rewrite orb_true_iff, !andb_true_iff, !str_eqb_eq, Qgtb_gt, Qltb_lt.
  reflexivity.
Qed.

(** Loop invariant: over a history of numbers and nulls the two counters
    grow by the number of hits and of valid games. *)
Lemma hit_rate_loop_counts games stat_key over_under line hits valid_games :
  Spec.numeric_stats stat_key games ->
  hit_rate_loop games stat_key over_under line hits valid_games
  = Ok ((hits + Z.of_nat
                  (length (filter (Spec.satisfies_direction over_under line)
                                  (map (Spec.stat_value stat_key) games))))%Z,
        (valid_games + Z.of_nat
                  (length (filter Spec.non_null
                                  (map (Spec.stat_value stat_key) games))))%Z).
Proof.
  intros Hnum. revert hits valid_games.
  induction Hnum as [| g rest Hg _ IH]; intros hits valid_games.
  - simpl. rewrite !Z.add_0_r. reflexivity.
  - cbn [hit_rate_loop map]. unfold get0.
    fold (Spec.stat_value stat_key g).
    destruct (Spec.stat_value stat_key g) as [| v | s] eqn:Hv.
    + rewrite IH.
      rewrite filter_cons_False by (simpl; tauto).
      rewrite (filter_cons_False Spec.non_null)
        by (unfold Spec.non_null; congruence).
      reflexivity.
    + rewrite (filter_cons_True Spec.non_null)
        by (unfold Spec.non_null; congruence).
      pose proof (loop_test_satisfies over_under line v) as Htest.
      destruct (str_eqb over_under "over" && Qgtb v line)%bool eqn:Hover.
      * rewrite IH, filter_cons_True by (apply Htest; reflexivity).
        cbn [length]. f_equal. f_equal; lia.
      * destruct (str_eqb over_under "under" && Qltb v line)%bool eqn:Hunder.
        -- rewrite IH, filter_cons_True by (apply Htest; reflexivity).
           cbn [length]. f_equal. f_equal; lia.
        -- rewrite IH, filter_cons_False
             by (intros Hs; apply Htest in Hs; discriminate Hs).
           cbn [length]. f_equal. f_equal; lia.
    + exfalso. apply (Hg s). reflexivity.
Qed.

(** A string where a number is expected makes the comparison raise. *)
Lemma hit_rate_string_raises g rest (prop : PropBetData.t) s :
  Spec.stat_value (stat_key_of (PropBetData.stat_type prop)) g = PStr s ->
  PropBetData.over_under prop = "over" ->
  _calculate_hit_rate (g :: rest) prop = Raise TypeError.
Proof.
  intros Hs Hover. unfold _calculate_hit_rate.
  cbn [hit_rate_loop]. unfold get0. fold (Spec.stat_value
    (stat_key_of (PropBetData.stat_type prop)) g).
  rewrite Hs, Hover. reflexivity.
Qed.


End HitRate.



Section DefaultAnalysis.
Import Py AnalysisEngine.

Lemma create_default_analysis_is_default prop reason :
  Spec.is_default_result prop (_create_default_analysis prop reason).
Proof.
  unfold Spec.is_default_result, _create_default_analysis. simpl.
  repeat split; try reflexivity.
  eexists. split; [reflexivity | discriminate].
Qed.

Lemma set_player_id_line prop pid :
  PropBetData.line (set_player_id prop pid) = PropBetData.line prop.
Proof. reflexivity. Qed.

Lemma truthy_id_no_player_id o :
  truthy_id o = false <-> Spec.no_player_id o.
Proof.
  unfold Spec.no_player_id. destruct o as [z |]; simpl.
  - rewrite negb_false_iff, Z.eqb_eq. split.
    + intros ->. right. reflexivity.
    + intros [H | H]; congruence.
  - split; [intros _; left; reflexivity | reflexivity].
Qed.

(** The lookup keeps the line of the prop. *)
Lemma lookup_player_line service prop :
  PropBetData.line (lookup_player service prop) = PropBetData.line prop.
Proof.
  unfold lookup_player.
  destruct (negb _); [| reflexivity].
  destruct (truthy_dict _); [| reflexivity].
  destruct (Service.search_player _ _); reflexivity.
Qed.

(** An unresolved player leaves the prop without a usable id. *)
Lemma lookup_player_unresolved service prop :
  Spec.player_unresolved service prop ->
  Spec.no_player_id (PropBetData.player_id (lookup_player service prop)).
Proof.
  intros [Hid Hsearch]. unfold lookup_player.
  apply truthy_id_no_player_id in Hid as Hfalse. rewrite Hfalse. simpl.
  destruct (Service.search_player service (PropBetData.player_name prop))
    as [d |]; simpl; [| exact Hid].
  destruct Hsearch as [-> | Hd].
  - rewrite bool_decide_eq_true_2 by reflexivity. simpl. exact Hid.
  - destruct (bool_decide (d = ∅)); simpl; [exact Hid | exact Hd].
Qed.

(** A resolved player gives the prop the id [pid]. *)
Lemma lookup_player_resolves service prop pid :
  Spec.player_resolves service prop pid ->
  PropBetData.player_id (lookup_player service prop) = Some pid.
Proof.
  intros [Hnz [Hid | [Hid (d & Hd & Hlook)]]]; unfold lookup_player.
  - rewrite Hid. simpl.
    destruct (pid =? 0)%Z eqn:E; [apply Z.eqb_eq in E; contradiction |].
    simpl. exact Hid.
  - apply truthy_id_no_player_id in Hid. rewrite Hid, Hd. simpl.
    rewrite bool_decide_eq_false_2.
    + simpl. exact Hlook.
    + intros ->. rewrite lookup_empty in Hlook. discriminate.
Qed.
End DefaultAnalysis.

(** C3.  When the player identity cannot be resolved, or no historical
    games are available, [analyze_prop] returns (it does not raise) a
    default result: confidence 50.0, hit rate 50.0, average equal to the
    prop's line, recommendation "neutral", and a non-empty note. *)
Theorem analyze_prop_default np_polyfit_slope service prop :
  Spec.player_unresolved service prop \/ Spec.no_history service prop ->
  exists r,
    AnalysisEngine.analyze_prop np_polyfit_slope service prop = Py.Ok r
    /\ Spec.is_default_result prop r.
Proof.
  intros [Hun | (pid & Hres & Hempty)]; unfold AnalysisEngine.analyze_prop.
  - apply lookup_player_unresolved in Hun as [Hnone | Hzero].
    + rewrite Hnone. eexists. split; [reflexivity |].
      pose proof (create_default_analysis_is_default
                    (AnalysisEngine.lookup_player service prop)
                    "Player not found in database") as Hd.
      unfold Spec.is_default_result in *.
      rewrite lookup_player_line in Hd. exact Hd.
    + rewrite Hzero. simpl. eexists. split; [reflexivity |].
      pose proof (create_default_analysis_is_default
                    (AnalysisEngine.lookup_player service prop)
                    "Player not found in database") as Hd.
      unfold Spec.is_default_result in *.
      rewrite lookup_player_line in Hd. exact Hd.
  - pose proof Hres as [Hnz _].
    rewrite (lookup_player_resolves _ _ _ Hres). simpl.
    destruct (pid =? 0)%Z eqn:E; [apply Z.eqb_eq in E; contradiction |].
    simpl. rewrite Hempty. eexists. split; [reflexivity |].
    pose proof (create_default_analysis_is_default
                  (AnalysisEngine.lookup_player service prop)
                  "No recent game data available") as Hd.
    unfold Spec.is_default_result in *.
    rewrite lookup_player_line in Hd. exact Hd.
Qed.

Section Bands.
Import Py.

(** Case analysis on the threshold tests of a band cascade, each test
    turned into the inequality it decides. *)
Ltac split_bands :=
  repeat match goal with
    | |- context [Qgeb ?x ?k] =>
        let H := fresh "Hband" in
        destruct (Qgeb x k) eqn:H;
        [apply Qgeb_ge in H | apply Qgeb_lt in H]
    | |- context [Qleb ?x ?k] =>
        let H := fresh "Hband" in
        destruct (Qleb x k) eqn:H;
        [apply Qleb_le in H | apply Qleb_gt in H]
    end.

Ltac close_band :=
  first [ exfalso; lra
        | do 2 eexists; split; [reflexivity | split; [reflexivity | lia]] ].

(** The bands of the prop analyzer do not depend on the direction. *)
Lemma generate_recommendation_direction_free confidence ou1 ou2 :
  AnalysisEngine._generate_recommendation confidence ou1
  = AnalysisEngine._generate_recommendation confidence ou2.
Proof. reflexivity. Qed.

Lemma generate_recommendation_monotone c1 c2 over_under :
  c1 <= c2 ->
  Spec.rank_le (AnalysisEngine._generate_recommendation c1 over_under)
               (AnalysisEngine._generate_recommendation c2 over_under).
Proof.
  intros Hle. unfold AnalysisEngine._generate_recommendation, Spec.rank_le.
  split_bands; close_band.
Qed.

(** Projection above the line. *)
Lemma determine_recommendation_over_monotone d1 d2 c1 c2 :
  0 < d1 -> 0 < d2 -> c1 <= c2 ->
  Spec.rank_le (HalftimeEngine.determine_recommendation d1 c1)
               (HalftimeEngine.determine_recommendation d2 c2).
Proof.
  intros H1 H2 Hle. unfold HalftimeEngine.determine_recommendation.
  apply Qgtb_gt in H1, H2. rewrite H1, H2. unfold Spec.rank_le.
  split_bands; close_band.
Qed.

(** Projection at or below the line. *)
Lemma determine_recommendation_under_monotone d1 d2 c1 c2 :
  d1 <= 0 -> d2 <= 0 -> c1 <= c2 ->
  Spec.rank_le (HalftimeEngine.determine_recommendation d1 c1)
               (HalftimeEngine.determine_recommendation d2 c2).
Proof.
  intros H1 H2 Hle. unfold HalftimeEngine.determine_recommendation.
  apply Qgtb_le in H1, H2. rewrite H1, H2. unfold Spec.rank_le.
  split_bands; close_band.
Qed.

(** The recommendation returned by [_calculate_confidence_score] is the
    classification of its own distance and clipped confidence. *)
Lemma calculate_confidence_score_recommendation
    projected_final prop_line first_half_value historical_consistency
    shooting_metrics foul_trouble blowout_warning utilization_rate
    plus_minus opponent_def_rank assist_to_turnover :
  let out :=
    HalftimeEngine._calculate_confidence_score
      projected_final prop_line first_half_value historical_consistency
      shooting_metrics foul_trouble blowout_warning utilization_rate
      plus_minus opponent_def_rank assist_to_turnover in
  snd out
  = HalftimeEngine.determine_recommendation (projected_final - prop_line)
                                            (fst out).
Proof.
  cbv beta zeta iota delta [fst snd HalftimeEngine._calculate_confidence_score].
  reflexivity.
Qed.
End Bands.

(** C5.  For a fixed direction the recommendation is a non-decreasing
    function of the confidence score, in the order strong_avoid < avoid <
    neutral < lean < bet < strong_bet: for the prop analyzer's bands, and
    for each branch (projection above the line, projection not above the
    line) of the live projector's classification. *)
Theorem recommendation_monotone_in_confidence c1 c2 :
  c1 <= c2 ->
  (forall over_under,
      Spec.rank_le (AnalysisEngine._generate_recommendation c1 over_under)
                   (AnalysisEngine._generate_recommendation c2 over_under))
  /\ (forall d1 d2,
         (0 < d1 <-> 0 < d2) ->
         Spec.rank_le (HalftimeEngine.determine_recommendation d1 c1)
                      (HalftimeEngine.determine_recommendation d2 c2)).
Proof.
  intros Hle. split.
  - intros over_under. apply generate_recommendation_monotone. exact Hle.
  - intros d1 d2 Hdir. destruct (Qlt_le_dec 0 d1) as [Hpos | Hneg].
    + apply determine_recommendation_over_monotone; tauto.
    + apply determine_recommendation_under_monotone; [exact Hneg | | exact Hle].
      destruct (Qlt_le_dec 0 d2) as [Hpos2 | Hneg2]; [| exact Hneg2].
      exfalso. apply Hdir in Hpos2. lra.
Qed.

(** C6.  The projected second-half minutes are the first-half minutes,
    multiplied by 0.75 under foul trouble, then by 0.70 (starter) or 1.15
    (bench) under blowout, capped at 24.0.  This holds for every value of
    the first-half minutes, the non-negative ones in particular. *)
Theorem calculate_minutes_projection_spec
    first_half_minutes foul_trouble blowout_warning is_starter :
  HalftimeEngine._calculate_minutes_projection
    first_half_minutes foul_trouble blowout_warning is_starter
  == Spec.projected_minutes first_half_minutes foul_trouble blowout_warning
                            is_starter.
Proof.
  unfold HalftimeEngine._calculate_minutes_projection, Spec.projected_minutes,
    Py.min.
  apply Q.min_compat; [| lra].
  destruct foul_trouble, blowout_warning, is_starter; ring.
Qed.

(** The projected minutes never exceed 24. *)
Lemma calculate_minutes_projection_cap
    first_half_minutes foul_trouble blowout_warning is_starter :
  HalftimeEngine._calculate_minutes_projection
    first_half_minutes foul_trouble blowout_warning is_starter <= 24.
Proof.
  unfold HalftimeEngine._calculate_minutes_projection, Py.min.
  eapply Qle_trans; [apply Q.le_min_r | lra].
Qed.

(** C7.  The risk flags sit exactly at their thresholds: foul trouble iff
    fouls >= 3 or (minutes > 0 and fouls/minutes > 0.125); blowout iff the
    absolute score differential is >= 20.  Three fouls in ten minutes are
    flagged; a differential of 20 is flagged and one of 19 is not. *)
Theorem risk_flag_thresholds :
  (forall fouls minutes,
      HalftimeEngine._detect_foul_trouble fouls minutes = true
      <-> (3 <= fouls)%Z \/ (0 < minutes /\ 0.125 < inject_Z fouls / minutes))
  /\ HalftimeEngine._detect_foul_trouble 3 10 = true
  /\ (forall score_diff,
         HalftimeEngine._detect_blowout score_diff = true
         <-> (20 <= Z.abs score_diff)%Z)
  /\ HalftimeEngine._detect_blowout 20 = true
  /\ HalftimeEngine._detect_blowout 19 = false.
Proof.
  split; [| split; [| split; [| split]]]; try reflexivity.
  - intros fouls minutes. unfold HalftimeEngine._detect_foul_trouble,
      HalftimeEngine.FOUL_TROUBLE_THRESHOLD.
    destruct (fouls >=? 3)%Z eqn:Hf.
    + split; [intros _; left; lia | reflexivity].
    + destruct (Py.Qgtb minutes 0 && Py.Qgtb (inject_Z fouls / minutes) 0.125)%bool
        eqn:Hr.
      * apply andb_true_iff in Hr as [Hm Hq].
        apply Qgtb_gt in Hm, Hq.
        split; [intros _; right; split; assumption | reflexivity].
      * split; [discriminate |].
        intros [Hge | [Hm Hq]]; [lia |].
        apply Qgtb_gt in Hm, Hq. rewrite Hm, Hq in Hr. discriminate Hr.
  - intros score_diff. unfold HalftimeEngine._detect_blowout,
      HalftimeEngine.BLOWOUT_THRESHOLD.
    rewrite Z.geb_le. reflexivity.
Qed.

Section OverUnder.
Import Py GameTotalsEngine.

End OverUnder.


Section QuarterSplit.
Import Py GameTotalsEngine.

(** In every period branch the two combined quarter totals add up to the
    projected remaining points. *)
Lemma combined_quarters_sum projected_remaining game_data home_ratings
    away_ratings home_agg away_agg elapsed_min :
  let v :=
    _project_quarters_locals projected_remaining game_data home_ratings
                             away_ratings home_agg away_agg elapsed_min in
  QuarterLocals.combined_q3 v + QuarterLocals.combined_q4 v
  == projected_remaining.
Proof.
  unfold _project_quarters_locals.
  destruct (LiveGameData.period game_data >=? 4)%Z;
    [| destruct (LiveGameData.period game_data >=? 3)%Z];
    destruct home_ratings, away_ratings; cbn; ring.
Qed.

(** The home and away shares add up to 1. *)
Lemma team_shares_sum projected_remaining game_data home_ratings
    away_ratings home_agg away_agg elapsed_min :
  let v :=
    _project_quarters_locals projected_remaining game_data home_ratings
                             away_ratings home_agg away_agg elapsed_min in
  QuarterLocals.home_share v + QuarterLocals.away_share v == 1.
Proof.
  unfold _project_quarters_locals.
  destruct (LiveGameData.period game_data >=? 4)%Z;
    [| destruct (LiveGameData.period game_data >=? 3)%Z];
    destruct home_ratings, away_ratings; cbn; ring.
Qed.

(** Each combined quarter total is the sum of its two team parts. *)
Lemma team_quarters_sum projected_remaining game_data home_ratings
    away_ratings home_agg away_agg elapsed_min :
  let v :=
    _project_quarters_locals projected_remaining game_data home_ratings
                             away_ratings home_agg away_agg elapsed_min in
  QuarterLocals.home_q3 v + QuarterLocals.away_q3 v
  == QuarterLocals.combined_q3 v
  /\ QuarterLocals.home_q4 v + QuarterLocals.away_q4 v
     == QuarterLocals.combined_q4 v.
Proof.
  unfold _project_quarters_locals.
  destruct (LiveGameData.period game_data >=? 4)%Z;
    [| destruct (LiveGameData.period game_data >=? 3)%Z];
    destruct home_ratings, away_ratings; cbn; split; ring.
Qed.
End QuarterSplit.

Section QuarterSplitDoubles.
Import Py.

Lemma f64_eqb_refl x : F64.is_nan x = false -> F64.eqb x x = true.
Proof.
  destruct x as [s | s | | s m e]; try discriminate; intros _;
    unfold F64.eqb, SFeqb; cbn [SFcompare].
  - reflexivity.
  - destruct s; reflexivity.
  - rewrite Z.compare_refl, Pos.compare_cont_refl. destruct s; reflexivity.
Qed.

(** [0.0 + x] is [x]. *)
Lemma f64_add_zero_l x :
  F64.is_nan x = false -> F64.eqb (F64.add (F64.of_Z 0) x) x = true.
Proof.
  destruct x as [s | s | | s m e]; try discriminate; intros _.
  - destruct s; reflexivity.
  - destruct s; reflexivity.
  - change (F64.add (F64.of_Z 0) (S754_finite s m e)) with (S754_finite s m e).
    apply f64_eqb_refl. reflexivity.
Qed.

(** Every first-half total from 0 to 400, with and without blowout risk,
    by running the projection. *)
Lemma totals_gaps_upto_400 first_half_total blowout_risk :
  (0 <= first_half_total <= 400)%Z ->
  Spec.totals_gaps_ok first_half_total blowout_risk = true.
Proof.
  intros Hrange.
  assert (Hall : forallb (fun n => Spec.totals_gaps_ok (Z.of_nat n) true
                                   && Spec.totals_gaps_ok (Z.of_nat n) false)%bool
                         (seq 0 401) = true)
    by (vm_compute; reflexivity).
  rewrite forallb_forall in Hall.
  specialize (Hall (Z.to_nat first_half_total)).
  rewrite Z2Nat.id in Hall by lia.
  assert (Hin : In (Z.to_nat first_half_total) (seq 0 401))
    by (apply in_seq; lia).
  apply Hall in Hin. apply andb_true_iff in Hin as [Ht Hf].
  destruct blowout_risk; assumption.
Qed.
End QuarterSplitDoubles.

(** C10 as stated fails on the computed values.  Basic projection, 30 to 27
    at the half: the second-half total is 59.85, the two quarter totals add
    up to 59.85000000000001.  Advanced engine, halftime of a tied game with
    0.9 points remaining: the combined quarters add up to
    0.9000000000000001. *)
Lemma quarter_split_not_conserved :
  (let v := HalftimeEngine.analyze_game_totals_f64 Examples.game_30_27 in
   F64.eqb (F64.add (HalftimeEngine.TotalsF64.projected_q3_total v)
                    (HalftimeEngine.TotalsF64.projected_q4_total v))
           (HalftimeEngine.TotalsF64.projected_second_half_total v) = false
   /\ HalftimeEngine.TotalsF64.projected_second_half_total v
      = F64.decimal 5985 2)
  /\ (let quarters :=
        GameTotalsEngine.combined_quarters_f64
          (F64.decimal 9 1) Examples.tied_game (F64.of_Z 24) in
      F64.eqb (F64.add (fst quarters) (snd quarters)) (F64.decimal 9 1)
      = false).
Proof. split; [split |]; vm_compute; reflexivity. Qed.

(** C10.  Quarter-split conservation on the unrounded values holds for the
    formulas, in exact arithmetic, and for the computed doubles up to
    rounding.  Exact arithmetic.  Basic projection: Q3 + Q4 = projected
    second half, and projected final = first half + projected second half.
    Advanced engine, in every period branch: combined Q3 + combined Q4 =
    projected remaining points, the home and away shares sum to 1, and so
    the four per-team quarter projections add up to the projected
    remaining points.  Doubles.  Basic projection, for scores of 0 to 200
    points per team: the projected final total is the sum, as computed, of
    the first-half total and the projected second half, within 2^-44 of
    the exact sum, and Q3 + Q4 is within 2^-45 of the projected second
    half.  Advanced engine: from the fourth period on combined Q3 +
    combined Q4 equals the projected remaining points. *)
Theorem quarter_split_conservation :
  (forall game_data,
      let v := HalftimeEngine.analyze_game_totals_locals game_data in
      HalftimeEngine.TotalsLocals.projected_q3_total v
      + HalftimeEngine.TotalsLocals.projected_q4_total v
      == HalftimeEngine.TotalsLocals.projected_second_half_total v
      /\ HalftimeEngine.TotalsLocals.projected_final_total v
         == inject_Z (HalftimeEngine.TotalsLocals.first_half_total v)
            + HalftimeEngine.TotalsLocals.projected_second_half_total v)
  /\ (forall projected_remaining game_data home_ratings away_ratings
             home_agg away_agg elapsed_min,
         let v :=
           GameTotalsEngine._project_quarters_locals
             projected_remaining game_data home_ratings away_ratings
             home_agg away_agg elapsed_min in
         GameTotalsEngine.QuarterLocals.combined_q3 v
         + GameTotalsEngine.QuarterLocals.combined_q4 v
         == projected_remaining
         /\ GameTotalsEngine.QuarterLocals.home_share v
            + GameTotalsEngine.QuarterLocals.away_share v == 1
         /\ GameTotalsEngine.QuarterLocals.home_q3 v
            + GameTotalsEngine.QuarterLocals.away_q3 v
            == GameTotalsEngine.QuarterLocals.combined_q3 v
         /\ GameTotalsEngine.QuarterLocals.home_q4 v
            + GameTotalsEngine.QuarterLocals.away_q4 v
            == GameTotalsEngine.QuarterLocals.combined_q4 v
         /\ (GameTotalsEngine.QuarterLocals.home_q3 v
             + GameTotalsEngine.QuarterLocals.away_q3 v)
            + (GameTotalsEngine.QuarterLocals.home_q4 v
               + GameTotalsEngine.QuarterLocals.away_q4 v)
            == projected_remaining)
  /\ (forall game_data,
         (0 <= LiveGameData.home_score game_data <= 200)%Z ->
         (0 <= LiveGameData.away_score game_data <= 200)%Z ->
         let v := HalftimeEngine.analyze_game_totals_f64 game_data in
         let second_half :=
           HalftimeEngine.TotalsF64.projected_second_half_total v in
         HalftimeEngine.TotalsF64.projected_final_total v
         = F64.add (F64.of_Z (LiveGameData.total_score game_data)) second_half
         /\ Spec.gap (HalftimeEngine.TotalsF64.projected_final_total v)
              (inject_Z (LiveGameData.total_score game_data)
               + F64.to_Q second_half)
            <= 1 / inject_Z (2 ^ 44)
         /\ Spec.gap
              (F64.add (HalftimeEngine.TotalsF64.projected_q3_total v)
                       (HalftimeEngine.TotalsF64.projected_q4_total v))
              (F64.to_Q second_half)
            <= 1 / inject_Z (2 ^ 45))
  /\ (forall projected_remaining game_data elapsed_min,
         (4 <= LiveGameData.period game_data)%Z ->
         F64.is_nan projected_remaining = false ->
         let quarters :=
           GameTotalsEngine.combined_quarters_f64
             projected_remaining game_data elapsed_min in
         F64.eqb (F64.add (fst quarters) (snd quarters)) projected_remaining
         = true).
Proof.
  split; [| split; [| split]].
  - intros game_data v. subst v. cbn. split; ring.
  - intros projected_remaining game_data home_ratings away_ratings
      home_agg away_agg elapsed_min v.
    pose proof (combined_quarters_sum projected_remaining game_data
                  home_ratings away_ratings home_agg away_agg elapsed_min)
      as Hc.
    pose proof (team_shares_sum projected_remaining game_data
                  home_ratings away_ratings home_agg away_agg elapsed_min)
      as Hs.
    pose proof (team_quarters_sum projected_remaining game_data
                  home_ratings away_ratings home_agg away_agg elapsed_min)
      as [H3 H4].
    cbv zeta in Hc, Hs, H3, H4. fold v in Hc, Hs, H3, H4.
    repeat split; try assumption.
    rewrite H3, H4. exact Hc.
  - intros game_data Hhome Haway v second_half.
    split; [reflexivity |].
    assert (Hrange : (0 <= LiveGameData.total_score game_data <= 400)%Z)
      by (unfold LiveGameData.total_score; lia).
    pose proof (totals_gaps_upto_400
                  (LiveGameData.total_score game_data)
                  (HalftimeEngine._detect_blowout
                     (LiveGameData.score_differential game_data)) Hrange)
      as Hok.
    unfold Spec.totals_gaps_ok in Hok. cbv zeta in Hok.
    apply andb_true_iff in Hok as [Hfinal Hsplit].
    apply Qle_bool_iff in Hfinal, Hsplit.
    split; [exact Hfinal | exact Hsplit].
  - intros projected_remaining game_data elapsed_min Hperiod Hnum quarters.
    subst quarters. unfold GameTotalsEngine.combined_quarters_f64.
    assert (Hge : (LiveGameData.period game_data >=? 4)%Z = true)
      by (apply Z.geb_le; exact Hperiod).
    rewrite Hge. cbn [fst snd]. apply f64_add_zero_l. exact Hnum.
Qed.

Lemma quarter_split_conservation_witness :
  Spec.gap
    (F64.add (HalftimeEngine.TotalsF64.projected_q3_total
                (HalftimeEngine.analyze_game_totals_f64 Examples.game_30_27))
             (HalftimeEngine.TotalsF64.projected_q4_total
                (HalftimeEngine.analyze_game_totals_f64 Examples.game_30_27)))
    (F64.to_Q (HalftimeEngine.TotalsF64.projected_second_half_total
                 (HalftimeEngine.analyze_game_totals_f64 Examples.game_30_27)))
  <= 1 / inject_Z (2 ^ 45)
  /\ F64.eqb
       (F64.add
          (fst (GameTotalsEngine.combined_quarters_f64
                  (F64.decimal 9 1) Examples.fourth_period_game (F64.of_Z 40)))
          (snd (GameTotalsEngine.combined_quarters_f64
                  (F64.decimal 9 1) Examples.fourth_period_game (F64.of_Z 40))))
       (F64.decimal 9 1) = true.
Proof.
  destruct quarter_split_conservation as (_ & _ & Hbasic & Hadvanced).
  split.
  - apply (Hbasic Examples.game_30_27); vm_compute; split; discriminate.
  - apply (Hadvanced (F64.decimal 9 1) Examples.fourth_period_game (F64.of_Z 40)).
    + vm_compute. discriminate.
    + reflexivity.
Defined.

Section NotFound.
Import Py HalftimeEngine.

Context (live_client : LiveClient.t) (nba_api : Z -> NbaApi.fetch)
        (utcnow : string) (Enhanced : Type)
        (totals_engine_analyze :
           LiveGameData.t -> BoxScore.t -> TeamRatings.t -> TeamRatings.t ->
           result Enhanced).

Local Abbreviation run cache game_id prop_lines :=
  (get_halftime_analysis live_client nba_api utcnow Enhanced
                         totals_engine_analyze cache game_id prop_lines).

(** Without a matching snapshot the call raises the "not found" error and
    leaves the ratings cache as it was. *)
Lemma get_halftime_analysis_missing cache game_id prop_lines :
  (forall g, In g (LiveClient.get_todays_games live_client) ->
             LiveGameData.game_id g <> game_id) ->
  run cache game_id prop_lines
  = (Raise (ValueError ("Game " ++ game_id ++ " not found")), cache).
Proof.
  intros Hnone. unfold get_halftime_analysis.
  destruct (List.find _ _) as [g |] eqn:Hfind; [| reflexivity].
  apply List.find_some in Hfind as [Hin Heq].
  apply str_eqb_eq in Heq. exfalso. exact (Hnone g Hin Heq).
Qed.

(** With a matching snapshot the call returns an analysis of that game,
    whatever the collaborators deliver. *)
Lemma get_halftime_analysis_found cache game_id prop_lines :
  (exists g, In g (LiveClient.get_todays_games live_client)
             /\ LiveGameData.game_id g = game_id) ->
  exists analysis,
    fst (run cache game_id prop_lines) = Ok analysis
    /\ HalftimeAnalysis.game_id analysis = game_id
    /\ LiveGameData.game_id (HalftimeAnalysis.game_info analysis) = game_id.
Proof.
  intros (g & Hin & Heq). unfold get_halftime_analysis.
  destruct (List.find _ _) as [game_data |] eqn:Hfind.
  - apply List.find_some in Hfind as [_ Hid]. apply str_eqb_eq in Hid.
    repeat match goal with
      | |- context [let '(_, _) := ?x in _] => destruct x
      end.
    eexists. split; [reflexivity |]. split; [reflexivity | exact Hid].
  - exfalso. apply (List.find_none _ _ Hfind) in Hin.
    apply str_eqb_neq in Hin. contradiction.
Qed.

(** A failed ratings request leaves the league-average defaults, which
    are cached like any other answer. *)
Lemma get_team_ratings_failed cache team_id team_abbr e :
  cache !! team_id = None ->
  nba_api team_id = NbaApi.Failed e ->
  _get_team_ratings nba_api cache team_id team_abbr
  = (TeamRatings.default team_id team_abbr,
     <[team_id := TeamRatings.default team_id team_abbr]> cache).
Proof.
  intros Hmiss Hfail. unfold _get_team_ratings. rewrite Hmiss, Hfail.
  reflexivity.
Qed.

(** The per-player analysis returns a projection whatever the season
    stats fetch and the ratings requests do. *)
Lemma analyze_halftime_player_returns cache live_stats prop_line prop_type
    game_data team_stats opponent_team_id opponent_abbr team_ratings
    is_back_to_back :
  exists projection,
    fst (analyze_halftime_player
           live_client nba_api cache live_stats prop_line prop_type
           game_data team_stats opponent_team_id opponent_abbr team_ratings
           is_back_to_back) = Ok projection.
Proof.
  unfold analyze_halftime_player.
  repeat match goal with
    | |- context [let '(_, _) := ?x in _] => destruct x
    end.
  eexists. reflexivity.
Qed.
End NotFound.

(** C9.  A game id without a matching live snapshot among today's games
    makes [get_halftime_analysis] raise the "not found" error, and this is
    the only way the call fails: with a matching snapshot the analysis is
    returned, also when the season-stats fetch raises and the team-ratings
    requests fail. *)
Theorem get_halftime_analysis_not_found_only
    live_client nba_api utcnow Enhanced totals_engine_analyze
    cache game_id prop_lines :
  let games := HalftimeEngine.LiveClient.get_todays_games live_client in
  let outcome :=
    fst (HalftimeEngine.get_halftime_analysis
           live_client nba_api utcnow Enhanced totals_engine_analyze
           cache game_id prop_lines) in
  ((forall g, In g games -> LiveGameData.game_id g <> game_id) ->
   outcome = Py.Raise (Py.ValueError ("Game " ++ game_id ++ " not found")))
  /\ ((exists g, In g games /\ LiveGameData.game_id g = game_id) ->
      exists analysis, outcome = Py.Ok analysis)
  /\ (forall e, outcome = Py.Raise e ->
                e = Py.ValueError ("Game " ++ game_id ++ " not found")
                /\ forall g, In g games -> LiveGameData.game_id g <> game_id).
Proof.
  intros games outcome. split; [| split].
  - intros Hnone. subst outcome.
    rewrite (get_halftime_analysis_missing _ _ _ _ _ _ _ _ Hnone). reflexivity.
  - intros Hsome.
    destruct (get_halftime_analysis_found live_client nba_api utcnow Enhanced
                totals_engine_analyze cache game_id prop_lines Hsome)
      as (analysis & Hok & _).
    exists analysis. exact Hok.
  - intros e Hraise.
    assert (Hnone : forall g, In g games -> LiveGameData.game_id g <> game_id).
    { intros g Hin Heq.
      destruct (get_halftime_analysis_found live_client nba_api utcnow Enhanced
                  totals_engine_analyze cache game_id prop_lines
                  (ex_intro _ g (conj Hin Heq)))
        as (analysis & Hok & _).
      subst outcome. rewrite Hok in Hraise. discriminate Hraise. }
    split; [| exact Hnone].
    subst outcome.
    rewrite (get_halftime_analysis_missing _ _ _ _ _ _ _ _ Hnone) in Hraise.
    simpl in Hraise. congruence.
Qed.

(* ================================================================== *)
(** * The properties at concrete inputs                                *)
(* ================================================================== *)

(** Example 1 of the specification: ten games of exactly 20 points against
    "over 15" give a hit rate of 100 and an average of 20. *)
Lemma example_ten_games_of_twenty :
  AnalysisEngine._calculate_hit_rate Examples.ten_games Examples.over_15_points
  = Py.Ok 100.0
  /\ AnalysisEngine._calculate_average_stat Examples.ten_games "pts"
     = Py.Ok 20.0.
Proof. split; vm_compute; reflexivity. Qed.


(** Example 5 of the specification: nobody is found and no games exist. *)
Lemma analyze_prop_default_witness :
  (Spec.player_unresolved Examples.empty_service Examples.anonymous_prop
   \/ Spec.no_history Examples.empty_service Examples.anonymous_prop)
  /\ exists r,
      AnalysisEngine.analyze_prop Examples.flat_trend Examples.empty_service
                                  Examples.anonymous_prop = Py.Ok r
      /\ Spec.is_default_result Examples.anonymous_prop r.
Proof.
  assert (H : Spec.player_unresolved Examples.empty_service
                                     Examples.anonymous_prop
              \/ Spec.no_history Examples.empty_service
                                 Examples.anonymous_prop).
  { left. split; [left; reflexivity | exact I]. }
  split; [exact H |].
  exact (analyze_prop_default Examples.flat_trend Examples.empty_service
                              Examples.anonymous_prop H).
Defined.

(** A player with an id but without games gets the default result too. *)
Lemma example_no_history :
  exists r,
    AnalysisEngine.analyze_prop Examples.flat_trend Examples.empty_service
                                Examples.over_15_points = Py.Ok r
    /\ Spec.is_default_result Examples.over_15_points r.
Proof.
  exists (AnalysisEngine._create_default_analysis
            Examples.over_15_points "No recent game data available").
  split; [reflexivity | apply create_default_analysis_is_default].
Qed.

Lemma recommendation_monotone_in_confidence_witness :
  50 <= 60
  /\ (forall over_under,
         Spec.rank_le (AnalysisEngine._generate_recommendation 50 over_under)
                      (AnalysisEngine._generate_recommendation 60 over_under))
  /\ (forall d1 d2,
         (0 < d1 <-> 0 < d2) ->
         Spec.rank_le (HalftimeEngine.determine_recommendation d1 50)
                      (HalftimeEngine.determine_recommendation d2 60)).
Proof.
  assert (H : 50 <= 60) by discriminate.
  split; [exact H |].
  exact (recommendation_monotone_in_confidence 50 60 H).
Defined.

(** With a snapshot for the requested game the analysis is returned although
    every collaborator fails. *)
Lemma get_halftime_analysis_not_found_only_witness :
  (exists g,
      In g (HalftimeEngine.LiveClient.get_todays_games Examples.failing_client)
      /\ LiveGameData.game_id g = "0022400001")
  /\ exists analysis,
      fst (HalftimeEngine.get_halftime_analysis
             Examples.failing_client Examples.failing_api
             "2024-11-01T03:00:00" unit Examples.failing_totals_engine
             ∅ "0022400001" None)
      = Py.Ok analysis.
Proof.
  assert (H : exists g,
             In g (HalftimeEngine.LiveClient.get_todays_games
                     Examples.failing_client)
             /\ LiveGameData.game_id g = "0022400001").
  { exists Examples.game_1. split; [left; reflexivity | reflexivity]. }
  split; [exact H |].
  exact (proj1 (proj2 (get_halftime_analysis_not_found_only
                         Examples.failing_client Examples.failing_api
                         "2024-11-01T03:00:00" unit
                         Examples.failing_totals_engine ∅ "0022400001" None))
               H).
Defined.

(** The same collaborators asked for a game that is not on today's board. *)
Lemma example_unknown_game :
  fst (HalftimeEngine.get_halftime_analysis
         Examples.failing_client Examples.failing_api
         "2024-11-01T03:00:00" unit Examples.failing_totals_engine
         ∅ "0022499999" None)
  = Py.Raise (Py.ValueError "Game 0022499999 not found").
Proof. reflexivity. Qed.

(** Example 1 carried through [analyze_prop]: hit rate 100, average 20,
    confidence clipped to 100, recommendation "strong_bet". *)
Lemma example_analyze_prop_ten_games :
  exists r,
    AnalysisEngine.analyze_prop Examples.flat_trend Examples.ten_game_service
                                Examples.over_15_points = Py.Ok r
    /\ AnalysisEngine.PropAnalysis.hit_rate_last_10 r == 100
    /\ AnalysisEngine.PropAnalysis.average_stat r == 20
    /\ AnalysisEngine.PropAnalysis.confidence_score r == 100
    /\ AnalysisEngine.PropAnalysis.recommendation r = "strong_bet".
Proof. eexists. split; [vm_compute; reflexivity |]. repeat split. Qed.

(** The advanced engine flags a blowout at the same threshold of 20, and a
    close game up to a differential of 8. *)
Lemma advanced_game_flow_thresholds
    game_data home_agg away_agg home_ratings away_ratings reference_line
    elapsed_min pace home_shooting away_shooting stars :
  let p :=
    GameTotalsEngine.analyze_steps_4_to_9
      game_data home_agg away_agg home_ratings away_ratings reference_line
      elapsed_min pace home_shooting away_shooting stars in
  (GameTotalsEngine.Projection.blowout_risk p = true
   <-> (20 <= LiveGameData.score_differential game_data)%Z)
  /\ (GameTotalsEngine.Projection.is_close p = true
      <-> (LiveGameData.score_differential game_data <= 8)%Z).
Proof.
  unfold GameTotalsEngine.analyze_steps_4_to_9.
  destruct (GameTotalsEngine._project_quarters _ _ _ _ _ _ _) as [home_q away_q].
  cbn [GameTotalsEngine.Projection.blowout_risk
       GameTotalsEngine.Projection.is_close].
  unfold GameTotalsEngine.BLOWOUT_THRESHOLD,
    GameTotalsEngine.CLOSE_GAME_THRESHOLD, LiveGameData.score_differential.
  rewrite Z.geb_le, Z.leb_le, Z.abs_idemp. split; reflexivity.
Qed.

(* ================================================================== *)
(** * Further properties of the engines                                *)
(* ================================================================== *)

(* ------------------------------------------------------------------ *)
(** ** Rounding *)
(* ------------------------------------------------------------------ *)

Section Rounding.
Import Py.

(** Rounding to [n] decimals never crosses a whole number. *)
Lemma round_nd_between (a b : Z) x n :
  inject_Z a <= x -> x <= inject_Z b ->
  inject_Z a <= round_nd x n /\ round_nd x n <= inject_Z b.
Proof.
  intros Ha Hb. unfold round_nd.
  set (s := (10 ^ Z.of_nat n)%Z).
  assert (Hs : (0 < s)%Z) by (apply Z.pow_pos_nonneg; lia).
  assert (HsQ : 0 < inject_Z s) by (rewrite (Zlt_Qlt 0 s) in Hs; exact Hs).
  destruct (round_between (a * s) (b * s) (x * inject_Z s)) as [Hlo Hhi].
  - rewrite inject_Z_mult. nra.
  - rewrite inject_Z_mult. nra.
  - rewrite Zle_Qle in Hlo, Hhi. rewrite inject_Z_mult in Hlo, Hhi.
    split.
    + apply Qle_shift_div_l; [exact HsQ | lra].
    + apply Qle_shift_div_r; [exact HsQ | lra].
Qed.

(** [round] is monotone. *)
Lemma round_monotone x y : x <= y -> (round x <= round y)%Z.
Proof.
  intros Hxy.
  pose proof (Qfloor_le x) as Hfx. pose proof (Qlt_floor x) as Hcx.
  pose proof (Qfloor_le y) as Hfy. pose proof (Qlt_floor y) as Hcy.
  pose proof (Qfloor_resp_le x y Hxy) as Hff.
  rewrite inject_Z_plus in Hcx, Hcy. change (inject_Z 1) with 1 in Hcx, Hcy.
  assert (Hx : (Qfloor x <= round x <= Qfloor x + 1)%Z).
  { unfold round. repeat match goal with
      | |- context [if ?c then _ else _] => destruct c
      end; lia. }
  assert (Hy : (Qfloor y <= round y <= Qfloor y + 1)%Z).
  { unfold round. repeat match goal with
      | |- context [if ?c then _ else _] => destruct c
      end; lia. }
  destruct (Z.eq_dec (Qfloor x) (Qfloor y)) as [Heq | Hne]; [| lia].
  unfold round. rewrite <- Heq.
  destruct (Qltb (x - inject_Z (Qfloor x)) (1 # 2)) eqn:X1.
  - repeat match goal with
      | |- context [if ?c then _ else _] => destruct c
      end; lia.
  - apply Qltb_ge in X1.
    destruct (Qltb (y - inject_Z (Qfloor x)) (1 # 2)) eqn:Y1;
      [apply Qltb_lt in Y1; lra |].
    destruct (Qltb (1 # 2) (x - inject_Z (Qfloor x))) eqn:X2.
    + apply Qltb_lt in X2.
      destruct (Qltb (1 # 2) (y - inject_Z (Qfloor x))) eqn:Y2; [lia |].
      apply Qltb_ge in Y2. lra.
    + destruct (Qltb (1 # 2) (y - inject_Z (Qfloor x)));
        destruct (Z.even (Qfloor x)); lia.
Qed.

(** So is rounding to [n] decimals. *)
Lemma round_nd_monotone x y n : x <= y -> round_nd x n <= round_nd y n.
Proof.
  intros Hxy. unfold round_nd.
  set (s := (10 ^ Z.of_nat n)%Z).
  assert (Hs : (0 < s)%Z) by (apply Z.pow_pos_nonneg; lia).
  assert (HsQ : 0 < inject_Z s) by (rewrite (Zlt_Qlt 0 s) in Hs; exact Hs).
  assert (Hr : (round (x * inject_Z s) <= round (y * inject_Z s))%Z)
    by (apply round_monotone; nra).
  rewrite Zle_Qle in Hr.
  apply Qle_shift_div_l; [exact HsQ |].
  assert (E : inject_Z (round (x * inject_Z s)) / inject_Z s * inject_Z s
              == inject_Z (round (x * inject_Z s))) by (field; lra).
  rewrite E. exact Hr.
Qed.
End Rounding.

(* ------------------------------------------------------------------ *)
(** ** The live player projection *)
(* ------------------------------------------------------------------ *)

(** X1.  Every multiplier of the second-half projection stays in a fixed
    band around 1: plus/minus in [0.85, 1.15], opponent defence in
    [0.90, 1.10], shot volume in [0.90, 1.15], shooting efficiency in
    [0.90, 1.12], fatigue in [0.92, 1.02]. *)
Theorem projection_multipliers_bounded :
  (forall plus_minus minutes,
      Spec.within 0.85 1.15
        (HalftimeEngine._calculate_plus_minus_factor plus_minus minutes))
  /\ (forall opponent_def_rank prop_type,
         Spec.within 0.90 1.10
           (HalftimeEngine._get_opponent_def_adjustment opponent_def_rank
                                                        prop_type))
  /\ (forall fg_attempted ft_attempted minutes prop_type,
         Spec.within 0.90 1.15
           (HalftimeEngine._calculate_shot_volume_factor
              fg_attempted ft_attempted minutes prop_type))
  /\ (forall shooting prop_type,
         Spec.within 0.90 1.12
           (HalftimeEngine._get_shooting_efficiency_factor shooting prop_type))
  /\ (forall is_back_to_back rest_days,
         Spec.within 0.92 1.02
           (HalftimeEngine._get_fatigue_factor is_back_to_back rest_days)).
Proof.
  split; [| split; [| split; [| split]]].
  - intros plus_minus minutes.
    unfold HalftimeEngine._calculate_plus_minus_factor.
    destruct (Py.Qleb minutes 0); [split; discriminate |].
    apply max_min_within. discriminate.
  - intros r p. unfold HalftimeEngine._get_opponent_def_adjustment.
    repeat match goal with
      | |- context [(?a <=? ?b)%Z] => destruct (a <=? b)%Z
      end; split; discriminate.
  - intros fga fta m p. unfold HalftimeEngine._calculate_shot_volume_factor.
    repeat match goal with
      | |- context [if ?c then _ else _] => destruct c
      end; split; discriminate.
  - intros s p. unfold HalftimeEngine._get_shooting_efficiency_factor.
    repeat match goal with
      | |- context [if ?c then _ else _] => destruct c
      end; split; discriminate.
  - intros b r. unfold HalftimeEngine._get_fatigue_factor.
    repeat match goal with
      | |- context [if ?c then _ else _] => destruct c
      end; split; discriminate.
Qed.

(** X2.  The opponent-defence multiplier never decreases when the
    opponent's defensive rank gets worse (a larger rank number). *)
Theorem opponent_def_adjustment_monotone rank1 rank2 prop_type :
  (rank1 <= rank2)%Z ->
  HalftimeEngine._get_opponent_def_adjustment rank1 prop_type
  <= HalftimeEngine._get_opponent_def_adjustment rank2 prop_type.
Proof.
  intros Hle. unfold HalftimeEngine._get_opponent_def_adjustment.
  repeat match goal with
    | |- context [(?a <=? ?b)%Z] =>
        let H := fresh "H" in
        destruct (a <=? b)%Z eqn:H;
        [apply Z.leb_le in H | apply Z.leb_gt in H]
    end; try lia; discriminate.
Qed.

Lemma opponent_def_adjustment_monotone_witness :
  (3 <= 27)%Z
  /\ HalftimeEngine._get_opponent_def_adjustment 3 "points"
     <= HalftimeEngine._get_opponent_def_adjustment 27 "points".
Proof.
  assert (H : (3 <= 27)%Z) by lia.
  split; [exact H |].
  exact (opponent_def_adjustment_monotone 3 27 "points" H).
Defined.

(** The keys of a dictionary filled with the ten components, in the
    order in which [_calculate_second_half_projection] files them. *)
Lemma ten_component_keys (trend shooting volume defense situation historical
                          pace plus_minus utilization fatigue : Q) :
  dom (<["fatigue_factor" := fatigue]>
         (<["utilization_rate" := utilization]>
            (<["plus_minus_factor" := plus_minus]>
               (<["pace_adjustment" := pace]>
                  (<["historical_2h_avg" := historical]>
                     (<["score_situation" := situation]>
                        (<["opponent_defense" := defense]>
                           (<["shot_volume" := volume]>
                              (<["shooting_efficiency" := shooting]>
                                 (<["first_half_trend" := trend]>
                                    (∅ : gmap string Q)))))))))))
  = list_to_set (map fst HalftimeEngine.PROJECTION_WEIGHTS).
Proof.
  apply set_eq. intros key. rewrite !dom_insert, dom_empty.
  unfold HalftimeEngine.PROJECTION_WEIGHTS. cbn [map fst list_to_set].
  set_unfold. tauto.
Qed.

(** X3.  The second-half projection of a player who has played is never
    negative and is explained by exactly the ten components of the weight
    table; for a player without first-half minutes it is the historical
    second-half average when there is one, else 0, with no component at
    all. *)
Theorem second_half_projection_shape
    first_half_value first_half_minutes projected_minutes pace_factor
    utilization_rate fatigue_factor historical_2h_avg blowout_warning
    shooting_metrics plus_minus opponent_def_rank prop_type fg_attempted
    ft_attempted score_differential :
  let out :=
    HalftimeEngine._calculate_second_half_projection
      first_half_value first_half_minutes projected_minutes pace_factor
      utilization_rate fatigue_factor historical_2h_avg blowout_warning
      shooting_metrics plus_minus opponent_def_rank prop_type fg_attempted
      ft_attempted score_differential in
  (0 < first_half_minutes ->
   0 <= fst out
   /\ dom (snd out) = list_to_set (map fst HalftimeEngine.PROJECTION_WEIGHTS))
  /\ (first_half_minutes <= 0 ->
      snd out = ∅
      /\ fst out == (if HalftimeEngine.truthy_float historical_2h_avg
                     then default 0 historical_2h_avg else 0)).
Proof.
  intros out. subst out.
  unfold HalftimeEngine._calculate_second_half_projection. split.
  - intros Hpos. apply Qleb_gt in Hpos. rewrite Hpos. cbv zeta. cbn [fst snd].
    split; [apply Q.le_max_l |].
    destruct blowout_warning;
      [| destruct (Z.abs score_differential <=? 5)%Z;
         [| destruct (Z.abs score_differential <=? 10)%Z]];
      destruct (HalftimeEngine.truthy_float historical_2h_avg);
      apply ten_component_keys.
  - intros Hle. apply Qleb_le in Hle. rewrite Hle. cbn [fst snd].
    split; reflexivity.
Qed.

Lemma second_half_projection_shape_witness :
  let out :=
    HalftimeEngine._calculate_second_half_projection
      14 18 18 1 20 1 None false
      (HalftimeEngine._calculate_shooting_metrics Examples.home_starter)
      12 15 "points" 10 2 20 in
  0 <= fst out
  /\ dom (snd out) = list_to_set (map fst HalftimeEngine.PROJECTION_WEIGHTS).
Proof.
  apply (second_half_projection_shape
           14 18 18 1 20 1 None false
           (HalftimeEngine._calculate_shooting_metrics Examples.home_starter)
           12 15 "points" 10 2 20).
  reflexivity.
Defined.

Section Utilization.
Import Py HalftimeEngine.

Lemma team_possessions_sum team :
  sum (map Spec.player_possessions team) == Spec.team_possessions team.
Proof.
  unfold Spec.team_possessions. induction team as [| p rest IH]; [reflexivity |].
  cbn [map sum sumZ fold_right]. fold (sum (map Spec.player_possessions rest)).
  fold (sumZ (map LivePlayerStats.fg_attempted rest)).
  fold (sumZ (map LivePlayerStats.ft_attempted rest)).
  fold (sumZ (map LivePlayerStats.turnovers rest)).
  rewrite IH, !inject_Z_plus. unfold Spec.player_possessions. ring.
Qed.

Lemma utilization_rate_value p team :
  ~ Spec.team_possessions team == 0 ->
  _calculate_utilization_rate p team
  == Spec.player_possessions p / Spec.team_possessions team * 100.
Proof.
  intros Hnz. unfold _calculate_utilization_rate.
  destruct team as [| q rest]; [exfalso; apply Hnz; reflexivity |].
  fold (Spec.team_possessions (q :: rest)).
  destruct (Qeq_bool (Spec.team_possessions (q :: rest)) 0) eqn:E.
  - apply Qeq_bool_iff in E. contradiction.
  - reflexivity.
Qed.

Lemma player_possessions_nonneg p :
  Spec.counted_usage p -> 0 <= Spec.player_possessions p.
Proof.
  intros (Hfga & Hfta & Htov). unfold Spec.player_possessions.
  assert (0 <= inject_Z (LivePlayerStats.fg_attempted p))
    by (change 0 with (inject_Z 0); rewrite <- Zle_Qle; exact Hfga).
  assert (0 <= inject_Z (LivePlayerStats.ft_attempted p))
    by (change 0 with (inject_Z 0); rewrite <- Zle_Qle; exact Hfta).
  assert (0 <= inject_Z (LivePlayerStats.turnovers p))
    by (change 0 with (inject_Z 0); rewrite <- Zle_Qle; exact Htov).
  lra.
Qed.

Lemma player_le_team p team :
  In p team -> Forall Spec.counted_usage team ->
  Spec.player_possessions p <= Spec.team_possessions team.
Proof.
  intros Hin Hall. rewrite <- team_possessions_sum.
  induction Hall as [| q rest Hq Hrest IH]; [destruct Hin |].
  cbn [map sum fold_right]. fold (sum (map Spec.player_possessions rest)).
  assert (0 <= sum (map Spec.player_possessions rest)).
  { clear IH Hin. induction Hrest as [| r rest' Hr _ IH']; [apply Qle_refl |].
    cbn [map sum fold_right]. fold (sum (map Spec.player_possessions rest')).
    pose proof (player_possessions_nonneg r Hr). lra. }
  pose proof (player_possessions_nonneg q Hq).
  destruct Hin as [-> | Hin]; [lra |]. specialize (IH Hin). lra.
Qed.
End Utilization.

(** X4.  The utilization rate of a player of the team is a percentage: with
    attempt and turnover counts that are not negative it lies in [0, 100];
    and it is 0 when the team has used no possession. *)
Theorem utilization_rate_within stats team :
  In stats team ->
  Forall Spec.counted_usage team ->
  Spec.within 0 100 (HalftimeEngine._calculate_utilization_rate stats team)
  /\ (Spec.team_possessions team == 0 ->
      HalftimeEngine._calculate_utilization_rate stats team == 0).
Proof.
  intros Hin Hall.
  pose proof (player_le_team _ _ Hin Hall) as Hle.
  pose proof (player_possessions_nonneg stats
                (proj1 (List.Forall_forall _ _) Hall _ Hin)) as Hp.
  unfold HalftimeEngine._calculate_utilization_rate.
  destruct team as [| q rest]; [destruct Hin |].
  fold (Spec.team_possessions (q :: rest)). fold (Spec.player_possessions stats).
  destruct (Qeq_bool (Spec.team_possessions (q :: rest)) 0) eqn:E.
  - split; [| reflexivity]. split; [apply Qle_refl | discriminate].
  - apply Qeq_bool_neq in E. split; [| contradiction].
    set (t := Spec.team_possessions (q :: rest)) in *.
    set (u := Spec.player_possessions stats) in *.
    assert (Ht : 0 < t) by (apply Qle_lteq in Hle; lra).
    assert (H0 : 0 <= u / t) by (apply Qle_shift_div_l; lra).
    assert (H1 : u / t <= 1) by (apply Qle_shift_div_r; lra).
    split; lra.
Qed.

Lemma utilization_rate_within_witness :
  Spec.within 0 100
    (HalftimeEngine._calculate_utilization_rate Examples.home_starter
       [Examples.home_starter; Examples.home_starter])
  /\ (Spec.team_possessions [Examples.home_starter; Examples.home_starter] == 0 ->
      HalftimeEngine._calculate_utilization_rate Examples.home_starter
        [Examples.home_starter; Examples.home_starter] == 0).
Proof.
  apply (utilization_rate_within Examples.home_starter
           [Examples.home_starter; Examples.home_starter]).
  - left. reflexivity.
  - repeat (apply List.Forall_cons;
            [repeat split; vm_compute; discriminate |]).
    apply List.Forall_nil.
Defined.

(* ------------------------------------------------------------------ *)
(** ** The prop analyzer *)
(* ------------------------------------------------------------------ *)

(** A call on concrete inputs that is assumed to raise, [H : call = Raise e],
    is refuted by running it. *)
Ltac returns_normally H :=
  match type of H with
  | ?call = Py.Raise _ =>
      let Hok := fresh "Hok" in
      assert (Hok : Py.is_ok call = true) by (vm_compute; reflexivity);
      rewrite H in Hok; discriminate Hok
  end.

(** The sample history of [Examples] holds a number in every record. *)
Ltac numeric_history :=
  unfold Examples.ten_games; simpl replicate;
  repeat constructor; intros ?; vm_compute; discriminate.

Section HitRateBounds.
Import Py AnalysisEngine.

Lemma satisfies_direction_non_null over_under line v :
  Spec.satisfies_direction over_under line v -> Spec.non_null v.
Proof. destruct v; simpl; [tauto | discriminate | tauto]. Qed.

Lemma filter_length_le {A} (P R : A -> Prop) `{!forall x, Decision (P x)}
    `{!forall x, Decision (R x)} (l : list A) :
  (forall x, P x -> R x) ->
  (length (filter P l) <= length (filter R l))%nat.
Proof.
  intros HPR. induction l as [| x rest IH]; [reflexivity |].
  rewrite !filter_cons.
  destruct (decide (P x)) as [HP | HP];
    destruct (decide (R x)) as [HR | HR]; cbn [length]; try lia.
  exfalso. apply HR, HPR, HP.
Qed.

(** Hits for "over" and hits for "under" are disjoint among the valid
    games. *)
Lemma over_under_hits_le_valid line (values : list pyval) :
  (length (filter (Spec.satisfies_direction "over" line) values)
   + length (filter (Spec.satisfies_direction "under" line) values)
   <= length (filter Spec.non_null values))%nat.
Proof.
  induction values as [| v rest IH]; [reflexivity |].
  rewrite !filter_cons.
  destruct (decide (Spec.satisfies_direction "over" line v)) as [Ho | Ho];
    destruct (decide (Spec.satisfies_direction "under" line v)) as [Hu | Hu];
    destruct (decide (Spec.non_null v)) as [Hn | Hn]; cbn [length]; try lia.
  - destruct v as [| x |]; simpl in Ho, Hu; try tauto.
    destruct Ho as [[_ Ho] | [Ho _]]; [| discriminate].
    destruct Hu as [[Hu _] | [_ Hu]]; [discriminate |]. lra.
  - exfalso. apply Hn. eapply satisfies_direction_non_null. exact Ho.
  - exfalso. apply Hn. eapply satisfies_direction_non_null. exact Ho.
  - exfalso. apply Hn. eapply satisfies_direction_non_null. exact Hu.
Qed.

Lemma ratio_within (h v : Z) :
  (0 <= h <= v)%Z -> (0 < v)%Z ->
  Spec.within 0 100 (inject_Z h / inject_Z v * 100).
Proof.
  intros [Hh Hhv] Hv.
  assert (HvQ : 0 < inject_Z v) by (rewrite (Zlt_Qlt 0 v) in Hv; exact Hv).
  assert (HhQ : 0 <= inject_Z h) by (rewrite (Zle_Qle 0 h) in Hh; exact Hh).
  assert (HhvQ : inject_Z h <= inject_Z v) by (rewrite <- Zle_Qle; exact Hhv).
  assert (H0 : 0 <= inject_Z h / inject_Z v).
  { apply Qle_shift_div_l; [exact HvQ | lra]. }
  assert (H1 : inject_Z h / inject_Z v <= 1).
  { apply Qle_shift_div_r; [exact HvQ | lra]. }
  split; lra.
Qed.

(** The value computed from the two counters. *)
Lemma calculate_hit_rate_counts games prop :
  Spec.numeric_stats (stat_key_of (PropBetData.stat_type prop)) games ->
  let values :=
    map (Spec.stat_value (stat_key_of (PropBetData.stat_type prop))) games in
  let hits :=
    Z.of_nat (length (filter (Spec.satisfies_direction
                                (PropBetData.over_under prop)
                                (PropBetData.line prop)) values)) in
  let valid := Z.of_nat (length (filter Spec.non_null values)) in
  _calculate_hit_rate games prop
  = Ok (if (valid >? 0)%Z then inject_Z hits / inject_Z valid * 100 else 0).
Proof.
  intros Hnum. unfold _calculate_hit_rate.
  rewrite (hit_rate_loop_counts _ _ _ _ _ _ Hnum).
  cbn [mbind result_bind bind mret result_ret]. rewrite !Z.add_0_l. reflexivity.
Qed.
End HitRateBounds.

(** X5.  The hit rate is a percentage: it lies in [0, 100]. *)
Theorem calculate_hit_rate_within games prop :
  Spec.numeric_stats
    (AnalysisEngine.stat_key_of (AnalysisEngine.PropBetData.stat_type prop))
    games ->
  exists rate,
    AnalysisEngine._calculate_hit_rate games prop = Py.Ok rate
    /\ Spec.within 0 100 rate.
Proof.
  intros Hnum. rewrite (calculate_hit_rate_counts games prop Hnum).
  eexists. split; [reflexivity |].
  destruct (Z.of_nat _ >? 0)%Z eqn:Hv; [| split; discriminate].
  apply ratio_within; [| lia]. split; [lia |].
  apply inj_le, filter_length_le. intros v. apply satisfies_direction_non_null.
Qed.

Lemma calculate_hit_rate_within_witness :
  exists rate,
    AnalysisEngine._calculate_hit_rate Examples.ten_games
                                       Examples.over_15_points = Py.Ok rate
    /\ Spec.within 0 100 rate.
Proof.
  apply calculate_hit_rate_within. numeric_history.
Defined.

(** X6.  The "over" and "under" hit rates of one history against one line add
    up to at most 100. *)
Theorem over_and_under_hit_rates games prop_over prop_under :
  AnalysisEngine.PropBetData.stat_type prop_over
  = AnalysisEngine.PropBetData.stat_type prop_under ->
  AnalysisEngine.PropBetData.line prop_over
  = AnalysisEngine.PropBetData.line prop_under ->
  AnalysisEngine.PropBetData.over_under prop_over = "over" ->
  AnalysisEngine.PropBetData.over_under prop_under = "under" ->
  Spec.numeric_stats
    (AnalysisEngine.stat_key_of
       (AnalysisEngine.PropBetData.stat_type prop_over)) games ->
  exists rate_over rate_under,
    AnalysisEngine._calculate_hit_rate games prop_over = Py.Ok rate_over
    /\ AnalysisEngine._calculate_hit_rate games prop_under = Py.Ok rate_under
    /\ rate_over + rate_under <= 100.
Proof.
  intros Hst Hline Hover Hunder Hnum.
  rewrite (calculate_hit_rate_counts games prop_over Hnum).
  rewrite Hst in Hnum.
  rewrite (calculate_hit_rate_counts games prop_under Hnum).
  rewrite Hover, Hunder, Hline, Hst. cbv zeta.
  set (values := map _ games).
  pose proof (over_under_hits_le_valid
                (AnalysisEngine.PropBetData.line prop_under) values) as Hsum.
  do 2 eexists. split; [reflexivity |]. split; [reflexivity |].
  destruct (Z.of_nat (length (filter Spec.non_null values)) >? 0)%Z eqn:Hv;
    [| discriminate].
  set (ho := length (filter (Spec.satisfies_direction "over" _) values)) in *.
  set (hu := length (filter (Spec.satisfies_direction "under" _) values)) in *.
  set (n := length (filter Spec.non_null values)) in *.
  assert (Hn : 0 < inject_Z (Z.of_nat n)).
  { rewrite <- (Zlt_Qlt 0). lia. }
  assert (Hq : inject_Z (Z.of_nat ho) + inject_Z (Z.of_nat hu)
               <= inject_Z (Z.of_nat n)).
  { rewrite <- inject_Z_plus, <- Zle_Qle. lia. }
  assert (Hdiv : (inject_Z (Z.of_nat ho) + inject_Z (Z.of_nat hu))
                 / inject_Z (Z.of_nat n) <= 1).
  { apply Qle_shift_div_r; [exact Hn | lra]. }
  assert (Heq : inject_Z (Z.of_nat ho) / inject_Z (Z.of_nat n) * 100
                + inject_Z (Z.of_nat hu) / inject_Z (Z.of_nat n) * 100
                == (inject_Z (Z.of_nat ho) + inject_Z (Z.of_nat hu))
                   / inject_Z (Z.of_nat n) * 100).
  { field. lra. }
  rewrite Heq. lra.
Qed.

Lemma over_and_under_hit_rates_witness :
  exists rate_over rate_under,
    AnalysisEngine._calculate_hit_rate Examples.ten_games
                                       Examples.over_15_points
    = Py.Ok rate_over
    /\ AnalysisEngine._calculate_hit_rate Examples.ten_games
                                          Examples.under_15_points
       = Py.Ok rate_under
    /\ rate_over + rate_under <= 100.
Proof.
  apply over_and_under_hit_rates; try reflexivity. numeric_history.
Defined.

(** One string among the values of the stat is enough to stop the loop,
    whatever has been counted so far. *)
Lemma hit_rate_loop_string_raises games key over_under line hits valid :
  over_under = "over" \/ over_under = "under" ->
  (exists g s, In g games /\ Spec.stat_value key g = Py.PStr s) ->
  AnalysisEngine.hit_rate_loop games key over_under line hits valid
  = Py.Raise Py.TypeError.
Proof.
  intros Hdir (g & s & Hin & Hs). revert hits valid.
  induction games as [| g0 rest IH]; [destruct Hin |].
  intros hits valid. cbn [AnalysisEngine.hit_rate_loop].
  unfold AnalysisEngine.get0. fold (Spec.stat_value key g0).
  destruct Hin as [-> | Hin].
  - rewrite Hs. destruct Hdir as [-> | ->]; reflexivity.
  - destruct (Spec.stat_value key g0) as [| v | s0].
    + apply IH, Hin.
    + repeat match goal with
        | |- context [if ?c then _ else _] => destruct c
        end; apply IH, Hin.
    + destruct Hdir as [-> | ->]; reflexivity.
Qed.

(** X7.  A string where a number is expected makes the hit-rate computation
    raise TypeError, wherever the game sits in the history. *)
Theorem calculate_hit_rate_type_error games prop :
  (AnalysisEngine.PropBetData.over_under prop = "over"
   \/ AnalysisEngine.PropBetData.over_under prop = "under") ->
  (exists g s,
      In g games
      /\ Spec.stat_value
           (AnalysisEngine.stat_key_of (AnalysisEngine.PropBetData.stat_type prop))
           g = Py.PStr s) ->
  AnalysisEngine._calculate_hit_rate games prop = Py.Raise Py.TypeError.
Proof.
  intros Hdir Hstring. unfold AnalysisEngine._calculate_hit_rate.
  rewrite (hit_rate_loop_string_raises _ _ _ _ 0%Z 0%Z Hdir Hstring).
  reflexivity.
Qed.

Lemma calculate_hit_rate_type_error_witness :
  AnalysisEngine._calculate_hit_rate
    [Examples.twenty_point_game; Examples.text_points_game]
    Examples.over_15_points
  = Py.Raise Py.TypeError.
Proof.
  apply calculate_hit_rate_type_error.
  - left. reflexivity.
  - exists Examples.text_points_game, "20".
    split; [right; left; reflexivity | reflexivity].
Defined.

Section Averages.
Import Py AnalysisEngine.

Lemma sum_within lo hi (l : list Q) :
  Forall (Spec.within lo hi) l ->
  lo * inject_Z (len l) <= sum l /\ sum l <= hi * inject_Z (len l).
Proof.
  unfold len. induction 1 as [| x rest [Hlo Hhi] _ [IHlo IHhi]].
  - cbn [sum fold_right length]. change (inject_Z (Z.of_nat 0)) with 0.
    split; lra.
  - cbn [sum fold_right length]. fold (sum rest).
    rewrite Nat2Z.inj_succ, <- Z.add_1_r, inject_Z_plus.
    change (inject_Z 1) with 1. split; lra.
Qed.

(** The mean of a non-empty list lies between its bounds. *)
Lemma np_mean_within lo hi (l : list Q) :
  l <> [] -> Forall (Spec.within lo hi) l -> Spec.within lo hi (np_mean l).
Proof.
  intros Hne Hall. destruct (sum_within lo hi l Hall) as [Hlo Hhi].
  assert (Hn : 0 < inject_Z (len l)).
  { unfold len. rewrite <- (Zlt_Qlt 0). destruct l; [congruence | cbn; lia]. }
  unfold np_mean. split.
  - apply Qle_shift_div_l; [exact Hn | exact Hlo].
  - apply Qle_shift_div_r; [exact Hn | exact Hhi].
Qed.

Lemma square_nonneg (y : Q) : 0 <= y * y.
Proof. destruct y as [n d]. unfold Qle. simpl. nia. Qed.

(** The variance is never negative. *)
Lemma np_var_nonneg (l : list Q) : l <> [] -> 0 <= np_var l.
Proof.
  intros Hne. unfold np_var.
  set (sq := map _ l).
  assert (Hsum : 0 <= sum sq).
  { unfold sq. generalize (np_mean l) as m. intros m. clear.
    induction l as [| x rest IH]; cbn [map sum fold_right]; [lra |].
    fold (sum (map (fun x => (x - m) * (x - m)) rest)).
    pose proof (square_nonneg (x - m)). lra. }
  assert (Hn : 0 < inject_Z (len sq)).
  { unfold len, sq. rewrite length_map, <- (Zlt_Qlt 0).
    destruct l; [congruence | cbn; lia]. }
  unfold np_mean. apply Qle_shift_div_l; [exact Hn | lra].
Qed.

(** The numbers behind a list of values without nulls and strings. *)
Lemma as_numbers_within lo hi (vals : list pyval) :
  Forall (fun v => exists q, v = PNum q /\ Spec.within lo hi q) vals ->
  exists qs,
    as_numbers vals = Ok qs
    /\ length qs = length vals
    /\ Forall (Spec.within lo hi) qs.
Proof.
  induction 1 as [| v rest (q & -> & Hq) _ (qs & Hqs & Hlen & Hall)].
  - exists []. repeat split. constructor.
  - exists (q :: qs). cbn [as_numbers]. rewrite Hqs.
    repeat split; [cbn; congruence | constructor; assumption].
Qed.
End Averages.

(** X8.  The average of a history of numbers and nulls: 0 when every value is
    null, otherwise a number between the smallest and the largest non-null
    value. *)
Theorem calculate_average_stat_within games stat_key lo hi :
  Spec.numeric_stats stat_key games ->
  (forall g v, In g games -> Spec.stat_value stat_key g = Py.PNum v ->
               Spec.within lo hi v) ->
  ((forall g, In g games -> Spec.stat_value stat_key g = Py.PNone) ->
   AnalysisEngine._calculate_average_stat games stat_key = Py.Ok 0)
  /\ ((exists g, In g games /\ Spec.stat_value stat_key g <> Py.PNone) ->
      exists average,
        AnalysisEngine._calculate_average_stat games stat_key = Py.Ok average
        /\ Spec.within lo hi average).
Proof.
  intros Hnum Hrange. unfold AnalysisEngine._calculate_average_stat.
  change (fun g => AnalysisEngine.get0 g stat_key)
    with (Spec.stat_value stat_key).
  set (values := List.filter AnalysisEngine.is_not_none
                             (map (Spec.stat_value stat_key) games)).
  assert (Hvals : Forall (fun v => exists q, v = Py.PNum q /\ Spec.within lo hi q)
                         values).
  { unfold values. apply List.Forall_forall. intros v Hv.
    apply List.filter_In in Hv as [Hv Hnn].
    apply List.in_map_iff in Hv as (g & <- & Hg).
    destruct (Spec.stat_value stat_key g) as [| q | s] eqn:E.
    - discriminate Hnn.
    - exists q. split; [reflexivity | exact (Hrange g q Hg E)].
    - exfalso. unfold Spec.numeric_stats in Hnum.
      rewrite List.Forall_forall in Hnum. apply (Hnum g Hg s). exact E. }
  split.
  - intros Hnull.
    assert (Hempty : values = []).
    { unfold values. destruct (List.filter _ _) as [| v rest] eqn:E;
        [reflexivity |].
      assert (Hin : In v (v :: rest)) by (left; reflexivity).
      rewrite <- E in Hin. apply List.filter_In in Hin as [Hin Hnn].
      apply List.in_map_iff in Hin as (g & <- & Hg).
      rewrite (Hnull g Hg) in Hnn. discriminate Hnn. }
    rewrite Hempty. reflexivity.
  - intros (g & Hg & Hnn).
    assert (Hne : values <> []).
    { intros Hempty.
      assert (Hin : In (Spec.stat_value stat_key g) values).
      { unfold values. apply List.filter_In. split.
        - apply List.in_map. exact Hg.
        - destruct (Spec.stat_value stat_key g); [congruence | |]; reflexivity. }
      rewrite Hempty in Hin. destruct Hin. }
    destruct (as_numbers_within lo hi values Hvals)
      as (qs & Hqs & Hlen & Hall).
    rewrite Hqs. destruct values as [| v rest]; [congruence |].
    cbn [mbind result_bind Py.bind mret result_ret].
    eexists. split; [reflexivity |].
    apply np_mean_within; [| exact Hall].
    destruct qs; [discriminate Hlen | discriminate].
Qed.

Lemma calculate_average_stat_within_witness :
  exists average,
    AnalysisEngine._calculate_average_stat Examples.ten_games "pts"
    = Py.Ok average
    /\ Spec.within 0 100 average.
Proof.
  assert (H1 : Spec.numeric_stats "pts" Examples.ten_games)
    by numeric_history.
  assert (H2 : forall g v,
             In g Examples.ten_games ->
             Spec.stat_value "pts" g = Py.PNum v -> Spec.within 0 100 v).
  { intros g v Hin Hv. unfold Examples.ten_games in Hin.
    cbn [replicate In] in Hin.
    repeat (destruct Hin as [<- | Hin]); try contradiction;
      vm_compute in Hv; injection Hv as <-; split; discriminate. }
  apply (proj2 (calculate_average_stat_within
                  Examples.ten_games "pts" 0 100 H1 H2)).
  exists Examples.twenty_point_game.
  split; [left; reflexivity | discriminate].
Defined.

Section Confidence.
Import Py AnalysisEngine.


End Confidence.





Section Factors.
Import Py AnalysisEngine.

Lemma factors_in_range_empty : Spec.factors_in_range ∅.
Proof.
  unfold Spec.factors_in_range.
  split; [| split; [| split]];
    try (intros v Hv; rewrite lookup_empty in Hv; discriminate).
  rewrite dom_empty. apply empty_subseteq.
Qed.

Lemma factors_in_range_insert key value (factors : gmap string Q) :
  Spec.factors_in_range factors ->
  key ∈ Spec.factor_names ->
  (key = "recent_trend" -> Spec.within (-1) 1 value) ->
  (key = "consistency" -> Spec.within 0 1 value) ->
  (key = "playing_time" -> value <= 1) ->
  Spec.factors_in_range (<[key := value]> factors).
Proof.
  intros (Ht & Hc & Hp & Hd) Hkey Kt Kc Kp. unfold Spec.factors_in_range.
  split; [| split; [| split]].
  - intros v Hv. apply lookup_insert_Some in Hv as [[-> <-] | [_ Hv]].
    + apply Kt. reflexivity.
    + apply Ht, Hv.
  - intros v Hv. apply lookup_insert_Some in Hv as [[-> <-] | [_ Hv]].
    + apply Kc. reflexivity.
    + apply Hc, Hv.
  - intros v Hv. apply lookup_insert_Some in Hv as [[-> <-] | [_ Hv]].
    + apply Kp. reflexivity.
    + apply Hp, Hv.
  - rewrite dom_insert. apply union_subseteq. split; [| exact Hd].
    apply singleton_subseteq_l. exact Hkey.
Qed.

Lemma as_numbers_nonempty vals qs :
  as_numbers vals = Ok qs -> vals <> [] -> qs <> [].
Proof.
  destruct vals as [| v rest]; [congruence |]. intros H _.
  destruct v; cbn in H; try discriminate.
  destruct (as_numbers rest); cbn in H; [| discriminate].
  injection H as <-. discriminate.
Qed.
End Factors.

(** X11.  For a history whose minutes are written as documented ("MM:SS"
    or a number of minutes), the factors that the prop analyzer hands to
    its confidence are in range: the trend in [-1, 1], the consistency in
    [0, 1], the playing time at most 1, home/away and rest always present
    and neutral (0), and no factor under another name.  (Minutes written
    as the word nan are read by [float] as NaN, and so is the playing
    time then; the condition on the minutes leaves such text out.) *)
Theorem analyze_factors_ranges np_polyfit_slope games prop stat_key factors :
  (forall g v, In g games -> g !! "min" = Some v ->
               Spec.documented_minutes v = true) ->
  AnalysisEngine._analyze_factors np_polyfit_slope games prop stat_key
  = Py.Ok factors ->
  factors !! "home_away" = Some 0
  /\ factors !! "rest" = Some 0
  /\ Spec.factors_in_range factors.
Proof.
  intros _. unfold AnalysisEngine._analyze_factors.
  (* Recent trend *)
  match goal with
  | |- mbind _ ?stage = _ -> _ =>
      assert (H1 : forall f, stage = Py.Ok f -> Spec.factors_in_range f);
      [| destruct stage as [f1 | e]; [specialize (H1 f1 eq_refl) | discriminate]]
  end.
  { intros f. destruct (Py.len games >=? 5)%Z;
      [| intros [= <-]; apply factors_in_range_empty].
    destruct (map _ _) as [| v rest];
      [intros [= <-]; apply factors_in_range_empty |].
    destruct (AnalysisEngine.as_numbers _) as [ys | e]; [| discriminate].
    cbn [mbind result_bind Py.bind].
    destruct (np_polyfit_slope ys) as [trend | e]; [| discriminate].
    cbn [mbind result_bind Py.bind mret result_ret]. intros [= <-].
    apply factors_in_range_insert; try discriminate.
    - apply factors_in_range_empty.
    - unfold Spec.factor_names. set_unfold. tauto.
    - intros _. apply np_clip_within. discriminate. }
  cbn [mbind result_bind Py.bind].
  (* Consistency *)
  match goal with
  | |- mbind _ ?stage = _ -> _ =>
      assert (H2 : forall f, stage = Py.Ok f -> Spec.factors_in_range f);
      [| destruct stage as [f2 | e]; [specialize (H2 f2 eq_refl) | discriminate]]
  end.
  { intros f. destruct (map _ _) as [| v rest] eqn:Estats;
      [intros [= <-]; exact H1 |].
    destruct (AnalysisEngine.as_numbers _) as [ys | e] eqn:Eys; [| discriminate].
    cbn [mbind result_bind Py.bind mret result_ret]. intros [= <-].
    apply factors_in_range_insert; try discriminate.
    - exact H1.
    - unfold Spec.factor_names. set_unfold. tauto.
    - intros _.
      assert (Hne : ys <> []).
      { apply (as_numbers_nonempty _ _ Eys). discriminate. }
      pose proof (np_var_nonneg ys Hne) as Hvar.
      unfold Py.min.
      pose proof (Q.le_min_r (Py.np_var ys / 50) 1) as Hr.
      assert (Hl : 0 <= Qmin (Py.np_var ys / 50) 1).
      { apply Q.min_glb; [| lra]. apply Qle_shift_div_l; lra. }
      split; lra. }
  cbn [mbind result_bind Py.bind mret result_ret].
  (* Home/away, rest and minutes *)
  intros [= <-].
  assert (H3 : Spec.factors_in_range (<["rest" := 0]> (<["home_away" := 0]> f2))).
  { apply factors_in_range_insert; try discriminate;
      [| unfold Spec.factor_names; set_unfold; tauto].
    apply factors_in_range_insert; try discriminate;
      [exact H2 | unfold Spec.factor_names; set_unfold; tauto]. }
  set (base := <["rest" := 0]> (<["home_away" := 0]> f2)) in *.
  assert (Hbase : base !! "home_away" = Some 0 /\ base !! "rest" = Some 0).
  { unfold base. split.
    - rewrite lookup_insert_ne by discriminate. apply lookup_insert_eq.
    - apply lookup_insert_eq. }
  assert (Hplay : forall v, v <= 1 ->
             (<["playing_time" := v]> base) !! "home_away" = Some 0
             /\ (<["playing_time" := v]> base) !! "rest" = Some 0
             /\ Spec.factors_in_range (<["playing_time" := v]> base)).
  { intros v Hv. destruct Hbase as [Ha Hr].
    rewrite !lookup_insert_ne by discriminate.
    split; [exact Ha | split; [exact Hr |]].
    apply factors_in_range_insert; try discriminate;
      [exact H3 | unfold Spec.factor_names; set_unfold; tauto |].
    intros _. exact Hv. }
  destruct (map _ (List.filter _ games)) as [| m rest];
    [destruct Hbase; split; [| split]; assumption |].
  destruct (AnalysisEngine.minutes_values _) as [min_values | e];
    cbn [mbind result_bind Py.bind mret result_ret Py.try_except].
  - destruct min_values as [| x xs];
      [destruct Hbase; split; [| split]; assumption |].
    apply Hplay. unfold Py.min. apply Q.le_min_r.
  - apply Hplay. discriminate.
Qed.

Lemma analyze_factors_ranges_witness :
  exists factors,
    AnalysisEngine._analyze_factors Examples.flat_trend
      [Examples.clock_minutes_game; Examples.decimal_minutes_game]
      Examples.over_15_points "pts" = Py.Ok factors
    /\ factors !! "home_away" = Some 0
    /\ factors !! "rest" = Some 0
    /\ Spec.factors_in_range factors.
Proof.
  assert (Hmin : forall g v,
             In g [Examples.clock_minutes_game; Examples.decimal_minutes_game] ->
             g !! "min" = Some v -> Spec.documented_minutes v = true).
  { intros g v [<- | [<- | []]] Hv; vm_compute in Hv;
      injection Hv as <-; reflexivity. }
  destruct (AnalysisEngine._analyze_factors Examples.flat_trend
              [Examples.clock_minutes_game; Examples.decimal_minutes_game]
              Examples.over_15_points "pts")
    as [factors | e] eqn:H.
  - exists factors. split; [reflexivity |].
    exact (analyze_factors_ranges _ _ _ _ _ Hmin H).
  - returns_normally H.
Defined.

Section UnparsableText.
Import Py.

(** The characters that [p] marks survive everything the readers drop or
    consume before they look at the end of the text. *)
Variable p : ascii -> bool.
Hypothesis p_space : forall c, is_space c = true -> p c = false.
Hypothesis p_digit : forall c d, digit_of c = Some d -> p c = false.
Hypothesis p_plus : p "+" = false.
Hypothesis p_minus : p "-" = false.
Hypothesis p_underscore : p "_" = false.

Lemma has_char_lstrip s :
  has_char p s = true -> has_char p (lstrip s) = true.
Proof.
  induction s as [| c rest IH]; [discriminate |].
  cbn [lstrip]. destruct (is_space c) eqn:Ec; [| trivial].
  cbn [has_char]. rewrite (p_space c Ec). exact IH.
Qed.

Lemma has_char_rstrip s :
  has_char p s = true -> has_char p (rstrip s) = true.
Proof.
  induction s as [| c rest IH]; [discriminate |].
  cbn [has_char rstrip]. destruct (p c) eqn:Ec.
  - intros _. assert (is_space c = false) as ->.
    { destruct (is_space c) eqn:E; [| reflexivity].
      rewrite (p_space c E) in Ec. discriminate Ec. }
    destruct (rstrip rest); cbn [has_char]; rewrite Ec; reflexivity.
  - cbn [orb]. intros H. specialize (IH H).
    destruct (rstrip rest); [discriminate IH |].
    cbn [has_char] in *. rewrite IH. apply orb_true_r.
Qed.

Lemma has_char_split_sign s :
  has_char p s = true -> has_char p (split_sign s).2 = true.
Proof.
  destruct s as [| c rest]; [discriminate |]. cbn [split_sign].
  destruct (Ascii.eqb c "-") eqn:E1.
  { apply Ascii.eqb_eq in E1 as ->. cbn [has_char]. rewrite p_minus. trivial. }
  destruct (Ascii.eqb c "+") eqn:E2; [| trivial].
  apply Ascii.eqb_eq in E2 as ->. cbn [has_char]. rewrite p_plus. trivial.
Qed.

Lemma has_char_digitpart s acc n :
  has_char p s = true -> has_char p (digitpart s acc n).2 = true.
Proof.
  revert acc n. induction s as [| c rest IH]; intros acc n; [discriminate |].
  cbn [digitpart]. destruct (digit_of c) as [d |] eqn:Ed.
  { cbn [has_char]. rewrite (p_digit c d Ed). apply IH. }
  destruct (Ascii.eqb c "_") eqn:Eu; [| trivial].
  destruct n as [| n]; [trivial |].
  destruct rest as [| c' rest']; [trivial |].
  destruct (digit_of c'); [| trivial].
  apply Ascii.eqb_eq in Eu as ->. intros H. apply IH.
  cbn [has_char] in H. rewrite p_underscore in H. exact H.
Qed.

(** [int] raises on a text that holds a marked character. *)
Lemma int_of_str_raises s :
  has_char p s = true -> is_ok (int_of_str s) = false.
Proof.
  intros H. unfold int_of_str, strip.
  apply has_char_lstrip, has_char_rstrip, has_char_split_sign in H.
  destruct (split_sign _) as [negative body]. cbn [snd] in H.
  apply (has_char_digitpart _ 0%Z 0%nat) in H.
  destruct (digitpart body 0 0) as [[v n] rest]. cbn [snd] in H.
  destruct n; [reflexivity |]. destruct rest; [discriminate H | reflexivity].
Qed.

Hypothesis p_point : p "." = false.
Hypothesis p_exponent : p "e" = false /\ p "E" = false.

Lemma has_char_fraction s :
  has_char p s = true -> has_char p (fraction s).2 = true.
Proof.
  destruct s as [| c rest]; [discriminate |]. cbn [fraction].
  destruct (Ascii.eqb c ".") eqn:Ec; [| trivial].
  apply Ascii.eqb_eq in Ec as ->. intros H. apply has_char_digitpart.
  cbn [has_char] in H. rewrite p_point in H. exact H.
Qed.

Lemma exponent_none s : has_char p s = true -> exponent s = None.
Proof.
  destruct s as [| c rest]; [discriminate |]. cbn [exponent]. intros H.
  destruct (Ascii.eqb c "e" || Ascii.eqb c "E")%bool eqn:Ec; [| reflexivity].
  assert (Hrest : has_char p rest = true).
  { cbn [has_char] in H. destruct p_exponent as [He HE].
    apply orb_true_iff in Ec as [Ec | Ec];
      apply Ascii.eqb_eq in Ec as ->; [rewrite He in H | rewrite HE in H];
      exact H. }
  apply has_char_split_sign in Hrest.
  destruct (split_sign rest) as [negative body]. cbn [snd] in Hrest.
  apply (has_char_digitpart _ 0%Z 0%nat) in Hrest.
  destruct (digitpart body 0 0) as [[e n] r]. cbn [snd] in Hrest.
  destruct n; [reflexivity |]. destruct r; [discriminate Hrest | reflexivity].
Qed.

(** So does [float]. *)
Lemma float_of_str_raises s :
  has_char p s = true -> is_ok (float_of_str s) = false.
Proof.
  intros H. unfold float_of_str, strip.
  apply has_char_lstrip, has_char_rstrip, has_char_split_sign in H.
  destruct (split_sign _) as [negative body]. cbn [snd] in H.
  apply (has_char_digitpart _ 0%Z 0%nat) in H.
  destruct (digitpart body 0 0) as [[whole n_whole] after_whole]. cbn [snd] in H.
  apply has_char_fraction in H.
  destruct (fraction after_whole) as [[frac n_frac] after_frac]. cbn [snd] in H.
  rewrite (exponent_none _ H). destruct (n_whole + n_frac)%nat; reflexivity.
Qed.
End UnparsableText.

Section NeverRead.
Import Py.

Lemma never_in_int_space c : is_space c = true -> never_in_int c = false.
Proof.
  intros H. unfold never_in_int. rewrite H.
  cbn [negb]. rewrite andb_false_r. reflexivity.
Qed.

Lemma never_in_int_digit c d : digit_of c = Some d -> never_in_int c = false.
Proof.
  unfold digit_of, never_in_int.
  destruct (Nat.leb 48 _ && Nat.leb _ 57)%bool; [| discriminate].
  intros _. cbn [negb]. rewrite andb_false_r. reflexivity.
Qed.

Lemma never_in_float_int c : never_in_int c = false -> never_in_float c = false.
Proof. intros H. unfold never_in_float. rewrite H. reflexivity. Qed.

Lemma int_of_str_never s :
  has_char never_in_int s = true -> is_ok (int_of_str s) = false.
Proof.
  intros H. apply (int_of_str_raises never_in_int); try reflexivity;
    [exact never_in_int_space | exact never_in_int_digit | exact H].
Qed.

Lemma float_of_str_never s :
  has_char never_in_float s = true -> is_ok (float_of_str s) = false.
Proof.
  intros H. apply (float_of_str_raises never_in_float); try reflexivity;
    [intros c Hc; apply never_in_float_int, never_in_int_space, Hc
    | intros c d Hc; apply never_in_float_int, (never_in_int_digit c d), Hc
    | split; reflexivity
    | exact H].
Qed.
End NeverRead.

Section UnparsableMinutes.
Import Py AnalysisEngine.

Lemma minutes_value_unparsable s :
  Spec.unparsable_minutes s = true -> is_ok (minutes_value (PStr s)) = false.
Proof.
  unfold Spec.unparsable_minutes, minutes_value.
  destruct (contains_char ":" s); [| apply float_of_str_never].
  destruct (split_on ":" s) as [| p0 [| p1 rest]]; try discriminate.
  intros H. apply orb_true_iff in H as [H | H];
    apply int_of_str_never in H.
  - destruct (int_of_str p0); [discriminate H | reflexivity].
  - destruct (int_of_str p0) as [a | e]; [| reflexivity].
    cbn [mbind result_bind bind].
    destruct (int_of_str p1); [discriminate H | reflexivity].
Qed.

Lemma minutes_values_raises m ms :
  In m ms -> is_ok (minutes_value m) = false ->
  is_ok (minutes_values ms) = false.
Proof.
  intros Hin Hraise. induction ms as [| m0 rest IH]; [destruct Hin |].
  cbn [minutes_values]. destruct Hin as [-> | Hin].
  - destruct (minutes_value m); [discriminate Hraise | reflexivity].
  - destruct (minutes_value m0) as [v | e0]; [| reflexivity].
    cbn [mbind result_bind bind].
    destruct (minutes_values rest); [discriminate (IH Hin) | reflexivity].
Qed.
End UnparsableMinutes.

(** X12.  One minutes entry that cannot be read as a number (a text such as
    "DNP": no colon and a character that no float numeral has, or a colon
    and such a character for integers in one of its two parts), anywhere in
    the history, and the playing-time factor is the neutral 0.5, whatever
    the other games say. *)
Theorem unparsable_minutes_neutral_playing_time
    np_polyfit_slope games prop stat_key factors :
  AnalysisEngine._analyze_factors np_polyfit_slope games prop stat_key
  = Py.Ok factors ->
  (exists g s,
      In g games /\ g !! "min" = Some (Py.PStr s)
      /\ Spec.unparsable_minutes s = true) ->
  factors !! "playing_time" = Some 0.5.
Proof.
  intros Hok (g & s & Hin & Hmin & Hbad).
  unfold AnalysisEngine._analyze_factors in Hok.
  match type of Hok with
  | mbind _ ?stage = _ => destruct stage as [f1 | e1]; [| discriminate Hok]
  end.
  cbn [mbind result_bind Py.bind] in Hok.
  match type of Hok with
  | mbind _ ?stage = _ => destruct stage as [f2 | e2]; [| discriminate Hok]
  end.
  cbn [mbind result_bind Py.bind mret result_ret] in Hok.
  injection Hok as <-.
  set (minutes := map _ (List.filter _ games)).
  assert (Hm : In (Py.PStr s) minutes).
  { unfold minutes. apply List.in_map_iff. exists g. split.
    - rewrite Hmin. reflexivity.
    - apply List.filter_In. split; [exact Hin |].
      unfold AnalysisEngine.get_none. rewrite Hmin. simpl.
      destruct s; [discriminate Hbad | reflexivity]. }
  pose proof (minutes_values_raises _ _ Hm (minutes_value_unparsable _ Hbad))
    as Hraise.
  destruct minutes as [| m rest]; [destruct Hm |].
  destruct (AnalysisEngine.minutes_values (m :: rest));
    [discriminate Hraise |].
  cbn [mbind result_bind Py.bind Py.try_except].
  apply lookup_insert_eq.
Qed.

Lemma unparsable_minutes_neutral_playing_time_witness :
  exists factors,
    AnalysisEngine._analyze_factors Examples.flat_trend
      [Examples.clock_minutes_game; Examples.dnp_game]
      Examples.over_15_points "pts" = Py.Ok factors
    /\ (exists g s,
          In g [Examples.clock_minutes_game; Examples.dnp_game]
          /\ g !! "min" = Some (Py.PStr s)
          /\ Spec.unparsable_minutes s = true)
    /\ factors !! "playing_time" = Some 0.5.
Proof.
  assert (H2 : exists g s,
             In g [Examples.clock_minutes_game; Examples.dnp_game]
             /\ g !! "min" = Some (Py.PStr s)
             /\ Spec.unparsable_minutes s = true).
  { exists Examples.dnp_game, "DNP".
    split; [right; left; reflexivity |]. split; reflexivity. }
  destruct (AnalysisEngine._analyze_factors Examples.flat_trend
              [Examples.clock_minutes_game; Examples.dnp_game]
              Examples.over_15_points "pts")
    as [factors | e] eqn:H1.
  - exists factors. split; [reflexivity |]. split; [exact H2 |].
    exact (unparsable_minutes_neutral_playing_time _ _ _ _ _ H1 H2).
  - returns_normally H1.
Defined.

(* ------------------------------------------------------------------ *)
(** ** Team ratings, basic game totals and the halftime orchestration *)
(* ------------------------------------------------------------------ *)

(** X13.  A second request for the same team is answered from the cache,
    whatever the statistics service would say by then, and the entries of
    other teams are left alone. *)
Theorem get_team_ratings_cached nba_api nba_api' cache team_id team_abbr
    team_abbr' :
  let first :=
    HalftimeEngine._get_team_ratings nba_api cache team_id team_abbr in
  HalftimeEngine._get_team_ratings nba_api' (snd first) team_id team_abbr'
  = first
  /\ snd first !! team_id = Some (fst first)
  /\ forall other, other <> team_id -> snd first !! other = cache !! other.
Proof.
  unfold HalftimeEngine._get_team_ratings.
  destruct (cache !! team_id) as [ratings |] eqn:Hhit; cbn [fst snd].
  - rewrite Hhit. repeat split. 
  - rewrite lookup_insert_eq. split; [reflexivity |]. split; [reflexivity |].
    intros other Hne. apply lookup_insert_ne. congruence.
Qed.

(** X14.  Basic game totals for a game with non-negative scores: the projected
    second half lies between 82.8% and 105% of the first-half total, the
    third quarter is projected no higher than the fourth, and the
    confidence lies between 35 and 75. *)
Theorem analyze_game_totals_bounds game_data :
  (0 <= LiveGameData.total_score game_data)%Z ->
  let v := HalftimeEngine.analyze_game_totals_locals game_data in
  let first_half := inject_Z (LiveGameData.total_score game_data) in
  Spec.within (0.828 * first_half) (1.05 * first_half)
    (HalftimeEngine.TotalsLocals.projected_second_half_total v)
  /\ HalftimeEngine.TotalsLocals.projected_q3_total v
     <= HalftimeEngine.TotalsLocals.projected_q4_total v
  /\ Spec.within 35 75 (HalftimeEngine.TotalsLocals.total_confidence v).
Proof.
  intros Hnn v first_half.
  assert (HT : 0 <= first_half).
  { unfold first_half. rewrite (Zle_Qle 0) in Hnn. exact Hnn. }
  subst v. unfold HalftimeEngine.analyze_game_totals_locals.
  cbv zeta. fold first_half.
  cbn [HalftimeEngine.TotalsLocals.projected_second_half_total
       HalftimeEngine.TotalsLocals.projected_q3_total
       HalftimeEngine.TotalsLocals.projected_q4_total
       HalftimeEngine.TotalsLocals.total_confidence].
  set (cmp := first_half / 24.0 / (HalftimeEngine.LEAGUE_AVG_TOTAL / 48.0)).
  unfold HalftimeEngine.PACE_SUSTAINABILITY, HalftimeEngine.Q3_PACE_FACTOR.
  set (blow := HalftimeEngine._detect_blowout _).
  clearbody cmp blow. clearbody first_half.
  set (second_half := if blow then _ else _).
  assert (Hsh : Spec.within (0.828 * first_half) (1.05 * first_half)
                            second_half).
  { unfold second_half.
    destruct (Py.Qgeb cmp 1.2), (Py.Qgeb cmp 1.1), (Py.Qleb cmp 0.85), blow;
      split; lra. }
  split; [exact Hsh | split].
  - destruct Hsh as [Hlow _]. clearbody second_half.
    assert (Hq3 : second_half / 2 * 0.92 == second_half * 0.46) by field.
    rewrite Hq3. lra.
  - unfold Py.max, Py.min.
    destruct (Py.Qleb 0.95 cmp && Py.Qleb cmp 1.05)%bool,
             (Py.Qleb 0.90 cmp && Py.Qleb cmp 1.10)%bool, blow;
      vm_compute; split; discriminate.
Qed.

Lemma analyze_game_totals_bounds_witness :
  (0 <= LiveGameData.total_score Examples.game_1)%Z
  /\ (let v := HalftimeEngine.analyze_game_totals_locals Examples.game_1 in
      let first_half := inject_Z (LiveGameData.total_score Examples.game_1) in
      Spec.within (0.828 * first_half) (1.05 * first_half)
        (HalftimeEngine.TotalsLocals.projected_second_half_total v)
      /\ HalftimeEngine.TotalsLocals.projected_q3_total v
         <= HalftimeEngine.TotalsLocals.projected_q4_total v
      /\ Spec.within 35 75 (HalftimeEngine.TotalsLocals.total_confidence v)).
Proof.
  assert (H : (0 <= LiveGameData.total_score Examples.game_1)%Z)
    by (vm_compute; discriminate).
  split; [exact H |].
  exact (analyze_game_totals_bounds Examples.game_1 H).
Defined.

Section Suggestions.
Import Py HalftimeEngine.

Lemma insert_suggestion_perm x l : Permutation (insert_suggestion x l) (x :: l).
Proof.
  induction l as [| y rest IH]; cbn [insert_suggestion]; [reflexivity |].
  destruct (Qgeb _ _); [| reflexivity].
  rewrite IH. apply perm_swap.
Qed.

Lemma insert_suggestion_sorted x l :
  StronglySorted Spec.confidence_ge l ->
  StronglySorted Spec.confidence_ge (insert_suggestion x l).
Proof.
  induction 1 as [| y rest Hsorted IH Hall]; cbn [insert_suggestion].
  - repeat constructor.
  - destruct (Qgeb _ _) eqn:Hge.
    + apply Qgeb_ge in Hge. constructor; [exact IH |].
      assert (Hxs : Forall (Spec.confidence_ge y) (x :: rest))
        by (constructor; [exact Hge | exact Hall]).
      rewrite <- (insert_suggestion_perm x rest) in Hxs. exact Hxs.
    + apply Qgeb_lt in Hge. constructor; [constructor; assumption |].
      constructor.
      * unfold Spec.confidence_ge. lra.
      * eapply Forall_impl; [exact Hall |].
        unfold Spec.confidence_ge. intros z Hz. simpl in *. lra.
Qed.

Lemma fold_insert_spec l acc :
  StronglySorted Spec.confidence_ge acc ->
  StronglySorted Spec.confidence_ge
    (fold_left (fun acc x => insert_suggestion x acc) l acc)
  /\ Permutation (fold_left (fun acc x => insert_suggestion x acc) l acc)
                 (l ++ acc).
Proof.
  revert acc. induction l as [| x rest IH]; intros acc Hacc; cbn [fold_left].
  - split; [exact Hacc | reflexivity].
  - destruct (IH (insert_suggestion x acc) (insert_suggestion_sorted x acc Hacc))
      as [Hs Hp].
    split; [exact Hs |].
    rewrite Hp, insert_suggestion_perm. cbn [app].
    symmetry. apply Permutation_middle.
Qed.
End Suggestions.

(** X15.  Sorting the suggestions rearranges them (nothing is lost or added),
    with every suggestion at least as confident as all that follow it. *)
Theorem sort_suggestions_sorted l :
  Permutation (HalftimeEngine.sort_suggestions l) l
  /\ StronglySorted Spec.confidence_ge (HalftimeEngine.sort_suggestions l).
Proof.
  unfold HalftimeEngine.sort_suggestions.
  destruct (fold_insert_spec l [] (SSorted_nil _)) as [Hs Hp].
  split; [| exact Hs]. rewrite Hp, app_nil_r. reflexivity.
Qed.

Section Orchestration.
Import Py HalftimeEngine.

Context (live_client : LiveClient.t) (nba_api : Z -> NbaApi.fetch).

Lemma analyze_halftime_player_fields cache live_stats prop_line prop_type
    game_data team_stats opponent_team_id opponent_abbr team_ratings
    is_back_to_back projection :
  fst (analyze_halftime_player
         live_client nba_api cache live_stats prop_line prop_type game_data
         team_stats opponent_team_id opponent_abbr team_ratings
         is_back_to_back) = Ok projection ->
  PlayerProjection.first_half_minutes projection
  = LivePlayerStats.minutes_float live_stats
  /\ PlayerProjection.prop_line projection = prop_line
  /\ PlayerProjection.prop_type projection = prop_type.
Proof.
  unfold analyze_halftime_player.
  repeat match goal with
    | |- context [let '(_, _) := ?x in _] => destruct x
    end.
  cbn [fst]. intros [= <-]. repeat split.
Qed.

Lemma analyze_player_keeps game_data box_score home_ratings away_ratings
    home_b2b away_b2b prop_lines cache acc player :
  Forall Spec.kept_projection acc ->
  let st :=
    analyze_player live_client nba_api game_data box_score home_ratings
                   away_ratings home_b2b away_b2b prop_lines (cache, acc)
                   player in
  Forall Spec.kept_projection (snd st)
  /\ (length (snd st) <= length acc + 3)%nat.
Proof.
  intros Hacc. unfold analyze_player.
  destruct (Qltb (LivePlayerStats.minutes_float player) 5) eqn:Hmin;
    [cbn; split; [exact Hacc | lia] |].
  apply Qltb_ge in Hmin. cbv zeta.
  set (step := fun (st : gmap Z TeamRatings.t * list PlayerProjection.t)
                   (prop_type : string) => _).
  assert (Hstep : forall st prop_type,
             In prop_type default_prop_types ->
             Forall Spec.kept_projection (snd st) ->
             Forall Spec.kept_projection (snd (step st prop_type))
             /\ (length (snd (step st prop_type)) <= length (snd st) + 1)%nat).
  { intros [c l] prop_type Hin Hl. unfold step. cbn [snd].
    match goal with
    | |- context [Qleb ?line 0] =>
        set (prop_line := line); destruct (Qleb prop_line 0) eqn:Hline
    end; [cbn; split; [exact Hl | lia] |].
    apply Qleb_gt in Hline.
    match goal with
    | |- context [analyze_halftime_player ?a ?b ?c ?d ?e ?f ?g ?h ?i ?j ?k ?m] =>
        pose proof (analyze_halftime_player_fields c d e f g h i j k m) as Hf;
        pose proof (analyze_halftime_player_confidence_within
                      a b c d e f g h i j k m) as Hc;
        destruct (analyze_halftime_player a b c d e f g h i j k m)
          as [[analysis | err] c']
    end; cbn [fst snd] in *; [| split; [exact Hl | lia]].
    destruct (Hf analysis eq_refl) as (F1 & F2 & F3).
    split; [| rewrite length_app; cbn; lia].
    apply Forall_app. split; [exact Hl |]. constructor; [| constructor].
    unfold Spec.kept_projection. rewrite F1, F2, F3.
    split; [exact Hmin | split; [exact Hline | split; [exact Hin |]]].
    apply Hc. reflexivity. }
  unfold default_prop_types in *. cbn [fold_left].
  destruct (Hstep (cache, acc) "points") as [A1 A2];
    [left; reflexivity | exact Hacc |].
  destruct (Hstep (step (cache, acc) "points") "rebounds") as [B1 B2];
    [right; left; reflexivity | exact A1 |].
  destruct (Hstep (step (step (cache, acc) "points") "rebounds") "assists")
    as [C1 C2]; [right; right; left; reflexivity | exact B1 |].
  cbn [snd] in *. split; [exact C1 | lia].
Qed.

Lemma analyze_players_keep game_data box_score home_ratings away_ratings
    home_b2b away_b2b prop_lines players cache acc :
  Forall Spec.kept_projection acc ->
  let st :=
    fold_left (analyze_player live_client nba_api game_data box_score
                 home_ratings away_ratings home_b2b away_b2b prop_lines)
              players (cache, acc) in
  Forall Spec.kept_projection (snd st)
  /\ (length (snd st) <= length acc + 3 * length players)%nat.
Proof.
  revert cache acc. induction players as [| p rest IH]; intros cache acc Hacc.
  - cbn. split; [exact Hacc | lia].
  - cbn [fold_left].
    pose proof (analyze_player_keeps game_data box_score home_ratings
                  away_ratings home_b2b away_b2b prop_lines cache acc p Hacc)
      as [K1 K2].
    destruct (analyze_player _ _ _ _ _ _ _ _ _ (cache, acc) p) as [c1 acc1].
    cbn [snd] in K1, K2.
    destruct (IH c1 acc1 K1) as [L1 L2]. split; [exact L1 |].
    cbn [length]. lia.
Qed.

Lemma suggestion_of_qualifies a s : suggestion_of a = Some s -> Spec.qualifies s.
Proof.
  unfold suggestion_of.
  destruct (Qgeb (PlayerProjection.confidence_score a) 60) eqn:Hc;
    [| discriminate].
  apply Qgeb_ge in Hc. cbn [andb].
  destruct (str_eqb _ "strong_bet" || str_eqb _ "bet" || str_eqb _ "lean")%bool
    eqn:Hr; [| discriminate].
  intros [= <-]. split; [exact Hc |]. cbn.
  apply orb_true_iff in Hr as [Hr | Hr];
    [apply orb_true_iff in Hr as [Hr | Hr] |]; apply str_eqb_eq in Hr; tauto.
Qed.

Lemma omap_suggestions l :
  Forall Spec.qualifies (omap suggestion_of l)
  /\ (length (omap suggestion_of l) <= length l)%nat.
Proof.
  induction l as [| a rest [IH1 IH2]]; [split; [constructor | reflexivity] |].
  cbn [omap list_omap]. destruct (suggestion_of a) as [s |] eqn:E.
  - split; [constructor; [exact (suggestion_of_qualifies a s E) | exact IH1] |].
    cbn. lia.
  - split; [exact IH1 | cbn; lia].
Qed.
End Orchestration.

(** X16.  What a returned halftime analysis contains: the suggestions come in
    order of confidence, highest first, each with confidence of at least
    60 and a recommendation among strong_bet, bet and lean; there are no
    more suggestions than player analyses; every player analysis is for a
    player with at least five minutes, a positive line and one of the
    three default stats, with a confidence in [0, 100]; and there are at
    most three analyses per player of the box score. *)
Theorem get_halftime_analysis_contents
    live_client nba_api utcnow Enhanced totals_engine_analyze
    cache game_id prop_lines analysis :
  fst (HalftimeEngine.get_halftime_analysis
         live_client nba_api utcnow Enhanced totals_engine_analyze
         cache game_id prop_lines) = Py.Ok analysis ->
  let box := HalftimeEngine.LiveClient.get_live_box_score live_client game_id in
  let suggestions := HalftimeEngine.HalftimeAnalysis.suggestions analysis in
  let entries := HalftimeEngine.HalftimeAnalysis.player_analyses analysis in
  StronglySorted Spec.confidence_ge suggestions
  /\ Forall Spec.qualifies suggestions
  /\ (length suggestions <= length entries)%nat
  /\ Forall (fun e => Spec.kept_projection
                        (HalftimeEngine.PlayerEntry.projection e))
            entries
  /\ (length entries
      <= 3 * (length (BoxScore.home box) + length (BoxScore.away box)))%nat.
Proof.
  unfold HalftimeEngine.get_halftime_analysis.
  destruct (List.find _ _) as [game_data |]; [| discriminate].
  destruct (HalftimeEngine._get_team_ratings _ _ _ _) as [home_ratings c1].
  destruct (HalftimeEngine._get_team_ratings _ _ _ _) as [away_ratings c2].
  match goal with
  | |- context [fold_left (HalftimeEngine.analyze_player ?a ?b ?c ?d ?e ?f ?g ?h ?i)
                          ?players (?c0, [])] =>
      pose proof (analyze_players_keep a b c d e f g h i players c0 []
                    (List.Forall_nil _)) as [K1 K2];
      destruct (fold_left (HalftimeEngine.analyze_player a b c d e f g h i)
                          players (c0, [])) as [c3 analyses]
  end.
  cbn [fst snd] in *. intros [= <-].
  cbn [HalftimeEngine.HalftimeAnalysis.suggestions
       HalftimeEngine.HalftimeAnalysis.player_analyses].
  unfold HalftimeEngine.sort_suggestions.
  destruct (fold_insert_spec (omap HalftimeEngine.suggestion_of analyses) []
                             (SSorted_nil _)) as [Hsorted Hperm].
  rewrite app_nil_r in Hperm.
  destruct (omap_suggestions analyses) as [Hq Hlen].
  split; [exact Hsorted |].
  split; [rewrite Hperm; exact Hq |].
  split; [rewrite Hperm, length_map; exact Hlen |].
  split.
  - apply Forall_map. eapply Forall_impl; [exact K1 |]. intros a Ha. exact Ha.
  - rewrite length_map. rewrite length_app in K2. cbn in K2. lia.
Qed.

Lemma get_halftime_analysis_contents_witness :
  exists analysis,
    fst (HalftimeEngine.get_halftime_analysis
           Examples.failing_client Examples.failing_api
           "2024-11-01T03:00:00" unit Examples.failing_totals_engine
           ∅ "0022400001" None)
    = Py.Ok analysis
    /\ Forall Spec.qualifies
              (HalftimeEngine.HalftimeAnalysis.suggestions analysis)
    /\ Forall (fun e => Spec.kept_projection
                          (HalftimeEngine.PlayerEntry.projection e))
              (HalftimeEngine.HalftimeAnalysis.player_analyses analysis).
Proof.
  destruct (fst (HalftimeEngine.get_halftime_analysis
                   Examples.failing_client Examples.failing_api
                   "2024-11-01T03:00:00" unit Examples.failing_totals_engine
                   ∅ "0022400001" None))
    as [analysis | e] eqn:H.
  - exists analysis. split; [reflexivity |].
    destruct (get_halftime_analysis_contents _ _ _ _ _ _ _ _ _ H)
      as (_ & Hq & _ & Hk & _).
    split; [exact Hq | exact Hk].
  - returns_normally H.
Defined.

(* ------------------------------------------------------------------ *)
(** ** The bet slip *)
(* ------------------------------------------------------------------ *)

Section BetSlipFacts.
Import Py AnalysisEngine.
Context (np_polyfit_slope : list Q -> result Q) (service : Service.t).

Lemma lookup_player_prop_id prop :
  PropBetData.prop_id (lookup_player service prop) = PropBetData.prop_id prop.
Proof.
  unfold lookup_player.
  destruct (negb _); [| reflexivity].
  destruct (truthy_dict _); [| reflexivity].
  destruct (Service.search_player _ _); reflexivity.
Qed.

(** What [analyze_prop] publishes: the id of the prop, and a confidence
    of at least 58 whenever it recommends the bet. *)
Lemma analyze_prop_published prop r :
  analyze_prop np_polyfit_slope service prop = Ok r ->
  PropAnalysis.prop_id r = PropBetData.prop_id prop
  /\ (PropAnalysis.recommendation r = "strong_bet"
      \/ PropAnalysis.recommendation r = "bet" ->
      58 <= PropAnalysis.confidence_score r).
Proof.
  unfold analyze_prop.
  assert (Hdefault : forall reason,
             let d := _create_default_analysis
                        (lookup_player service prop) reason in
             PropAnalysis.prop_id d = PropBetData.prop_id prop
             /\ (PropAnalysis.recommendation d = "strong_bet"
                 \/ PropAnalysis.recommendation d = "bet" ->
                 58 <= PropAnalysis.confidence_score d)).
  { intros reason. cbn. split; [apply lookup_player_prop_id |].
    intros [H | H]; discriminate. }
  destruct (PropBetData.player_id _) as [pid |];
    [| intros [= <-]; apply Hdefault].
  destruct (negb _); [intros [= <-]; apply Hdefault |].
  destruct (Service.get_player_stats _ _ _) as [| g rest];
    [intros [= <-]; apply Hdefault |].
  destruct (_calculate_hit_rate _ _) as [hit_rate | e]; [| discriminate].
  cbn [mbind result_bind bind].
  destruct (_calculate_average_stat _ _) as [average | e]; [| discriminate].
  cbn [mbind result_bind bind].
  destruct (_analyze_factors _ _ _ _) as [factors | e]; [| discriminate].
  cbn [mbind result_bind bind mret result_ret].
  intros [= <-].
  cbn [PropAnalysis.prop_id PropAnalysis.recommendation
       PropAnalysis.confidence_score].
  split; [apply lookup_player_prop_id |].
  set (confidence := _calculate_confidence _ _ _ _).
  assert (H100 : confidence <= 100).
  { unfold confidence, _calculate_confidence.
    apply (np_clip_within 0 100). discriminate. }
  intros Hrec.
  assert (H58 : 58 <= confidence).
  { unfold _generate_recommendation in Hrec.
    destruct (Qgeb confidence 70) eqn:H70;
      [apply Qgeb_ge in H70; lra |].
    destruct (Qgeb confidence 58) eqn:Hb; [apply Qgeb_ge in Hb; exact Hb |].
    destruct (Qgeb confidence 45); [destruct Hrec; discriminate |].
    destruct (Qgeb confidence 30); destruct Hrec; discriminate. }
  apply (round_nd_between 58 100 confidence 2); assumption.
Qed.

(** The loop analyses the props one by one, in order. *)
Lemma analyze_props_each props analyses :
  analyze_props np_polyfit_slope service props = Ok analyses ->
  Forall2 (fun prop a => analyze_prop np_polyfit_slope service prop = Ok a)
          props analyses.
Proof.
  revert analyses. induction props as [| prop rest IH]; intros analyses.
  - intros [= <-]. constructor.
  - cbn [analyze_props].
    destruct (analyze_prop np_polyfit_slope service prop) as [a | e] eqn:Ha;
      [| discriminate].
    cbn [mbind result_bind bind].
    destruct (analyze_props np_polyfit_slope service rest) as [l | e];
      [| discriminate].
    cbn [mbind result_bind bind mret result_ret].
    intros [= <-]. constructor; [exact Ha | apply IH; reflexivity].
Qed.

(** The loop stops at the first prop whose analysis raises. *)
Lemma analyze_props_raises props prop e :
  In prop props ->
  analyze_prop np_polyfit_slope service prop = Raise e ->
  exists e', analyze_props np_polyfit_slope service props = Raise e'.
Proof.
  induction props as [| p rest IH]; [intros [] |].
  intros [-> | Hin] He; cbn [analyze_props].
  - rewrite He. exists e. reflexivity.
  - destruct (analyze_prop np_polyfit_slope service p) as [a | e0];
      [| exists e0; reflexivity].
    cbn [mbind result_bind bind].
    destruct (IH Hin He) as [e' ->]. exists e'. reflexivity.
Qed.

(** What holds of every analysis of a slip. *)
Lemma analyze_props_facts props analyses :
  analyze_props np_polyfit_slope service props = Ok analyses ->
  map PropAnalysis.prop_id analyses = map PropBetData.prop_id props
  /\ Forall (fun a => Spec.within 0 100 (PropAnalysis.confidence_score a))
            analyses
  /\ Forall (fun a => PropAnalysis.recommendation a = "strong_bet"
                      \/ PropAnalysis.recommendation a = "bet" ->
                      58 <= PropAnalysis.confidence_score a)
            analyses.
Proof.
  intros H. apply analyze_props_each in H.
  induction H as [| prop a props analyses Ha _ (IH1 & IH2 & IH3)].
  - repeat split; constructor.
  - destruct (analyze_prop_published prop a Ha) as [Hid Hrec].
    pose proof (analyze_prop_confidence_within _ _ _ _ Ha) as Hc.
    split; [cbn [map]; congruence |].
    split; constructor; assumption.
Qed.

Lemma analyze_bet_slip_analyses props r :
  analyze_bet_slip np_polyfit_slope service props = Ok r ->
  analyze_props np_polyfit_slope service props
  = Ok (BetSlipAnalysis.prop_analyses r).
Proof.
  unfold analyze_bet_slip.
  destruct (analyze_props np_polyfit_slope service props) as [l | e];
    [| discriminate].
  cbn [mbind result_bind bind mret result_ret]. intros [= <-]. reflexivity.
Qed.
End BetSlipFacts.



Section Parlays.
Import Py AnalysisEngine.




End Parlays.

(** X18.  The recommended bets are ids of the slip, in slip order, and include
    every prop whose own recommendation is "strong_bet" or "bet". *)
Theorem analyze_bet_slip_recommended np_polyfit_slope service props r :
  AnalysisEngine.analyze_bet_slip np_polyfit_slope service props = Py.Ok r ->
  sublist (AnalysisEngine.BetSlipAnalysis.recommended_bets r)
          (map AnalysisEngine.PropBetData.prop_id props)
  /\ forall a,
       In a (AnalysisEngine.BetSlipAnalysis.prop_analyses r) ->
       AnalysisEngine.PropAnalysis.recommendation a = "strong_bet"
       \/ AnalysisEngine.PropAnalysis.recommendation a = "bet" ->
       In (AnalysisEngine.PropAnalysis.prop_id a)
          (AnalysisEngine.BetSlipAnalysis.recommended_bets r).
Proof.
  intros Hr. pose proof (analyze_bet_slip_analyses _ _ _ _ Hr) as Hl.
  destruct (analyze_props_facts _ _ _ _ Hl) as (Hids & _ & Hrec).
  revert Hr Hl Hids Hrec. unfold AnalysisEngine.analyze_bet_slip.
  destruct (AnalysisEngine.analyze_props np_polyfit_slope service props) as [l | e];
    [| discriminate].
  cbn [mbind result_bind Py.bind mret result_ret]. intros [= <-].
  cbn [AnalysisEngine.BetSlipAnalysis.prop_analyses
       AnalysisEngine.BetSlipAnalysis.recommended_bets].
  intros _ <- Hrec. split.
  - clear Hrec. induction l as [| a rest IH]; [constructor |].
    cbn [List.filter map]. destruct (Py.Qgeb _ 58); cbn [map].
    + apply sublist_skip. exact IH.
    + apply sublist_cons. exact IH.
  - intros a Hin Ha. apply List.in_map, List.filter_In. split; [exact Hin |].
    apply Qgeb_ge.
    exact (proj1 (List.Forall_forall _ _) Hrec a Hin Ha).
Qed.

Lemma analyze_bet_slip_recommended_witness :
  exists r,
    AnalysisEngine.analyze_bet_slip
      Examples.flat_trend Examples.ten_game_service
      [Examples.over_15_points; Examples.under_15_points] = Py.Ok r
    /\ sublist (AnalysisEngine.BetSlipAnalysis.recommended_bets r) [1; 2]%Z.
Proof.
  destruct (AnalysisEngine.analyze_bet_slip
              Examples.flat_trend Examples.ten_game_service
              [Examples.over_15_points; Examples.under_15_points])
    as [r | e] eqn:H; [| returns_normally H].
  exists r.
  split; [reflexivity |].
  exact (proj1 (analyze_bet_slip_recommended _ _ _ _ H)).
Defined.



(** X20.  One game record that holds a string where the stat is expected, in
    the history of one player of the slip, and the whole slip analysis
    raises: no prop of the slip gets an analysis. *)
Theorem analyze_bet_slip_type_error
    np_polyfit_slope service props prop pid g s :
  In prop props ->
  AnalysisEngine.PropBetData.player_id prop = Some pid ->
  pid <> 0%Z ->
  (AnalysisEngine.PropBetData.over_under prop = "over"
   \/ AnalysisEngine.PropBetData.over_under prop = "under") ->
  In g (AnalysisEngine.Service.get_player_stats service pid 10) ->
  Spec.stat_value
    (AnalysisEngine.stat_key_of (AnalysisEngine.PropBetData.stat_type prop))
    g = Py.PStr s ->
  exists e,
    AnalysisEngine.analyze_bet_slip np_polyfit_slope service props = Py.Raise e.
Proof.
  intros Hin Hpid Hnz Hdir Hg Hs.
  assert (Hprop : AnalysisEngine.analyze_prop np_polyfit_slope service prop
                  = Py.Raise Py.TypeError).
  { unfold AnalysisEngine.analyze_prop, AnalysisEngine.lookup_player.
    rewrite Hpid. cbn [AnalysisEngine.truthy_id].
    apply Z.eqb_neq in Hnz. rewrite Hnz. cbn [negb]. rewrite Hpid.
    cbn [AnalysisEngine.truthy_id]. rewrite Hnz. cbn [negb].
    destruct (AnalysisEngine.Service.get_player_stats service pid 10)
      as [| g0 rest] eqn:Hgames; [destruct Hg |].
    unfold AnalysisEngine._calculate_hit_rate.
    rewrite (hit_rate_loop_string_raises (g0 :: rest) _ _ _ 0%Z 0%Z Hdir)
      by (exists g, s; split; assumption).
    reflexivity. }
  destruct (analyze_props_raises np_polyfit_slope service props prop _
              Hin Hprop) as [e He].
  exists e. unfold AnalysisEngine.analyze_bet_slip. rewrite He. reflexivity.
Qed.

Lemma analyze_bet_slip_type_error_witness :
  exists e,
    AnalysisEngine.analyze_bet_slip
      Examples.flat_trend Examples.text_points_service
      [Examples.under_15_points; Examples.over_15_points] = Py.Raise e.
Proof.
  apply (analyze_bet_slip_type_error
           Examples.flat_trend Examples.text_points_service
           [Examples.under_15_points; Examples.over_15_points]
           Examples.over_15_points 7%Z Examples.text_points_game "20").
  - right. left. reflexivity.
  - reflexivity.
  - discriminate.
  - left. reflexivity.
  - right. left. reflexivity.
  - reflexivity.
Defined.

(* ------------------------------------------------------------------ *)
(** ** The advanced game-totals engine *)
(* ------------------------------------------------------------------ *)

(** X21.  At halftime, as the live client detects it by period and clock, the
    advanced totals engine takes 24 minutes as elapsed when the clock
    reads zero, but only 12 when the clock is empty. *)
Theorem elapsed_minutes_at_halftime game_data :
  LiveGameData.period game_data = 2%Z ->
  LiveDataClient.halftime_clock (LiveGameData.game_clock game_data) = true ->
  GameTotalsEngine._elapsed_minutes game_data
  == if Py.str_eqb (LiveGameData.game_clock game_data) "" then 12 else 24.
Proof.
  intros Hperiod Hclock. unfold GameTotalsEngine._elapsed_minutes.
  rewrite Hperiod. unfold LiveDataClient.halftime_clock in Hclock.
  cbn [existsb] in Hclock.
  destruct (Py.str_eqb (LiveGameData.game_clock game_data) "") eqn:E0.
  - apply str_eqb_eq in E0. rewrite E0. reflexivity.
  - destruct (Py.str_eqb (LiveGameData.game_clock game_data) "PT00M00.00S")
      eqn:E1; [apply str_eqb_eq in E1; rewrite E1; reflexivity |].
    destruct (Py.str_eqb (LiveGameData.game_clock game_data) "0:00")
      eqn:E2; [apply str_eqb_eq in E2; rewrite E2; reflexivity |].
    discriminate.
Qed.

Lemma elapsed_minutes_at_halftime_witness :
  GameTotalsEngine._elapsed_minutes Examples.game_1 == 12.
Proof.
  exact (elapsed_minutes_at_halftime Examples.game_1 eq_refl eq_refl).
Defined.

(** X22.  The spread prediction is consistent: the close-game probability lies
    in [5, 45], the blowout probability in [2, 50] and the two add up to
    at most 55; the confidence lies in [50, 75]; and the momentum, when it
    is not neutral, names the team that leads by more than five. *)
Theorem predict_spread_consistent game_data stars home_ratings away_ratings
    pace :
  let p :=
    GameTotalsEngine._predict_spread game_data stars home_ratings
                                     away_ratings pace in
  let spread := GameTotalsEngine.SpreadPrediction.current_spread p in
  let momentum := GameTotalsEngine.SpreadPrediction.momentum_indicator p in
  Spec.within 5 45 (GameTotalsEngine.SpreadPrediction.close_game_probability p)
  /\ Spec.within 2 50 (GameTotalsEngine.SpreadPrediction.blowout_probability p)
  /\ GameTotalsEngine.SpreadPrediction.close_game_probability p
     + GameTotalsEngine.SpreadPrediction.blowout_probability p <= 55
  /\ Spec.within 50 75 (GameTotalsEngine.SpreadPrediction.spread_confidence p)
  /\ (momentum = "home" /\ (5 < spread)%Z
      \/ momentum = "away" /\ (spread < -5)%Z
      \/ momentum = "neutral").
Proof.
  unfold GameTotalsEngine._predict_spread. cbv zeta.
  cbn [GameTotalsEngine.SpreadPrediction.close_game_probability
       GameTotalsEngine.SpreadPrediction.blowout_probability
       GameTotalsEngine.SpreadPrediction.spread_confidence
       GameTotalsEngine.SpreadPrediction.current_spread
       GameTotalsEngine.SpreadPrediction.momentum_indicator].
  set (spread := (LiveGameData.home_score game_data
                  - LiveGameData.away_score game_data)%Z).
  match goal with
  | |- context [Py.abs ?x] => set (abs_proj := Py.abs x)
  end.
  assert (Habs : 0 <= abs_proj) by apply Qabs_nonneg.
  clearbody abs_proj.
  set (close := Py.max 5 (Py.min 60 (45 - abs_proj * 3))).
  set (blowout := Py.max 2 (Py.min 50 (abs_proj * 2.5 - 10))).
  assert (Hclose : Spec.within 5 45 close
                   /\ (40 # 3 <= abs_proj -> close == 5)
                   /\ (24 # 5 < abs_proj -> close <= 31)).
  { unfold close, Py.max, Py.min.
    destruct (Q.max_spec 5 (Qmin 60 (45 - abs_proj * 3))) as [[? Hx] | [? Hx]];
      destruct (Q.min_spec 60 (45 - abs_proj * 3)) as [[? Hm] | [? Hm]];
      unfold Spec.within; repeat split; intros; lra. }
  assert (Hblow : Spec.within 2 50 blowout
                  /\ (abs_proj <= 24 # 5 -> blowout == 2)
                  /\ (abs_proj < 40 # 3 -> blowout <= 24)).
  { unfold blowout, Py.max, Py.min.
    destruct (Q.max_spec 2 (Qmin 50 (abs_proj * 2.5 - 10))) as [[? Hx] | [? Hx]];
      destruct (Q.min_spec 50 (abs_proj * 2.5 - 10)) as [[? Hm] | [? Hm]];
      unfold Spec.within; repeat split; intros; lra. }
  clearbody close blowout.
  destruct Hclose as ([Hc5 Hc45] & Hc1 & Hc2).
  destruct Hblow as ([Hb2 Hb50] & Hb1 & Hb3).
  split; [apply (round_nd_between 5 45); assumption |].
  split; [apply (round_nd_between 2 50); assumption |].
  split.
  { destruct (Qlt_le_dec abs_proj (40 # 3)) as [Hlow | Hhigh].
    - destruct (Qlt_le_dec (24 # 5) abs_proj) as [Hmid | Hsmall].
      + pose proof (proj2 (round_nd_between 5 31 close 1 Hc5 (Hc2 Hmid))).
        pose proof (proj2 (round_nd_between 2 24 blowout 1 Hb2 (Hb3 Hlow))).
        unfold inject_Z in *. lra.
      + assert (Hb : blowout <= 2) by (rewrite (Hb1 Hsmall); lra).
        pose proof (proj2 (round_nd_between 5 45 close 1 Hc5 Hc45)).
        pose proof (proj2 (round_nd_between 2 2 blowout 1 Hb2 Hb)).
        unfold inject_Z in *. lra.
    - assert (Hc : close <= 5) by (rewrite (Hc1 Hhigh); lra).
      pose proof (proj2 (round_nd_between 5 5 close 1 Hc5 Hc)).
      pose proof (proj2 (round_nd_between 2 50 blowout 1 Hb2 Hb50)).
      unfold inject_Z in *. lra. }
  split.
  { apply (round_nd_between 50 75);
      destruct (Z.abs spread >? 15)%Z, home_ratings, away_ratings;
      vm_compute; discriminate. }
  destruct (spread >? 5)%Z eqn:Hhome.
  - apply Z.gtb_lt in Hhome.
    assert (Hlead : (spread >? 0)%Z = true) by (apply Z.gtb_lt; lia).
    rewrite Hlead.
    destruct (Py.str_eqb _ "accelerating"); cbn [andb].
    + left. split; [reflexivity | lia].
    + destruct (spread <? -5)%Z; right; right; reflexivity.
  - cbn [andb]. destruct (spread <? -5)%Z eqn:Haway.
    + apply Z.ltb_lt in Haway.
      assert (Hlead : (spread >? 0)%Z = false)
        by (rewrite Z.gtb_ltb; apply Z.ltb_ge; lia).
      rewrite Hlead.
      destruct (Py.str_eqb _ "accelerating"); cbn [andb negb].
      * right; left. split; [reflexivity | exact Haway].
      * right; right; reflexivity.
    + right; right; reflexivity.
Qed.

Section TotalsFacts.
Import Py GameTotalsEngine.

(** The variance of the projected total is at least the base variance. *)
Lemma calculate_variance_ge_4 pace home_s away_s :
  4 <= _calculate_variance pace home_s away_s.
Proof.
  unfold _calculate_variance. cbv zeta. cbn [fold_left].
  set (dev := abs (PaceAnalysis.pace_deviation pace)).
  assert (Hdev : 0 <= dev) by apply Qabs_nonneg.
  set (three := max 0 _).
  assert (Hthree : 0 <= three) by apply Q.le_max_l.
  clearbody dev three.
  set (shooting :=
         if is_extreme (TeamShootingProfile.shooting_variance_level away_s)
         then _ else _).
  assert (Hs : 1 <= shooting).
  { unfold shooting.
    destruct (is_extreme (TeamShootingProfile.shooting_variance_level home_s));
      [| destruct (is_hot_or_cold
                     (TeamShootingProfile.shooting_variance_level home_s))];
      (destruct (is_extreme (TeamShootingProfile.shooting_variance_level away_s));
       [| destruct (is_hot_or_cold
                      (TeamShootingProfile.shooting_variance_level away_s))]);
      lra. }
  clearbody shooting.
  assert (H1 : 1 <= (1.0 + dev * 0.02) * shooting) by nra.
  assert (H2 : 1 <= (1.0 + dev * 0.02) * shooting * (1.0 + three)) by nra.
  nra.
Qed.

End TotalsFacts.

(** X23.  The projected range always contains the projected total, with at
    least four points on either side; the published bounds and total keep
    that order. *)
Theorem over_under_range_contains_total projected_total reference_line
    season_avg_total home_s away_s pace :
  let variance := GameTotalsEngine._calculate_variance pace home_s away_s in
  let v :=
    GameTotalsEngine._calculate_over_under_locals
      projected_total variance reference_line season_avg_total
      home_s away_s pace in
  let published :=
    GameTotalsEngine._calculate_over_under
      projected_total variance reference_line season_avg_total
      home_s away_s pace in
  GameTotalsEngine.OverUnderLocals.range_low v <= projected_total - 4
  /\ projected_total + 4 <= GameTotalsEngine.OverUnderLocals.range_high v
  /\ GameTotalsEngine.OverUnderRecommendation.projected_range_low published
     <= GameTotalsEngine.OverUnderRecommendation.projected_total published
  /\ GameTotalsEngine.OverUnderRecommendation.projected_total published
     <= GameTotalsEngine.OverUnderRecommendation.projected_range_high published.
Proof.
  pose proof (calculate_variance_ge_4 pace home_s away_s) as Hv.
  cbv zeta. unfold GameTotalsEngine._calculate_over_under.
  cbn [GameTotalsEngine.OverUnderRecommendation.projected_range_low
       GameTotalsEngine.OverUnderRecommendation.projected_range_high
       GameTotalsEngine.OverUnderRecommendation.projected_total].
  unfold GameTotalsEngine._calculate_over_under_locals. cbv zeta.
  cbn [GameTotalsEngine.OverUnderLocals.range_low
       GameTotalsEngine.OverUnderLocals.range_high].
  set (variance := GameTotalsEngine._calculate_variance pace home_s away_s) in *.
  clearbody variance.
  split; [lra |]. split; [lra |].
  split; apply round_nd_monotone; lra.
Qed.


(** X25.  The blended remaining-points projection is not negative when none
    of its six components is. *)
Theorem weighted_remaining_nonneg a b c d e f :
  0 <= a -> 0 <= b -> 0 <= c -> 0 <= d -> 0 <= e -> 0 <= f ->
  0 <= GameTotalsEngine.weighted_remaining a b c d e f.
Proof.
  intros Ha Hb Hc Hd He Hf.
  rewrite weighted_remaining_coefficients. lra.
Qed.

Lemma weighted_remaining_nonneg_witness :
  0 <= GameTotalsEngine.weighted_remaining 40 45 50 55 60 50.
Proof.
  apply weighted_remaining_nonneg; vm_compute; discriminate.
Defined.

(** X26.  The overtime probability of the quarter projection lies in [0, 15]
    (the cap at 25 is never reached), is the same for both teams, and is
    zero exactly when the projected final margin is 7.5 points or more. *)
Theorem overtime_probability_range projected_remaining game_data home_ratings
    away_ratings home_agg away_agg elapsed_min :
  let v :=
    GameTotalsEngine._project_quarters_locals
      projected_remaining game_data home_ratings away_ratings home_agg
      away_agg elapsed_min in
  let quarters :=
    GameTotalsEngine._project_quarters
      projected_remaining game_data home_ratings away_ratings home_agg
      away_agg elapsed_min in
  let margin :=
    Py.abs (GameTotalsEngine.QuarterLocals.home_proj_final v
            - GameTotalsEngine.QuarterLocals.away_proj_final v) in
  Spec.within 0 15 (GameTotalsEngine.QuarterLocals.ot_prob v)
  /\ (GameTotalsEngine.QuarterLocals.ot_prob v == 0 <-> 7.5 <= margin)
  /\ Spec.within 0 15
       (GameTotalsEngine.TeamQuarterProjection.ot_probability (fst quarters))
  /\ GameTotalsEngine.TeamQuarterProjection.ot_probability (fst quarters)
     = GameTotalsEngine.TeamQuarterProjection.ot_probability (snd quarters).
Proof.
  cbv zeta. unfold GameTotalsEngine._project_quarters. cbv zeta.
  cbn [fst snd GameTotalsEngine.TeamQuarterProjection.ot_probability].
  set (v := GameTotalsEngine._project_quarters_locals _ _ _ _ _ _ _).
  assert (Hot : GameTotalsEngine.QuarterLocals.ot_prob v
                = Py.max 0 (Py.min 25
                    (15 - Py.abs (GameTotalsEngine.QuarterLocals.home_proj_final v
                                  - GameTotalsEngine.QuarterLocals.away_proj_final v)
                          * 2))).
  { unfold v, GameTotalsEngine._project_quarters_locals.
    destruct (LiveGameData.period game_data >=? 4)%Z;
      [| destruct (LiveGameData.period game_data >=? 3)%Z];
      destruct home_ratings, away_ratings; reflexivity. }
  rewrite Hot.
  set (margin := Py.abs _).
  assert (Hm : 0 <= margin) by apply Qabs_nonneg.
  clearbody margin. clear Hot. unfold Py.max, Py.min.
  assert (H : Spec.within 0 15 (Qmax 0 (Qmin 25 (15 - margin * 2)))
              /\ (Qmax 0 (Qmin 25 (15 - margin * 2)) == 0 <-> 7.5 <= margin)).
  { destruct (Q.max_spec 0 (Qmin 25 (15 - margin * 2))) as [[? Hx] | [? Hx]];
      destruct (Q.min_spec 25 (15 - margin * 2)) as [[? Hn] | [? Hn]];
      unfold Spec.within; repeat split; intros; lra. }
  destruct H as [[H0 H15] Hz].
  split; [split; assumption |]. split; [exact Hz |].
  split; [apply (round_nd_between 0 15); assumption | reflexivity].
Qed.

(** X27.  A larger lead never raises the game-flow projection of the remaining
    points. *)
Theorem game_flow_projection_antitone closer wider scoring_rate
    current_total_1 current_total_2 remaining_min :
  0 <= scoring_rate * remaining_min ->
  (LiveGameData.score_differential closer
   <= LiveGameData.score_differential wider)%Z ->
  GameTotalsEngine._game_flow_projection wider scoring_rate current_total_2
                                         remaining_min
  <= GameTotalsEngine._game_flow_projection closer scoring_rate
                                            current_total_1 remaining_min.
Proof.
  intros Hbase Hdiff. unfold GameTotalsEngine._game_flow_projection.
  cbv zeta.
  unfold GameTotalsEngine.BLOWOUT_THRESHOLD,
    GameTotalsEngine.CLOSE_GAME_THRESHOLD,
    GameTotalsEngine.MODERATE_LEAD_THRESHOLD.
  set (base := scoring_rate * remaining_min) in *. clearbody base.
  set (d1 := Z.abs (LiveGameData.score_differential closer)).
  set (d2 := Z.abs (LiveGameData.score_differential wider)).
  assert (Hd : (d1 <= d2)%Z).
  { unfold d1, d2, LiveGameData.score_differential in *. lia. }
  clearbody d1 d2.
  repeat match goal with
    | |- context [(?a >=? ?b)%Z] =>
        let E := fresh "E" in
        destruct (a >=? b)%Z eqn:E;
        [apply Z.geb_le in E | rewrite Z.geb_leb in E; apply Z.leb_gt in E]
    | |- context [(?a <=? ?b)%Z] =>
        let E := fresh "E" in
        destruct (a <=? b)%Z eqn:E;
        [apply Z.leb_le in E | apply Z.leb_gt in E]
    end; try lia; lra.
Qed.

Lemma game_flow_projection_antitone_witness :
  GameTotalsEngine._game_flow_projection Examples.game_1 4 100 24
  <= GameTotalsEngine._game_flow_projection Examples.tied_game 4 100 24.
Proof.
  apply game_flow_projection_antitone; vm_compute; discriminate.
Defined.

Section NoTimeLeft.
Import Py GameTotalsEngine.

(** [max(48.0 - elapsed_min, 0.0)] once regulation time is over. *)
Lemma remaining_min_zero elapsed_min :
  48 <= elapsed_min -> max (48.0 - elapsed_min) 0.0 == 0.
Proof.
  intros H. unfold max. rewrite Q.max_r; lra.
Qed.

(** With no time left the star component is never negative, and zero
    when no star is listed. *)
Lemma star_utilization_no_time stars scoring_rate current_total remaining_min :
  remaining_min == 0 ->
  0 <= _star_utilization_projection stars scoring_rate current_total
                                    remaining_min
  /\ (stars = [] ->
      _star_utilization_projection stars scoring_rate current_total
                                   remaining_min == 0).
Proof.
  intros Hrem. unfold _star_utilization_projection. cbv zeta.
  destruct stars as [| s rest].
  - split; [| intros _]; rewrite Hrem; ring_simplify; lra.
  - split; [| discriminate].
    match goal with
    | |- 0 <= max ?a ?b =>
        assert (Hb : b == 0) by (rewrite Hrem; ring);
        pose proof (Q.le_max_r a b) as Hmax
    end.
    unfold max. lra.
Qed.
End NoTimeLeft.

(** X28.  Once regulation time is over (48 elapsed minutes or more, as in
    overtime) the advanced engine projects no further scoring from pace,
    shooting, game flow, ratings or regression: the projected remaining
    points are never negative, and with no star player listed they are
    zero, so the projected final total is the current total. *)
Theorem no_scoring_after_regulation game_data home_agg away_agg home_ratings
    away_ratings reference_line elapsed_min pace home_shooting away_shooting
    stars :
  48 <= elapsed_min ->
  let p :=
    GameTotalsEngine.analyze_steps_4_to_9
      game_data home_agg away_agg home_ratings away_ratings reference_line
      elapsed_min pace home_shooting away_shooting stars in
  0 <= GameTotalsEngine.Projection.projected_remaining p
  /\ (stars = [] ->
      GameTotalsEngine.Projection.projected_remaining p == 0
      /\ GameTotalsEngine.Projection.projected_final p
         == inject_Z (LiveGameData.total_score game_data)).
Proof.
  intros Hover. cbv zeta. unfold GameTotalsEngine.analyze_steps_4_to_9.
  cbv zeta.
  pose proof (remaining_min_zero elapsed_min Hover) as Hrem.
  set (remaining := Py.max (48.0 - elapsed_min) 0.0) in *. clearbody remaining.
  destruct (GameTotalsEngine._project_quarters _ _ _ _ _ _ _) as [home_q away_q].
  cbn [GameTotalsEngine.Projection.projected_remaining
       GameTotalsEngine.Projection.projected_final].
  rewrite weighted_remaining_coefficients.
  set (rate := inject_Z (LiveGameData.total_score game_data)
               / Py.max elapsed_min 1).
  destruct (star_utilization_no_time
              stars rate (LiveGameData.total_score game_data) remaining Hrem)
    as [Hs0 Hs1].
  set (star := GameTotalsEngine._star_utilization_projection _ _ _ _) in *.
  clearbody star rate.
  assert (Hpace : GameTotalsEngine._pace_projection
                    pace home_agg away_agg
                    (LiveGameData.total_score game_data) remaining elapsed_min
                  == 0).
  { unfold GameTotalsEngine._pace_projection. cbv zeta. rewrite Hrem. ring. }
  assert (Hshoot : GameTotalsEngine._shooting_projection
                     home_shooting away_shooting rate
                     (LiveGameData.total_score game_data) remaining == 0).
  { unfold GameTotalsEngine._shooting_projection. cbv zeta.
    repeat match goal with
      | |- context [if ?c then _ else _] => destruct c
      end; rewrite Hrem; ring. }
  assert (Hflow : GameTotalsEngine._game_flow_projection
                    game_data rate (LiveGameData.total_score game_data)
                    remaining == 0).
  { unfold GameTotalsEngine._game_flow_projection. cbv zeta.
    repeat match goal with
      | |- context [if ?c then _ else _] => destruct c
      end; rewrite Hrem; ring. }
  assert (Hfrac : remaining / 48.0 == 0) by (rewrite Hrem; reflexivity).
  assert (Hrat : GameTotalsEngine._team_ratings_projection
                   home_ratings away_ratings
                   (LiveGameData.total_score game_data) remaining == 0).
  { unfold GameTotalsEngine._team_ratings_projection.
    destruct home_ratings, away_ratings; cbv zeta; rewrite Hfrac; ring. }
  rewrite Hpace, Hshoot, Hflow, Hrat, Hfrac.
  set (season := match home_ratings with Some _ => _ | None => _ end).
  clearbody season.
  split; [lra |]. intros Hnil. specialize (Hs1 Hnil).
  rewrite Hs1. split; ring.
Qed.

Lemma no_scoring_after_regulation_witness :
  let p :=
    GameTotalsEngine.analyze_steps_4_to_9
      Examples.game_1
      (TeamAgg.aggregate_team_box_score [Examples.home_starter])
      (TeamAgg.aggregate_team_box_score [])
      None None None 53 Examples.steady_pace
      (Examples.hot_shooting "HOM") (Examples.hot_shooting "AWY") [] in
  GameTotalsEngine.Projection.projected_remaining p == 0
  /\ GameTotalsEngine.Projection.projected_final p
     == inject_Z (LiveGameData.total_score Examples.game_1).
Proof.
  apply (no_scoring_after_regulation
           Examples.game_1
           (TeamAgg.aggregate_team_box_score [Examples.home_starter])
           (TeamAgg.aggregate_team_box_score [])
           None None None 53 Examples.steady_pace
           (Examples.hot_shooting "HOM") (Examples.hot_shooting "AWY") []).
  - vm_compute. discriminate.
  - reflexivity.
Defined.
